(** * pdfcompress: the compression orchestrator of [main.py], embedded in Rocq

    The script compresses PDF files with Ghostscript, falls back to pikepdf,
    keeps an output only when it is smaller than its source, and sums the
    results of a batch.  This development embeds [main.py] function by
    function:

    - Python [int] is [Z]; Python [float] is the kernel's binary64 [float];
      [str] is [string]; [pathlib] paths are a record of an anchor and the
      list of their components;
    - the file system is a tree of directories ([gmap string node]) and
      files; a path is resolved in it component by component as the
      operating system does, [..] included, and a failed resolution is
      ENOENT or ENOTDIR;
    - the functions that touch the outside world run in a state-and-exception
      monad over a [World]: the file system, the scoped temporary workspace
      and the chronological trace of every I/O operation performed;
    - Ghostscript, pikepdf, [shutil.which], [tempfile] and the I/O errors of
      [shutil.move], with what a failed move leaves behind, are oracles of
      an [Env]: the theorems hold for every environment. *)

From Stdlib Require Import ZArith String Ascii List Bool Lia.
From Stdlib Require Import DecimalString.
From Stdlib Require Import Floats.
From stdpp Require Import base option gmap strings list fin_maps.

Local Open Scope Z_scope.

(* ===================================================================== *)
(** ** Python strings *)
(* ===================================================================== *)

Module PyStr.

(** [str(n)] for an [int]. *)
Definition of_int (n : Z) : string := NilZero.string_of_int (Z.to_int n).

(** [sep.join(l)]. *)
Fixpoint join (sep : string) (l : list string) : string :=
  match l with
  | [] => EmptyString
  | [x] => x
  | x :: rest => x +:+ sep +:+ join sep rest
  end.

(** [str.isspace] on one character of the ASCII range: tab to carriage
    return, the four separators 0x1c-0x1f and the space.  A [string] here
    is a sequence of 8-bit characters: the white space that Python knows
    outside ASCII (U+0085, U+00A0, U+2000 and so on) is not represented,
    and [strip] below removes the ASCII white space only. *)
Definition isspace (c : ascii) : bool :=
  let n := N.to_nat (N_of_ascii c) in
  ((9 <=? n)%nat && (n <=? 13)%nat) || ((28 <=? n)%nat && (n <=? 32)%nat).

Fixpoint lstrip (s : string) : string :=
  match s with
  | String c rest => if isspace c then lstrip rest else s
  | EmptyString => EmptyString
  end.

Fixpoint rstrip (s : string) : string :=
  match s with
  | EmptyString => EmptyString
  | String c rest =>
      match rstrip rest with
      | EmptyString => if isspace c then EmptyString else String c EmptyString
      | r => String c r
      end
  end.

(** [s.strip()], on the ASCII range. *)
Definition strip (s : string) : string := rstrip (lstrip s).

(** [c.lower()] and [s.lower()] on the ASCII range. *)
Definition lower_ascii (c : ascii) : ascii :=
  let n := N_of_ascii c in
  if ((65 <=? n) && (n <=? 90))%N then ascii_of_N (n + 32) else c.

Fixpoint lower (s : string) : string :=
  match s with
  | EmptyString => EmptyString
  | String c rest => String (lower_ascii c) (lower rest)
  end.

(** [s.rfind(c)]: the index of the last occurrence, [None] for -1. *)
Fixpoint rfind (c : ascii) (s : string) : option nat :=
  match s with
  | EmptyString => None
  | String d rest =>
      match rfind c rest with
      | Some i => Some (S i)
      | None => if Ascii.eqb c d then Some 0%nat else None
      end
  end.

(** [s[:i]] and [s[i:]]. *)
Fixpoint take (i : nat) (s : string) : string :=
  match i, s with
  | S j, String c rest => String c (take j rest)
  | _, _ => EmptyString
  end.

Fixpoint drop (i : nat) (s : string) : string :=
  match i, s with
  | S j, String _ rest => drop j rest
  | _, _ => s
  end.

(** [s.endswith(suffix)]. *)
Definition endswith (s suffix : string) : bool :=
  let n := String.length s in
  let k := String.length suffix in
  (k <=? n)%nat && String.eqb (drop (n - k) s) suffix.

(** [s.split(sep)] for a one-character separator. *)
Fixpoint split (sep : ascii) (s : string) : list string :=
  match s with
  | EmptyString => [EmptyString]
  | String c rest =>
      if Ascii.eqb c sep then EmptyString :: split sep rest
      else match split sep rest with
           | [] => [String c EmptyString]
           | w :: ws => String c w :: ws
           end
  end.

(** [os.path.join(a, b)] for a [b] that does not start with a slash. *)
Definition path_join (a b : string) : string :=
  if String.eqb a "" || endswith a "/" then a +:+ b else a +:+ "/" +:+ b.

(** [needle in s]: [s] is [pre + needle + post]. *)
Definition contains (s needle : string) : Prop :=
  exists pre post : string, s = pre +:+ needle +:+ post.

End PyStr.

(* ===================================================================== *)
(** ** Python floats *)
(* ===================================================================== *)

Module PyFloat.


(** [float(n)] where [float_ok n]: the binary64 number nearest to [n], ties
    to even.  Outside that range, where Python raises, this is an infinity;
    the sizes that the script formats are those of files (an [off_t], below
    2^63) and their sums. *)
Definition of_int (n : Z) : float :=
  SF2Prim (binary_normalize prec emax n 0 false).

(** [a / b] on two [int]s (true division), for operands that binary64
    holds exactly (below 2^53), and [x * 100.0]. *)
Definition truediv (a b : Z) : float := PrimFloat.div (of_int a) (of_int b).

Definition hundred : float := of_int 100.

(** [int(x)]: truncation toward zero ([0] stands for the error Python
    raises on an infinity or a NaN). *)
Definition to_int (x : float) : Z :=
  match Prim2SF x with
  | S754_finite s m e =>
      let a := if (0 <=? e) then Z.pos m * 2 ^ e else Z.pos m / 2 ^ (- e) in
      if s then - a else a
  | _ => 0
  end.

(** The integer nearest to [m * 100 * 2^e], ties to even: the digits
    that the format [.2f] prints, which rounds the exact binary value. *)
Definition round_hundredths (m : positive) (e : Z) : Z :=
  if (0 <=? e) then Z.pos m * 100 * 2 ^ e
  else
    let d := 2 ^ (- e) in
    let q := (Z.pos m * 100) / d in
    let r := (Z.pos m * 100) mod d in
    if (d <? 2 * r) then q + 1
    else if (2 * r =? d) && Z.odd q then q + 1
    else q.

Definition two_digits (n : Z) : string :=
  if (n <? 10) then "0" +:+ PyStr.of_int n else PyStr.of_int n.

(** [f"{x:.2f}"]. *)
Definition format_2f (x : float) : string :=
  match Prim2SF x with
  | S754_zero s => (if s then "-" else "") +:+ "0.00"
  | S754_infinity s => (if s then "-" else "") +:+ "inf"
  | S754_nan => "nan"
  | S754_finite s m e =>
      let h := round_hundredths m e in
      (if s then "-" else "") +:+ PyStr.of_int (h / 100) +:+ "."
        +:+ two_digits (h mod 100)
  end.

End PyFloat.

(* ===================================================================== *)
(** ** [human_bytes] (main.py, lines 45-53) *)
(* ===================================================================== *)

Definition units : list string := ["B"; "KB"; "MB"; "GB"; "TB"]%string.

(** The body of [for u in units], with [size] as the loop leaves it. *)
Fixpoint human_bytes_loop (n : Z) (size : float) (us : list string) : string :=
  match us with
  | [] => PyStr.of_int n +:+ " B"
  | u :: rest =>
      if PrimFloat.ltb size (PyFloat.of_int 1024) || String.eqb u (List.last units "")
      then
        if negb (String.eqb u "B")
        then PyFloat.format_2f size +:+ " " +:+ u
        else PyStr.of_int (PyFloat.to_int size) +:+ " " +:+ u
      else human_bytes_loop n (PrimFloat.div size (PyFloat.of_int 1024)) rest
  end.

(** [human_bytes(n)], for the [n] that [float] accepts
    ([PyFloat.float_ok]); for any other, [float(n)] raises and nothing is
    returned. *)
Definition human_bytes (n : Z) : string :=
  human_bytes_loop n (PyFloat.of_int n) units.

(* ===================================================================== *)
(** ** [pathlib] paths *)
(* ===================================================================== *)

(** A POSIX path: whether it starts at the root, and its components. *)
Record Path := mkPath { absolute : bool; parts : list string }.

Module PyPath.

(** [Path(s)]: empty components and "." are dropped, ".." is kept. *)
Definition of_str (s : string) : Path :=
  {| absolute := match s with String "/" _ => true | _ => false end;
     parts := List.filter (fun c => negb (String.eqb c "" || String.eqb c "."))
                          (PyStr.split "/" s) |}.

(** [str(p)]. *)
Definition to_str (p : Path) : string :=
  if absolute p then "/" +:+ PyStr.join "/" (parts p)
  else match parts p with
       | [] => "."
       | _ => PyStr.join "/" (parts p)
       end.

(** [p.name]: the last component, empty for the root and for ".". *)
Definition name (p : Path) : string := List.last (parts p) "".

(** [p.suffix] and [p.stem]: the name is cut at its last dot, unless that
    dot starts or ends the name. *)
Definition suffix_at (nm : string) : option nat :=
  match PyStr.rfind "." nm with
  | Some i => if (0 <? i)%nat && (i <? String.length nm - 1)%nat
              then Some i else None
  | None => None
  end.

Definition suffix (p : Path) : string :=
  match suffix_at (name p) with
  | Some i => PyStr.drop i (name p)
  | None => ""
  end.

Definition stem (p : Path) : string :=
  match suffix_at (name p) with
  | Some i => PyStr.take i (name p)
  | None => name p
  end.

(** [p.parent]: the root and "." are their own parents. *)
Definition parent (p : Path) : Path :=
  {| absolute := absolute p; parts := List.removelast (parts p) |}.

(** [a / b] for two paths: an absolute right operand replaces the left. *)
Definition joinpath (a b : Path) : Path :=
  if absolute b then b
  else {| absolute := absolute a; parts := parts a ++ parts b |}.

(** [a / s] for a string that is a file name (no separator in it). *)
Definition join_name (a : Path) (s : string) : Path :=
  joinpath a {| absolute := false;
                parts := if String.eqb s "" then [] else [s] |}.

(** [strip_prefix pre l]: [Some r] when [l = pre ++ r]. *)
Fixpoint strip_prefix (pre l : list string) : option (list string) :=
  match pre, l with
  | [], _ => Some l
  | a :: pre', b :: l' => if String.eqb a b then strip_prefix pre' l' else None
  | _ :: _, [] => None
  end.

(** [p.relative_to(other)]: [None] is the ValueError that Python raises
    when [p] is not under [other]. *)
Definition relative_to (p other : Path) : option Path :=
  if Bool.eqb (absolute p) (absolute other) then
    match strip_prefix (parts other) (parts p) with
    | Some r => Some {| absolute := false; parts := r |}
    | None => None
    end
  else None.

(** The order of [sorted] on paths: the lists of components are compared,
    each component as a string, with the root as the first component of an
    absolute path. *)
Fixpoint parts_leb (a b : list string) : bool :=
  match a, b with
  | [], _ => true
  | _ :: _, [] => false
  | x :: a', y :: b' =>
      match String.compare x y with
      | Lt => true
      | Gt => false
      | Eq => parts_leb a' b'
      end
  end.

Definition cparts (p : Path) : list string :=
  if absolute p then "/"%string :: parts p else parts p.

Definition leb (a b : Path) : bool := parts_leb (cparts a) (cparts b).

Fixpoint insert_sorted (p : Path) (l : list Path) : list Path :=
  match l with
  | [] => [p]
  | q :: rest => if leb p q then p :: l else q :: insert_sorted p rest
  end.

(** [sorted(paths)] (stable). *)
Definition sorted (l : list Path) : list Path :=
  List.fold_right insert_sorted [] l.

(** Lexical removal of ".." (the file system of this model has no
    symbolic links): [acc] holds the components kept so far, reversed. *)
Fixpoint normalize (acc : list string) (l : list string) : list string :=
  match l with
  | [] => List.rev acc
  | c :: rest =>
      if String.eqb c ".." then normalize (List.tl acc) rest
      else normalize (c :: acc) rest
  end.

(** [p.expanduser()], for a leading "~" (other users are not modelled). *)
Definition expanduser (home : list string) (p : Path) : Path :=
  match absolute p, parts p with
  | false, c :: rest =>
      if String.eqb c "~" then {| absolute := true; parts := home ++ rest |}
      else p
  | _, _ => p
  end.

(** [p.resolve()]. *)
Definition resolve (cwd : list string) (p : Path) : Path :=
  {| absolute := true;
     parts := normalize [] (if absolute p then parts p else cwd ++ parts p) |}.

End PyPath.

(* ===================================================================== *)
(** ** [ensure_output_path] (main.py, lines 65-81) *)
(* ===================================================================== *)

Definition ensure_output_path (src : Path) (input_root : option Path)
    (out_dir : Path) : Path :=
  match input_root with
  | None => PyPath.join_name out_dir (PyPath.name src)
  | Some root =>
      match PyPath.relative_to src root with
      | Some rel => PyPath.joinpath out_dir rel
      | None => PyPath.join_name out_dir (PyPath.name src)   (* fallback *)
      end
  end.

(* ===================================================================== *)
(** ** The file system *)
(* ===================================================================== *)

(** A node is a file with its bytes or a directory with its entries.  The
    root is a directory: the file system is the map of its entries.  The
    entries are named by plain names; [..] is not an entry but a step of
    the resolution of a path. *)
#[warnings="-register-all"]
Inductive node :=
| File (data : list Byte.byte)
| Dir (entries : gmap string node).

Module Fs.

(** The errors of a path operation that the script can meet. *)
Inductive Errno := ENOENT | ENOTDIR | EEXIST.

(** The node at a location: a list of entry names from the root down
    ([[]] is the root). *)
Fixpoint get (loc : list string) (d : gmap string node) : option node :=
  match loc with
  | [] => Some (Dir d)
  | c :: rest =>
      match d !! c with
      | Some (Dir d') => get rest d'
      | Some (File data) =>
          match rest with [] => Some (File data) | _ :: _ => None end
      | None => None
      end
  end.

(** A node is placed at a location whose parent is a directory, replacing
    what was there; [None] when the parent is no directory or the location
    is the root. *)
Fixpoint set (loc : list string) (n : node) (d : gmap string node)
  : option (gmap string node) :=
  match loc with
  | [] => None
  | [c] => Some (<[c := n]> d)
  | c :: rest =>
      match d !! c with
      | Some (Dir d') =>
          match set rest n d' with
          | Some d'' => Some (<[c := Dir d'']> d)
          | None => None
          end
      | _ => None
      end
  end.

(** One step of the resolution of a path, from the location [at_]: the
    node there must be a directory; [..] leads to its parent (the root is
    its own parent), a name to the entry of that name. *)
Definition step (d : gmap string node) (at_ : list string) (c : string)
  : Errno + list string :=
  match get at_ d with
  | Some (Dir _) =>
      if String.eqb c ".." then inr (List.removelast at_)
      else match get (at_ ++ [c]) d with
           | Some _ => inr (at_ ++ [c])
           | None => inl ENOENT
           end
  | Some (File _) => inl ENOTDIR
  | None => inl ENOENT
  end.

(** The resolution of the components [p] from the location [at_]: the
    location reached, or the error of the first step that fails. *)
Fixpoint walk (d : gmap string node) (at_ : list string) (p : list string)
  : Errno + list string :=
  match p with
  | [] => inr at_
  | c :: rest =>
      match step d at_ c with
      | inr at' => walk d at' rest
      | inl e => inl e
      end
  end.

(** [os.stat]: the node that a path leads to, from the root. *)
Definition stat (p : list string) (d : gmap string node) : Errno + node :=
  match walk d [] p with
  | inr at_ =>
      match get at_ d with
      | Some n => inr n
      | None => inl ENOENT
      end
  | inl e => inl e
  end.

Definition find (p : list string) (d : gmap string node) : option node :=
  match stat p d with inr n => Some n | inl _ => None end.

Definition exists_ (p : list string) (d : gmap string node) : bool :=
  match find p d with Some _ => true | None => false end.

Definition is_dir (p : list string) (d : gmap string node) : bool :=
  match find p d with Some (Dir _) => true | _ => false end.

(** What [mkdir(parents=True, exist_ok=True)] does: the file system it
    leaves, and when it raises, the error and the number of leading
    components of the path that the exception names. *)
Inductive MkdirRun :=
| MkdirOk (d' : gmap string node)
| MkdirRaised (e : Errno) (upto : nat) (d' : gmap string node).

(** pathlib tries [os.mkdir] on the whole path; on ENOENT it makes the
    parent the same way and tries again; any other error is passed over
    when the path is a directory.  Component by component from [at_]: [..]
    leads to the parent, a directory is entered, a missing name is made
    and entered.  A regular file in the way ends the call.  While nothing
    was made ([made = false]) it is the first [os.mkdir] that fails, on the
    whole path: EEXIST when the file is the last component, ENOTDIR
    otherwise.  After a directory was made (which takes a [..] after it to
    reach a file), it is the second try on the prefix that ends at the
    file, with EEXIST, and the directories made so far stay.  [k] counts
    the components passed. *)
Fixpoint mkdirs_from (d : gmap string node) (at_ : list string) (made : bool)
    (k : nat) (p : list string) : MkdirRun :=
  match p with
  | [] => MkdirOk d
  | c :: rest =>
      if String.eqb c ".." then mkdirs_from d (List.removelast at_) made (S k) rest
      else
        match get (at_ ++ [c]) d with
        | Some (Dir _) => mkdirs_from d (at_ ++ [c]) made (S k) rest
        | Some (File _) =>
            if made then MkdirRaised EEXIST (S k) d
            else MkdirRaised (match rest with [] => EEXIST | _ :: _ => ENOTDIR end)
                             (S k + length rest) d
        | None =>
            match set (at_ ++ [c]) (Dir ∅) d with
            | Some d' => mkdirs_from d' (at_ ++ [c]) true (S k) rest
            | None => MkdirRaised ENOTDIR (S k + length rest) d
            end
        end
  end.

Definition mkdirs_run (p : list string) (d : gmap string node) : MkdirRun :=
  mkdirs_from d [] false 0 p.

(** The file system after a [mkdir] that succeeds. *)
Definition mkdirs (p : list string) (d : gmap string node)
  : option (gmap string node) :=
  match mkdirs_run p d with
  | MkdirOk d' => Some d'
  | MkdirRaised _ _ _ => None
  end.

(** A file is put at a path: its parent must lead to a directory, and its
    last component must be a name that is free or that of a file, which is
    replaced; [None] otherwise. *)
Definition put (p : list string) (data : list Byte.byte) (d : gmap string node)
  : option (gmap string node) :=
  match p with
  | [] => None
  | _ :: _ =>
      let c := List.last p "" in
      match walk d [] (List.removelast p) with
      | inr at_ =>
          if String.eqb c ".." then None
          else match get (at_ ++ [c]) d with
               | Some (Dir _) => None
               | _ => set (at_ ++ [c]) (File data) d
               end
      | inl _ => None
      end
  end.

(** The entries of a directory whose name ends with [ext]: what
    [glob("*" + ext)] matches (hidden files included, case-sensitive). *)
Definition glob (ext : string) (d : gmap string node) : list (list string) :=
  map_fold (fun nm _ acc => if PyStr.endswith nm ext then acc ++ [[nm]] else acc)
           [] d.

(** [rglob("*" + ext)]: the same, in the directory and all below it. *)
Fixpoint rglob_node (ext : string) (n : node) : list (list string) :=
  match n with
  | File _ => []
  | Dir d =>
      map_fold (fun nm child acc =>
                  acc ++ (if PyStr.endswith nm ext then [[nm]] else [])
                      ++ ((fun p => nm :: p) <$> rglob_node ext child))
               [] d
  end.

End Fs.

(* ===================================================================== *)
(** ** The outside world *)
(* ===================================================================== *)

Inductive LogLevel := INFO | WARNING | ERROR.

(** Every operation that leaves the process, in the order performed. *)
Inductive Event :=
| IoStat (p : Path)                       (* p.stat() *)
| IoExists (p : Path)                     (* p.exists() *)
| IoIsDir (p : Path)                      (* p.is_dir() *)
| IoMkdir (p : Path)                      (* p.mkdir(parents=True, exist_ok=True) *)
| IoResolve (p : Path)                    (* p.resolve() *)
| IoGlob (p : Path) (pattern : string) (recursive : bool)
| IoMkdtemp (td : Path)                   (* tempfile.TemporaryDirectory: enter *)
| IoCleanup (td : Path)                   (* tempfile.TemporaryDirectory: exit *)
| IoWhich (cmd : string)                  (* shutil.which *)
| IoSubprocess (argv : list string)       (* subprocess.run *)
| IoPikepdf (src tmp_out : string)        (* pikepdf.open ... pdf.save *)
| IoMove (src dst : string)               (* shutil.move *)
| IoLog (level : LogLevel) (msg : string) (* LOG.info / warning / error *)
| IoPrint (line : string).                (* print *)

(** The exceptions that the modelled code lets escape. *)
Inductive PyExc :=
| FileNotFoundError (p : string)
| FileExistsError (p : string)
| NotADirectoryError (p : string)
| TypeError (msg : string).

(** What one run of Ghostscript does: it exits with a return code and its
    two output streams, having left [gs_written] at [-sOutputFile] ([None]:
    no file there); or the process could not be run. *)
Inductive GsRun :=
| GsExit (returncode : Z) (stdout stderr : string)
         (gs_written : option (list Byte.byte))
| GsRaised (e : string).

(** What pikepdf does: it saves the optimized bytes, or raises. *)
Inductive PikeRun :=
| PikeSaved (data : list Byte.byte)
| PikeRaised (e : string).

(** What the operating system makes of a [shutil.move]: the file is moved;
    or an OSError is raised (permissions, a full device).  [shutil.move]
    renames, and when the rename fails it copies and then unlinks: an
    error may leave a partial or complete copy at the destination
    ([copied]), or nothing ([None]). *)
Inductive MoveRun :=
| MoveDone
| MoveRaised (e : string) (copied : option (list Byte.byte)).

(** The environment of a run: everything the script does not decide.  Of
    the errors of the operating system (permissions, a full device), those
    of [shutil.move] are modelled, the one place where the script catches
    them.  [env_cwd] is where the working directory is: relative paths are
    resolved from there, and the operating system keeps it a directory
    ([cwd_ok] below). *)
Record Env := mkEnv {
  env_cwd : list string;                     (* the working directory *)
  env_home : list string;                    (* the home directory *)
  env_dir_size : Z;                          (* st_size of a directory *)
  env_which_gs : option string;              (* shutil.which("gs") *)
  env_mkdtemp : nat -> Path;                 (* the n-th temporary directory *)
  env_gs : list string -> gmap string node -> GsRun;
  env_pikepdf : option (string -> gmap string node -> PikeRun);
                                             (* None: the import failed *)
  env_move : string -> string -> MoveRun     (* shutil.move(src, dst) *)
}.

(** The state: the file system; the content of [tmp_out], the one file
    that is ever put in the temporary directory of a [with] block (the
    directory is fresh, outside every path the script is given, and is
    removed when the block is left, so it is kept apart from [w_fs]); the
    number of temporary directories made so far; the trace. *)
Record World := mkWorld {
  w_fs : gmap string node;
  w_tmp : option (list Byte.byte);
  w_ntmp : nat;
  w_trace : list Event
}.

(** A computation returns a value or raises, and leaves a world. *)
Inductive Res (A : Type) :=
| Ok (a : A)
| Raise (e : PyExc).
Arguments Ok {A} a.
Arguments Raise {A} e.

Definition M (A : Type) : Type := World -> Res A * World.

#[global] Instance M_ret : MRet M := fun A a w => (Ok a, w).
#[global] Instance M_bind : MBind M := fun A B f m w =>
  match m w with
  | (Ok a, w') => f a w'
  | (Raise e, w') => (Raise e, w')
  end.

Definition raise {A} (e : PyExc) : M A := fun w => (Raise e, w).

Definition emit (ev : Event) : M unit := fun w =>
  (Ok tt, {| w_fs := w_fs w; w_tmp := w_tmp w; w_ntmp := w_ntmp w;
             w_trace := w_trace w ++ [ev] |}).

Definition get_fs : M (gmap string node) := fun w => (Ok (w_fs w), w).

Definition set_fs (d : gmap string node) : M unit := fun w =>
  (Ok tt, {| w_fs := d; w_tmp := w_tmp w; w_ntmp := w_ntmp w;
             w_trace := w_trace w |}).

Definition get_tmp : M (option (list Byte.byte)) := fun w => (Ok (w_tmp w), w).

Definition set_tmp (t : option (list Byte.byte)) : M unit := fun w =>
  (Ok tt, {| w_fs := w_fs w; w_tmp := t; w_ntmp := w_ntmp w;
             w_trace := w_trace w |}).

Section Program.

Context (env : Env).

(** Where a path points in the file system. *)
Definition locate (p : Path) : list string :=
  if absolute p then parts p else env_cwd env ++ parts p.

Definition st_size (n : node) : Z :=
  match n with
  | File data => Z.of_nat (length data)
  | Dir _ => env_dir_size env
  end.

(** The exception that pathlib raises for an error of the operating
    system on the path [s]. *)
Definition os_error (e : Fs.Errno) (s : string) : PyExc :=
  match e with
  | Fs.ENOENT => FileNotFoundError s
  | Fs.ENOTDIR => NotADirectoryError s
  | Fs.EEXIST => FileExistsError s
  end.

(** [p.stat().st_size]. *)
Definition stat_size (p : Path) : M Z :=
  _ ← emit (IoStat p);
  d ← get_fs;
  match Fs.stat (locate p) d with
  | inr n => mret (st_size n)
  | inl e => raise (os_error e (PyPath.to_str p))
  end.

(** [p.exists()] and [p.is_dir()]. *)
Definition path_exists (p : Path) : M bool :=
  _ ← emit (IoExists p);
  d ← get_fs;
  mret (Fs.exists_ (locate p) d).

Definition path_is_dir (p : Path) : M bool :=
  _ ← emit (IoIsDir p);
  d ← get_fs;
  mret (Fs.is_dir (locate p) d).

(** The path that is made of the first [upto] components of where [p]
    points: [p] itself, or the ancestor at which a [mkdir] stopped. *)
Definition ancestor (p : Path) (upto : nat) : Path :=
  {| absolute := absolute p;
     parts := take (upto - (length (locate p) - length (parts p))) (parts p) |}.

(** [p.mkdir(parents=True, exist_ok=True)]: the directories that were
    made stay when it raises. *)
Definition mkdir_parents (p : Path) : M unit :=
  _ ← emit (IoMkdir p);
  d ← get_fs;
  match Fs.mkdirs_run (locate p) d with
  | Fs.MkdirOk d' => set_fs d'
  | Fs.MkdirRaised e upto d' =>
      _ ← set_fs d';
      raise (os_error e (PyPath.to_str (ancestor p upto)))
  end.

(** [with tempfile.TemporaryDirectory(prefix="pdfcompress_") as td]: the
    directory is made empty, the body runs, and the directory is removed
    however the body ends. *)
Definition with_tempdir {A} (body : Path -> M A) : M A := fun w =>
  let td := env_mkdtemp env (w_ntmp w) in
  let w1 := {| w_fs := w_fs w; w_tmp := None; w_ntmp := S (w_ntmp w);
               w_trace := w_trace w ++ [IoMkdtemp td] |} in
  let '(r, w2) := body td w1 in
  (r, {| w_fs := w_fs w2; w_tmp := None; w_ntmp := w_ntmp w2;
         w_trace := w_trace w2 ++ [IoCleanup td] |}).

(* =================================================================== *)
(** *** The two strategies (main.py, lines 22-27 and 84-146) *)
(* =================================================================== *)

Definition QUALITY_MAP : list (string * string) :=
  [("screen", "/screen"); ("ebook", "/ebook");
   ("printer", "/printer"); ("prepress", "/prepress")]%string.

(** [QUALITY_MAP.get(quality)]. *)
Fixpoint dict_get (k : string) (l : list (string * string)) : option string :=
  match l with
  | [] => None
  | (k', v) :: rest => if String.eqb k k' then Some v else dict_get k rest
  end.

(** The truth value of an optional string: [None] and "" are false. *)
Definition truthy (o : option string) : option string :=
  match o with
  | Some EmptyString => None
  | _ => o
  end.

(** [a or b], on strings. *)
Definition str_or (a b : string) : string :=
  match a with EmptyString => b | _ => a end.

Definition gs_cmd (gs pdfsettings : string) (src tmp_out : Path) : list string :=
  [gs; "-sDEVICE=pdfwrite"; "-dCompatibilityLevel=1.4"; "-dNOPAUSE";
   "-dBATCH"; "-dSAFER"; "-dPDFSETTINGS=" +:+ pdfsettings;
   "-dDetectDuplicateImages=true"; "-dCompressFonts=true";
   "-dSubsetFonts=true"; "-sOutputFile=" +:+ PyPath.to_str tmp_out;
   PyPath.to_str src]%string.

Definition run_ghostscript_compress (src tmp_out : Path) (quality : string)
  : M (bool * string) :=
  _ ← emit (IoWhich "gs");
  match truthy (env_which_gs env) with
  | None => mret (false, "Ghostscript (gs) not found."%string)
  | Some gs =>
      match truthy (dict_get quality QUALITY_MAP) with
      | None => mret (false, "Unknown quality: " +:+ quality)
      | Some pdfsettings =>
          let cmd := gs_cmd gs pdfsettings src tmp_out in
          _ ← emit (IoSubprocess cmd);
          d ← get_fs;
          match env_gs env cmd d with
          | GsExit returncode stdout stderr written =>
              _ ← set_tmp written;
              if negb (returncode =? 0) then
                mret (false, str_or (PyStr.strip stderr)
                               (str_or (PyStr.strip stdout) "Ghostscript failed."))
              else mret (true, "Compressed with Ghostscript."%string)
          | GsRaised e => mret (false, "Ghostscript execution error: " +:+ e)
          end
      end
  end.

Definition run_pikepdf_optimize (src tmp_out : Path) : M (bool * string) :=
  match env_pikepdf env with
  | None => mret (false, "pikepdf is not installed (fallback unavailable)."%string)
  | Some pikepdf =>
      _ ← emit (IoPikepdf (PyPath.to_str src) (PyPath.to_str tmp_out));
      d ← get_fs;
      match pikepdf (PyPath.to_str src) d with
      | PikeSaved data =>
          _ ← set_tmp (Some data);
          mret (true, "Optimized with pikepdf (structure/streams)."%string)
      | PikeRaised e => mret (false, "pikepdf failed: " +:+ e)
      end
  end.

(* =================================================================== *)
(** *** [safe_write_output] (main.py, lines 149-163) *)
(* =================================================================== *)

(** [shutil.move(str(tmp_out), str(final_out))]: [None] when the file was
    moved, [Some e] for the exception it raised.  A destination that is a
    directory receives the file under its own name, unless that name is
    taken; any other destination is created or replaced.  When the
    operating system refuses the move, what the copy has left of the file
    is at the destination. *)
Definition shutil_move (tmp_out final_out : Path) : M (option string) :=
  let s_tmp := PyPath.to_str tmp_out in
  let s_out := PyPath.to_str final_out in
  _ ← emit (IoMove s_tmp s_out);
  t ← get_tmp;
  d ← get_fs;
  let into_dir := Fs.is_dir (locate final_out) d in
  let real_dst := if into_dir
                  then locate final_out ++ [PyPath.name tmp_out]
                  else locate final_out in
  if into_dir && Fs.exists_ real_dst d
  then mret (Some ("Destination path '"
                     +:+ PyStr.path_join s_out (PyPath.name tmp_out)
                     +:+ "' already exists"))
  else
    match t with
    | None => mret (Some ("[Errno 2] No such file or directory: '"
                           +:+ s_tmp +:+ "'"))
    | Some data =>
        match env_move env s_tmp s_out with
        | MoveRaised e copied =>
            _ ← match copied with
                | Some part =>
                    match Fs.put real_dst part d with
                    | Some d' => set_fs d'
                    | None => mret tt
                    end
                | None => mret tt
                end;
            mret (Some e)
        | MoveDone =>
            match Fs.put real_dst data d with
            | Some d' =>
                _ ← set_fs d';
                _ ← set_tmp None;
                mret None
            | None => mret (Some ("[Errno 2] No such file or directory: '"
                                   +:+ s_out +:+ "'"))
            end
        end
    end.

Definition safe_write_output (tmp_out final_out : Path) (overwrite : bool)
  : M (bool * string) :=
  _ ← mkdir_parents (PyPath.parent final_out);
  ex ← path_exists final_out;
  if ex && negb overwrite
  then mret (false, "Output exists (use --overwrite): " +:+ PyPath.to_str final_out)
  else
    r ← shutil_move tmp_out final_out;
    match r with
    | None => mret (true, "Saved."%string)
    | Some e => mret (false, "Failed to save output: " +:+ e)
    end.

End Program.

(* ===================================================================== *)
(** ** [CompressResult] (main.py, lines 32-42) *)
(* ===================================================================== *)

Record CompressResult := mkResult {
  src : Path;
  dst : Path;
  method : string;
  before_bytes : Z;
  after_bytes : Z;
  saved_bytes : Z;
  saved_pct : float;
  skipped : bool;
  message : string
}.

Section Orchestrator.

Context (env : Env).

(** [(before - after) / before * 100.0 if before else 0.0]. *)
Definition percent_saved (before after : Z) : float :=
  if before =? 0 then 0%float
  else PrimFloat.mul (PyFloat.truediv (before - after) before) PyFloat.hundred.

(* =================================================================== *)
(** *** [compress_one] (main.py, lines 166-272) *)
(* =================================================================== *)

(** Lines 216-272: what becomes of the candidate that a strategy named
    [method_] reported with the message [msg]. *)
Definition commit_candidate (src_ dst_ tmp_out : Path) (overwrite : bool)
    (before : Z) (method_ msg : string) : M CompressResult :=
  t ← get_tmp;
  _ ← emit (IoExists tmp_out);
  match t with
  | None =>
      mret {| src := src_; dst := dst_; method := "failed";
              before_bytes := before; after_bytes := before;
              saved_bytes := 0; saved_pct := 0%float; skipped := true;
              message := "Compression produced no output file." |}
  | Some data =>
      _ ← emit (IoStat tmp_out);
      let after := Z.of_nat (length data) in
      if (before <=? after) then
        mret {| src := src_; dst := dst_; method := method_;
                before_bytes := before; after_bytes := after;
                saved_bytes := 0; saved_pct := 0%float; skipped := true;
                message := "Skipped: output not smaller ("
                             +:+ human_bytes after +:+ " >= "
                             +:+ human_bytes before +:+ "). " +:+ msg |}
      else
        '(ok_save, save_msg) ← safe_write_output env tmp_out dst_ overwrite;
        if negb ok_save then
          mret {| src := src_; dst := dst_; method := method_;
                  before_bytes := before; after_bytes := after;
                  saved_bytes := before - after;
                  saved_pct := percent_saved before after; skipped := true;
                  message := save_msg |}
        else
          mret {| src := src_; dst := dst_; method := method_;
                  before_bytes := before; after_bytes := after;
                  saved_bytes := before - after;
                  saved_pct := percent_saved before after; skipped := false;
                  message := msg |}
  end.

(** Line 190: [Path(td) / (src.stem + ".compressed.pdf")]. *)
Definition tmp_path (td src_ : Path) : Path :=
  PyPath.join_name td (PyPath.stem src_ +:+ ".compressed.pdf").

(** Lines 190-272: the body of the [with] block. *)
Definition compress_in (src_ dst_ : Path) (quality : string) (overwrite : bool)
    (before : Z) (td : Path) : M CompressResult :=
  let tmp_out := tmp_path td src_ in
  '(ok, msg) ← run_ghostscript_compress env src_ tmp_out quality;
  if ok : bool then
    commit_candidate src_ dst_ tmp_out overwrite before
                     ("ghostscript(" +:+ quality +:+ ")") msg
  else
    _ ← emit (IoLog WARNING ("Ghostscript unavailable/failed for "
                               +:+ PyPath.name src_ +:+ ": " +:+ msg));
    '(ok2, msg2) ← run_pikepdf_optimize env src_ tmp_out;
    if ok2 : bool then
      commit_candidate src_ dst_ tmp_out overwrite before
                       "pikepdf(optimize)" msg2
    else
      mret {| src := src_; dst := dst_; method := "failed";
              before_bytes := before; after_bytes := before;
              saved_bytes := 0; saved_pct := 0%float; skipped := true;
              message := "Compression failed. GS: " +:+ msg
                           +:+ " | Fallback: " +:+ msg2 |}.

Definition compress_one (src_ dst_ : Path) (quality : string)
    (overwrite dry_run : bool) : M CompressResult :=
  before ← stat_size env src_;
  if dry_run then
    mret {| src := src_; dst := dst_; method := "dry-run";
            before_bytes := before; after_bytes := before;
            saved_bytes := 0; saved_pct := 0%float; skipped := true;
            message := "Dry run: no file written." |}
  else
    with_tempdir env (compress_in src_ dst_ quality overwrite before).

End Orchestrator.

(* ===================================================================== *)
(** ** The command line (main.py, lines 283-299) *)
(* ===================================================================== *)

(** The namespace that [parse_args] returns.  argparse sets exactly one of
    [arg_file] and [arg_folder], and [arg_quality] to a key of
    [QUALITY_MAP]. *)
Record Args := mkArgs {
  arg_file : option string;
  arg_folder : option string;
  arg_out : string;
  arg_quality : string;
  arg_overwrite : bool;
  arg_recursive : bool;
  arg_dry_run : bool;
  arg_verbose : bool
}.

(** The running totals of the folder loop (main.py, lines 334-338). *)
Record Totals := mkTotals {
  total_before : Z;
  total_after : Z;
  saved_files : Z;
  skipped_files : Z;
  failed_files : Z
}.

Section Main.

Context (env : Env).

(** [Path(s).expanduser().resolve()]. *)
Definition resolved (s : string) : M Path :=
  let p := PyPath.expanduser (env_home env) (PyPath.of_str s) in
  _ ← emit (IoResolve p);
  mret (PyPath.resolve (env_cwd env) p).

(* =================================================================== *)
(** *** [print_result] (main.py, lines 380-388) *)
(* =================================================================== *)

Definition print_result (res : CompressResult) : M unit :=
  let status := if skipped res then "SKIP" else "OK" in
  _ ← emit (IoPrint ("[" +:+ status +:+ "] " +:+ PyPath.name (src res)
                       +:+ " -> " +:+ PyPath.name (dst res) +:+ " | "
                       +:+ method res +:+ " | "
                       +:+ human_bytes (before_bytes res) +:+ " -> "
                       +:+ human_bytes (after_bytes res) +:+ " | "
                       +:+ "saved: " +:+ human_bytes (saved_bytes res)
                       +:+ " (" +:+ PyFloat.format_2f (saved_pct res) +:+ "%)"));
  match message res with
  | EmptyString => mret tt
  | msg => emit (IoLog INFO (PyPath.name (src res) +:+ ": " +:+ msg))
  end.

(* =================================================================== *)
(** *** [find_pdfs_in_folder] (main.py, lines 56-62) *)
(* =================================================================== *)

(** [folder.glob(pattern)] and [folder.rglob(pattern)] for a pattern that
    is a star and an extension. *)
Definition glob (folder : Path) (pattern : string) (recursive : bool)
  : M (list Path) :=
  _ ← emit (IoGlob folder pattern recursive);
  d ← get_fs;
  let ext := match pattern with String "*" e => e | _ => pattern end in
  let found := match Fs.find (locate env folder) d with
               | Some (Dir entries) =>
                   if recursive then Fs.rglob_node ext (Dir entries)
                   else Fs.glob ext entries
               | _ => []
               end in
  mret ((fun rel => PyPath.joinpath folder {| absolute := false; parts := rel |})
          <$> found).

Definition find_pdfs_in_folder (folder : Path) (recursive : bool)
  : M (list Path) :=
  lower ← glob folder "*.pdf" recursive;
  upper ← glob folder "*.PDF" recursive;
  mret (lower ++ upper).

(* =================================================================== *)
(** *** [main] (main.py, lines 302-377) *)
(* =================================================================== *)

(** Lines 341-354: one turn of [for src in pdfs]. *)
Definition batch_step (args : Args) (folder out_dir : Path) (t : Totals)
    (src_ : Path) : M Totals :=
  let dst_ := ensure_output_path src_ (Some folder) out_dir in
  res ← compress_one env src_ dst_ (arg_quality args) (arg_overwrite args)
                     (arg_dry_run args);
  _ ← print_result res;
  let before' := total_before t + before_bytes res in
  if negb (skipped res) && negb (arg_dry_run args) then
    mret {| total_before := before';
            total_after := total_after t + after_bytes res;
            saved_files := saved_files t + 1;
            skipped_files := skipped_files t;
            failed_files := failed_files t |}
  else if String.eqb (method res) "failed" then
    mret {| total_before := before'; total_after := total_after t;
            saved_files := saved_files t; skipped_files := skipped_files t;
            failed_files := failed_files t + 1 |}
  else
    mret {| total_before := before'; total_after := total_after t;
            saved_files := saved_files t;
            skipped_files := skipped_files t + 1;
            failed_files := failed_files t |}.

(** Lines 340-354: the loop. *)
Fixpoint batch_loop (args : Args) (folder out_dir : Path) (pdfs : list Path)
    (t : Totals) : M Totals :=
  match pdfs with
  | [] => mret t
  | src_ :: rest =>
      t' ← batch_step args folder out_dir t src_;
      batch_loop args folder out_dir rest t'
  end.

(** Lines 362-363: the two derived numbers of the summary. *)
Definition summary_saved_bytes (t : Totals) : Z :=
  if 0 <? total_after t then total_before t - total_after t else 0.

Definition summary_pct (t : Totals) : float :=
  if total_before t =? 0 then 0%float
  else PrimFloat.mul (PyFloat.truediv (summary_saved_bytes t) (total_before t))
                     PyFloat.hundred.

(** Lines 361-375. *)
Definition log_summary (t : Totals) : M unit :=
  if 0 <? saved_files t then
    emit (IoLog INFO
            ("Summary: saved=" +:+ PyStr.of_int (saved_files t)
               +:+ ", skipped=" +:+ PyStr.of_int (skipped_files t)
               +:+ ", failed=" +:+ PyStr.of_int (failed_files t)
               +:+ " | total: " +:+ human_bytes (total_before t)
               +:+ " -> " +:+ human_bytes (total_after t)
               +:+ " (saved " +:+ human_bytes (summary_saved_bytes t)
               +:+ ", " +:+ PyFloat.format_2f (summary_pct t) +:+ "%)"))
  else
    emit (IoLog INFO "Summary: no files were compressed (all skipped/failed).").

(** Lines 309-321: single-file mode. *)
Definition main_file (args : Args) (out_dir : Path) (file : string) : M Z :=
  src_ ← resolved file;
  ex ← path_exists env src_;
  if negb ex then
    _ ← emit (IoLog ERROR ("File not found: " +:+ PyPath.to_str src_));
    mret 2
  else if negb (String.eqb (PyStr.lower (PyPath.suffix src_)) ".pdf") then
    _ ← emit (IoLog ERROR ("Not a PDF: " +:+ PyPath.to_str src_));
    mret 2
  else
    let dst_ := ensure_output_path src_ None out_dir in
    res ← compress_one env src_ dst_ (arg_quality args) (arg_overwrite args)
                       (arg_dry_run args);
    _ ← print_result res;
    mret (if negb (skipped res) then 0 else 1).

(** Lines 323-377: folder mode. *)
Definition main_folder (args : Args) (out_dir : Path) (folder_arg : string)
  : M Z :=
  folder ← resolved folder_arg;
  ex ← path_exists env folder;
  isd ← (if ex then path_is_dir env folder else mret false);
  if negb ex || negb isd then
    _ ← emit (IoLog ERROR ("Folder not found or not a directory: "
                             +:+ PyPath.to_str folder));
    mret 2
  else
    found ← find_pdfs_in_folder folder (arg_recursive args);
    let pdfs := PyPath.sorted found in
    match pdfs with
    | [] =>
        _ ← emit (IoLog WARNING ("No PDF files found in: " +:+ PyPath.to_str folder));
        mret 0
    | _ :: _ =>
        t ← batch_loop args folder out_dir pdfs (mkTotals 0 0 0 0 0);
        if arg_dry_run args then
          _ ← emit (IoLog INFO ("Dry run complete. Files scanned: "
                                  +:+ PyStr.of_int (Z.of_nat (length pdfs))));
          mret 0
        else
          _ ← log_summary t;
          mret 0
    end.

(** [main], from the parsed arguments on.  [setup_logging] only chooses
    between the levels DEBUG and INFO, and every message of the script is
    at INFO or above: all of them reach the trace.  An empty [--file] is
    false in [if args.file], and [Path(None)] raises. *)
Definition main (args : Args) : M Z :=
  out_dir ← resolved (arg_out args);
  _ ← mkdir_parents env out_dir;
  match truthy (arg_file args) with
  | Some file => main_file args out_dir file
  | None =>
      match arg_folder args with
      | Some folder_arg => main_folder args out_dir folder_arg
      | None => raise (TypeError "expected str, bytes or os.PathLike object, not NoneType")
      end
  end.

End Main.

(* ===================================================================== *)
(** ** Concrete environments and worlds *)
(* ===================================================================== *)

Module Examples.

Definition bytes (n : nat) : list Byte.byte := List.repeat Byte.x25 n.

Definition p_in : Path := mkPath true ["in"]%string.
Definition p_out : Path := mkPath true ["out"]%string.
Definition a_pdf : Path := mkPath true ["in"; "a.pdf"]%string.
Definition out_a_pdf : Path := mkPath true ["out"; "a.pdf"]%string.
Definition tmp_a : Path := mkPath true ["tmp"; "pdfcompress_0"; "a.compressed.pdf"]%string.

(** Ghostscript succeeds and leaves the bytes that [out_of] gives for the
    source named last on its command line. *)
Definition gs_by_source (out_of : string -> option (list Byte.byte))
    (argv : list string) (_ : gmap string node) : GsRun :=
  GsExit 0 "" "" (out_of (List.last argv "")).

Definition env_with (gs : option string)
    (gs_run : list string -> gmap string node -> GsRun)
    (pike : option (string -> gmap string node -> PikeRun)) : Env :=
  {| env_cwd := ["work"]%string; env_home := ["home"; "user"]%string;
     env_dir_size := 4096; env_which_gs := gs;
     env_mkdtemp := fun n => mkPath true ["tmp"; "pdfcompress_" +:+ PyStr.of_int (Z.of_nat n)]%string;
     env_gs := gs_run; env_pikepdf := pike;
     env_move := fun _ _ => MoveDone |}.

Definition world_of (d : gmap string node) : World :=
  {| w_fs := d; w_tmp := None; w_ntmp := 0; w_trace := [] |}.

(** /in holds a.pdf, b.pdf and c.pdf of 300, 400 and 500 bytes. *)
Definition fs_three : gmap string node :=
  {[ "in"%string := Dir {[ "a.pdf"%string := File (bytes 300);
                           "b.pdf"%string := File (bytes 400);
                           "c.pdf"%string := File (bytes 500) ]} ]}.

(** Ghostscript turns them into 200, 250 and 600 bytes. *)
Definition env_three : Env :=
  env_with (Some "/usr/bin/gs"%string)
    (gs_by_source (fun s =>
       if String.eqb s "/in/a.pdf" then Some (bytes 200)
       else if String.eqb s "/in/b.pdf" then Some (bytes 250)
       else Some (bytes 600)))
    None.

Definition args_folder : Args :=
  {| arg_file := None; arg_folder := Some "/in"%string; arg_out := "/out"%string;
     arg_quality := "ebook"%string; arg_overwrite := false;
     arg_recursive := false; arg_dry_run := false; arg_verbose := false |}.

Definition three_pdfs : list Path :=
  [mkPath true ["in"; "a.pdf"]; mkPath true ["in"; "b.pdf"];
   mkPath true ["in"; "c.pdf"]]%string.

(** The same, for a single file and as a dry run. *)
Definition args_file_dry : Args :=
  {| arg_file := Some "/in/a.pdf"%string; arg_folder := None;
     arg_out := "/out"%string; arg_quality := "ebook"%string;
     arg_overwrite := false; arg_recursive := false; arg_dry_run := true;
     arg_verbose := false |}.

(** Neither Ghostscript nor pikepdf is installed. *)
Definition env_nothing : Env := env_with None (fun _ _ => GsRaised "") None.

(** Ghostscript is not installed; pikepdf saves 150 bytes. *)
Definition env_pikepdf_only : Env :=
  env_with None (fun _ _ => GsRaised "")
           (Some (fun _ _ => PikeSaved (bytes 150))).

(** Ghostscript exits with 0 and writes no file. *)
Definition env_no_output : Env :=
  env_with (Some "/usr/bin/gs"%string) (fun _ _ => GsExit 0 "" "" None) None.

(** /in/a.pdf of 300 bytes, and an output /out/a.pdf of 120 bytes that an
    earlier run left. *)
Definition fs_rerun : gmap string node :=
  {[ "in"%string := Dir {[ "a.pdf"%string := File (bytes 300) ]};
     "out"%string := Dir {[ "a.pdf"%string := File (bytes 120) ]};
     "work"%string := Dir ∅ ]}.

(** The world in which the commit step finds a candidate of 200 bytes. *)
Definition world_candidate : World :=
  {| w_fs := fs_rerun; w_tmp := Some (bytes 200); w_ntmp := 1; w_trace := [] |}.

(** The first file of the batch, alone and for real. *)
Definition run_a : Res CompressResult * World :=
  compress_one env_three a_pdf out_a_pdf "ebook" false false (world_of fs_three).

Definition res_a : CompressResult :=
  {| src := a_pdf; dst := out_a_pdf; method := "ghostscript(ebook)";
     before_bytes := 300; after_bytes := 200; saved_bytes := 100;
     saved_pct := percent_saved 300 200; skipped := false;
     message := "Compressed with Ghostscript." |}.

(** The same file, as a dry run. *)
Definition run_a_dry : Res CompressResult * World :=
  compress_one env_three a_pdf out_a_pdf "ebook" false true (world_of fs_three).

(** The same file, when its output is already there. *)
Definition run_a_again : Res CompressResult * World :=
  compress_one env_three a_pdf out_a_pdf "ebook" false false (world_of fs_rerun).

End Examples.

(* ===================================================================== *)
(** ** The vocabulary of the statements *)
(* ===================================================================== *)

(** A world with a given file system, an empty temporary workspace and no
    trace. *)
Definition blank (d : gmap string node) : World :=
  {| w_fs := d; w_tmp := None; w_ntmp := 0; w_trace := [] |}.

(** What a strategy returns when it is run on a file system, and the
    candidate it leaves at [tmp_out]. *)
Definition outcome {A} (m : M A) (d : gmap string node)
  : Res A * option (list Byte.byte) :=
  let '(r, w) := m (blank d) in (r, w_tmp w).

(** The world [w] after the events [evs], with [t] in the workspace. *)
Definition touch (w : World) (t : option (list Byte.byte)) (evs : list Event)
  : World :=
  {| w_fs := w_fs w; w_tmp := t; w_ntmp := w_ntmp w;
     w_trace := w_trace w ++ evs |}.

(** The working directory of the process is a directory. *)
Definition cwd_ok (env : Env) (d : gmap string node) : Prop :=
  Fs.is_dir (env_cwd env) d = true.

(** The events by which the fallback optimizer is seen at work. *)
Definition is_pikepdf (ev : Event) : Prop :=
  match ev with IoPikepdf _ _ => True | _ => False end.

(** The same environment with another pikepdf (or none). *)
Definition with_pikepdf (pk : option (string -> gmap string node -> PikeRun))
    (env : Env) : Env :=
  {| env_cwd := env_cwd env; env_home := env_home env;
     env_dir_size := env_dir_size env; env_which_gs := env_which_gs env;
     env_mkdtemp := env_mkdtemp env; env_gs := env_gs env;
     env_pikepdf := pk; env_move := env_move env |}.

(** The result of lines 217-227: a strategy reported success and left no
    file. *)
Definition result_no_output (src_ dst_ : Path) (before : Z) : CompressResult :=
  {| src := src_; dst := dst_; method := "failed";
     before_bytes := before; after_bytes := before;
     saved_bytes := 0; saved_pct := 0%float; skipped := true;
     message := "Compression produced no output file." |}.

(** The path mapper in the words of the specification: [source] is under
    [batch_root] when it is [batch_root] followed by a relative part. *)
Definition is_under (source batch_root : Path) (rel : list string) : Prop :=
  absolute source = absolute batch_root /\
  parts source = parts batch_root ++ rel.

(** The node [n'] that took the place of [n] is of the same kind. *)
Definition same_kind (n n' : node) : Prop :=
  match n, n' with
  | File _, File _ => True
  | Dir _, Dir _ => True
  | _, _ => False
  end.

(** The same, and a file has kept its bytes. *)
Definition kept (n n' : node) : Prop :=
  match n, n' with
  | File x, File x' => x = x'
  | Dir _, Dir _ => True
  | _, _ => False
  end.

(** Every node of [d] is in [d'], at the same location and as [K] says. *)
Definition related (K : node -> node -> Prop) (d d' : gmap string node) : Prop :=
  forall loc n, Fs.get loc d = Some n ->
    exists n', Fs.get loc d' = Some n' /\ K n n'.

(** A list of components without [..]. *)
Definition plain (p : list string) : Prop := ~ In ".."%string p.

(** The file system that a [mkdir] leaves. *)
Definition mkdir_fs (r : Fs.MkdirRun) : gmap string node :=
  match r with
  | Fs.MkdirOk d' => d'
  | Fs.MkdirRaised _ _ d' => d'
  end.

(** The result of lines 248-258 when the destination exists: the commit of
    a candidate of [after] bytes, made by [method_], has failed. *)
Definition output_exists (src_ dst_ : Path) (method_ : string) (before after : Z)
  : CompressResult :=
  {| src := src_; dst := dst_; method := method_;
     before_bytes := before; after_bytes := after;
     saved_bytes := before - after;
     saved_pct := percent_saved before after; skipped := true;
     message := "Output exists (use --overwrite): " +:+ PyPath.to_str dst_ |}.

(* ===================================================================== *)
(** ** The vocabulary of the further statements *)
(* ===================================================================== *)

(** The files of [d] are in [d'], with the same bytes. *)
Definition files_kept (d d' : gmap string node) : Prop :=
  forall p x, Fs.find p d = Some (File x) -> Fs.find p d' = Some (File x).

(** Whatever a computation does, the file system it leaves is related by
    [R] to the one it found. *)
Definition frame {A} (R : gmap string node -> gmap string node -> Prop)
    (m : M A) : Prop :=
  forall w r w', m w = (r, w') -> R (w_fs w) (w_fs w').

(** More concrete runs. *)
Module MoreExamples.

Definition b_pdf : Path := mkPath true ["in"; "b.pdf"]%string.

(** A source that is not there. *)
Definition missing_pdf : Path := mkPath true ["in"; "missing.pdf"]%string.

Definition run_missing : Res CompressResult * World :=
  compress_one Examples.env_three missing_pdf Examples.out_a_pdf "ebook" false
    false (Examples.world_of Examples.fs_three).

(** The result of the second run over /in/a.pdf, whose output is there. *)
Definition res_a_again : CompressResult :=
  {| src := Examples.a_pdf; dst := Examples.out_a_pdf;
     method := "ghostscript(ebook)"; before_bytes := 300; after_bytes := 200;
     saved_bytes := 100; saved_pct := percent_saved 300 200; skipped := true;
     message := "Output exists (use --overwrite): /out/a.pdf" |}.



(** A destination whose parent is the regular file /in/a.pdf. *)
Definition under_a_pdf : Path := mkPath true ["in"; "a.pdf"; "out.pdf"]%string.

Definition run_a_under : Res CompressResult * World :=
  compress_one Examples.env_three Examples.a_pdf under_a_pdf "ebook" false
    false (Examples.world_of Examples.fs_three).

(** A source below a regular file. *)
Definition below_file : Path := mkPath true ["in"; "a.pdf"; "x.pdf"]%string.

Definition run_below_file : Res CompressResult * World :=
  compress_one Examples.env_three below_file Examples.out_a_pdf "ebook" false
    true (Examples.world_of Examples.fs_three).

(** The device of /out is full: the move is refused after 50 bytes of the
    copy were written. *)
Definition env_full_device : Env :=
  {| env_cwd := env_cwd Examples.env_three;
     env_home := env_home Examples.env_three;
     env_dir_size := env_dir_size Examples.env_three;
     env_which_gs := env_which_gs Examples.env_three;
     env_mkdtemp := env_mkdtemp Examples.env_three;
     env_gs := env_gs Examples.env_three;
     env_pikepdf := env_pikepdf Examples.env_three;
     env_move := fun _ _ =>
       MoveRaised "[Errno 28] No space left on device" (Some (Examples.bytes 50)) |}.

Definition run_a_full : Res CompressResult * World :=
  compress_one env_full_device Examples.a_pdf Examples.out_a_pdf "ebook" false
    false (Examples.world_of Examples.fs_three).

Definition res_a_full : CompressResult :=
  {| src := Examples.a_pdf; dst := Examples.out_a_pdf;
     method := "ghostscript(ebook)"; before_bytes := 300; after_bytes := 200;
     saved_bytes := 100; saved_pct := percent_saved 300 200; skipped := true;
     message := "Failed to save output: [Errno 28] No space left on device" |}.

(** The whole batch, through [main]. *)
Definition run_main_folder : Res Z * World :=
  main Examples.env_three Examples.args_folder
    (Examples.world_of Examples.fs_three).


(** The loop over the three files. *)
Definition run_loop : Res Totals * World :=
  batch_loop Examples.env_three Examples.args_folder Examples.p_in
    Examples.p_out Examples.three_pdfs (mkTotals 0 0 0 0 0)
    (Examples.world_of Examples.fs_three).

Definition totals_three : Totals :=
  {| total_before := 1200; total_after := 450; saved_files := 2;
     skipped_files := 1; failed_files := 0 |}.

End MoreExamples.

(* ===================================================================== *)
(** ** Facts about strings and paths *)
(* ===================================================================== *)

Lemma str_app_assoc (a b c : string) : (a +:+ b) +:+ c = a +:+ (b +:+ c).
Proof.
  induction a as [|x a IH]; [done |].
  change (String x ((a +:+ b) +:+ c) = String x (a +:+ (b +:+ c))).
  by rewrite IH.
Qed.

Lemma str_app_empty_r (a : string) : a +:+ "" = a.
Proof.
  induction a as [|x a IH]; [done |].
  change (String x (a +:+ "") = String x a). by rewrite IH.
Qed.

Lemma contains_app_l (a b needle : string) :
  PyStr.contains a needle -> PyStr.contains (a +:+ b) needle.
Proof.
  intros (pre & post & ->). exists pre, (post +:+ b).
  by rewrite !str_app_assoc.
Qed.

Lemma contains_app_r (a b needle : string) :
  PyStr.contains b needle -> PyStr.contains (a +:+ b) needle.
Proof.
  intros (pre & post & ->). exists (a +:+ pre), post.
  by rewrite !str_app_assoc.
Qed.

Lemma contains_refl (s : string) : PyStr.contains s s.
Proof.
  exists EmptyString, EmptyString.
  change (s = s +:+ ""). by rewrite str_app_empty_r.
Qed.

Lemma strip_prefix_app (pre r : list string) :
  PyPath.strip_prefix pre (pre ++ r) = Some r.
Proof.
  induction pre as [|a pre IH]; simpl; [done |].
  by rewrite String.eqb_refl.
Qed.

Lemma strip_prefix_Some (pre l r : list string) :
  PyPath.strip_prefix pre l = Some r -> l = pre ++ r.
Proof.
  revert l. induction pre as [|a pre IH]; intros [|b l]; simpl; try congruence.
  destruct (String.eqb_spec a b) as [->|]; [|done].
  intros H. by rewrite (IH _ H).
Qed.

(* ===================================================================== *)
(** ** Facts about the file system *)
(* ===================================================================== *)

Lemma get_singleton (c : string) (d : gmap string node) :
  Fs.get [c] d = d !! c.
Proof. simpl. by destruct (d !! c) as [[x|e]|]. Qed.

(** The node below a location is read from the node at the location. *)
Lemma get_app (l l' : list string) (d : gmap string node) :
  Fs.get (l ++ l') d
  = match Fs.get l d with
    | Some (Dir e) => Fs.get l' e
    | Some (File x) => match l' with [] => Some (File x) | _ :: _ => None end
    | None => None
    end.
Proof.
  revert d. induction l as [|c l IH]; intros d; [done |].
  cbn [app Fs.get]. destruct (d !! c) as [[x|e]|]; [|apply IH|done].
  destruct l; simpl; [by destruct l' | done].
Qed.

(** What has an entry is a directory. *)
Lemma get_snoc_parent (l : list string) (c : string) (d : gmap string node) n :
  Fs.get (l ++ [c]) d = Some n -> exists e, Fs.get l d = Some (Dir e).
Proof.
  rewrite get_app. destruct (Fs.get l d) as [[x|e]|]; [done | by eexists | done].
Qed.

(** The parent of a node is a directory. *)
Lemma get_removelast (l : list string) (d : gmap string node) n :
  Fs.get l d = Some n -> exists e, Fs.get (List.removelast l) d = Some (Dir e).
Proof.
  destruct (decide (l = [])) as [->|Hne]; [by eexists |].
  rewrite (app_removelast_last ""%string Hne) at 1. apply get_snoc_parent.
Qed.

Lemma same_kind_dir (n : node) e :
  same_kind (Dir e) n -> exists e', n = Dir e'.
Proof. destruct n; [done | by eexists]. Qed.

Lemma kept_same_kind (n n' : node) : kept n n' -> same_kind n n'.
Proof. by destruct n, n'. Qed.

Lemma kept_file (n : node) x : kept (File x) n -> n = File x.
Proof. destruct n; simpl; [by intros -> | done]. Qed.

Lemma kept_refl (n : node) : kept n n.
Proof. by destruct n. Qed.

Lemma kept_trans (n1 n2 n3 : node) : kept n1 n2 -> kept n2 n3 -> kept n1 n3.
Proof. destruct n1, n2, n3; simpl; intros; by simplify_eq. Qed.


Lemma related_refl K (d : gmap string node) :
  (forall n, K n n) -> related K d d.
Proof. intros HK loc n Hn. by exists n. Qed.

Lemma related_trans K (d1 d2 d3 : gmap string node) :
  (forall n1 n2 n3, K n1 n2 -> K n2 n3 -> K n1 n3) ->
  related K d1 d2 -> related K d2 d3 -> related K d1 d3.
Proof.
  intros HK H12 H23 loc n Hn.
  destruct (H12 loc n Hn) as (n2 & Hn2 & K12).
  destruct (H23 loc n2 Hn2) as (n3 & Hn3 & K23).
  exists n3. split; [done |]. by eapply HK.
Qed.

(** The equation of [Fs.set] below the last component. *)
Lemma set_cons (c : string) (rest : list string) (n : node)
    (d : gmap string node) :
  rest <> [] ->
  Fs.set (c :: rest) n d
  = match d !! c with
    | Some (Dir dc) =>
        match Fs.set rest n dc with
        | Some dc' => Some (<[c := Dir dc']> d)
        | None => None
        end
    | _ => None
    end.
Proof. by destruct rest. Qed.

(** A node that was set at a location is there. *)
Lemma set_get (loc : list string) (n : node) (d d' : gmap string node) :
  Fs.set loc n d = Some d' -> Fs.get loc d' = Some n.
Proof.
  revert d d'. induction loc as [|c rest IH]; intros d d'; [done |].
  destruct (decide (rest = [])) as [->|Hne].
  - intros [= <-]. by rewrite get_singleton, lookup_insert_eq.
  - rewrite set_cons by done. destruct (d !! c) as [[x|dc]|]; try done.
    destruct (Fs.set rest n dc) as [dc'|] eqn:Hset; [|done].
    intros [= <-]. cbn [Fs.get]. rewrite lookup_insert_eq. by eapply IH.
Qed.

(** A node can be set in a directory. *)
Lemma set_in_dir (l : list string) (c : string) (n : node)
    (d : gmap string node) e :
  Fs.get l d = Some (Dir e) -> is_Some (Fs.set (l ++ [c]) n d).
Proof.
  revert d. induction l as [|c' l IH]; intros d; [by eexists |].
  cbn [app]. rewrite set_cons by (by destruct l). cbn [Fs.get].
  destruct (d !! c') as [[x|dc]|]; [by destruct l | | done].
  intros Hl. by destruct (IH dc Hl) as [dc' ->].
Qed.

(** Setting a node where nothing was, or a file where a file was, keeps
    every other node. *)
Lemma set_related K (loc : list string) (n : node) (d d' : gmap string node) :
  (forall m, K m m) -> (forall e e', K (Dir e) (Dir e')) ->
  Fs.set loc n d = Some d' ->
  match Fs.get loc d with
  | None => True
  | Some (File x) => K (File x) n
  | Some (Dir _) => False
  end ->
  related K d d'.
Proof.
  intros Hrefl Hdir. revert d d'.
  induction loc as [|c rest IH]; intros d d'; [done |].
  destruct (decide (rest = [])) as [->|Hne].
  - intros [= <-]. rewrite get_singleton. intros Hat [|c' q] m.
    { intros [= <-]. eexists. split; [reflexivity | apply Hdir]. }
    destruct (decide (c = c')) as [<-|Hcc].
    + cbn [Fs.get]. rewrite lookup_insert_eq.
      destruct (d !! c) as [[x|e]|]; [|done..].
      destruct q; [|done]. intros [= <-]. exists n. split; [|done].
      by destruct n.
    + cbn [Fs.get]. rewrite lookup_insert_ne by done. intros Hm. by exists m.
  - rewrite set_cons by done. cbn [Fs.get].
    destruct (d !! c) as [[x|dc]|] eqn:Hc; try done.
    destruct (Fs.set rest n dc) as [dc'|] eqn:Hset; [|done].
    intros [= <-] Hat [|c' q] m.
    { intros [= <-]. eexists. split; [reflexivity | apply Hdir]. }
    destruct (decide (c = c')) as [<-|Hcc].
    + cbn [Fs.get]. rewrite Hc, lookup_insert_eq. by apply (IH dc dc').
    + cbn [Fs.get]. rewrite lookup_insert_ne by done. intros Hm. by exists m.
Qed.


(* ===================================================================== *)
(** ** The resolution of paths *)
(* ===================================================================== *)

Lemma walk_app (d : gmap string node) (at_ p q : list string) :
  Fs.walk d at_ (p ++ q)
  = match Fs.walk d at_ p with
    | inr at' => Fs.walk d at' q
    | inl e => inl e
    end.
Proof.
  revert at_. induction p as [|c p IH]; intros at_; [done |].
  cbn [app Fs.walk]. by destruct (Fs.step d at_ c).
Qed.

(** A step is taken from a directory, and leads to a node. *)
Lemma step_inr (d : gmap string node) (at_ : list string) (c : string) at' :
  Fs.step d at_ c = inr at' ->
  (exists e, Fs.get at_ d = Some (Dir e)) /\ is_Some (Fs.get at' d).
Proof.
  unfold Fs.step. destruct (Fs.get at_ d) as [[x|e]|] eqn:Hat; try done.
  destruct (String.eqb c "..").
  - intros [= <-]. split; [by eexists |].
    destruct (get_removelast _ _ _ Hat) as [e' ->]. by eexists.
  - destruct (Fs.get (at_ ++ [c]) d) eqn:Hc; [|done].
    intros [= <-]. split; by eexists.
Qed.

(** A resolution that goes on after [p] has found a directory there. *)
Lemma walk_snoc_dir (d : gmap string node) (at_ p : list string) (c : string) at' :
  Fs.walk d at_ (p ++ [c]) = inr at' ->
  exists at1 e, Fs.walk d at_ p = inr at1 /\ Fs.get at1 d = Some (Dir e).
Proof.
  rewrite walk_app. destruct (Fs.walk d at_ p) as [e|at1]; [done |].
  cbn [Fs.walk]. destruct (Fs.step d at1 c) as [e|at2] eqn:Hstep; [done |].
  intros _. apply step_inr in Hstep as [[e He] _]. by exists at1, e.
Qed.

(** The resolution depends on which nodes there are and of which kind. *)
Lemma step_related (d d' : gmap string node) (at_ : list string) (c : string) at' :
  related same_kind d d' -> Fs.step d at_ c = inr at' -> Fs.step d' at_ c = inr at'.
Proof.
  intros Hrel. unfold Fs.step.
  destruct (Fs.get at_ d) as [[x|e]|] eqn:Hat; try done.
  destruct (Hrel _ _ Hat) as (n' & -> & [e' ->]%same_kind_dir).
  destruct (String.eqb c ".."); [done |].
  destruct (Fs.get (at_ ++ [c]) d) as [m|] eqn:Hc; [|done].
  by destruct (Hrel _ _ Hc) as (m' & -> & _).
Qed.

Lemma walk_related (d d' : gmap string node) (at_ p : list string) at' :
  related same_kind d d' -> Fs.walk d at_ p = inr at' -> Fs.walk d' at_ p = inr at'.
Proof.
  intros Hrel. revert at_. induction p as [|c p IH]; intros at_; [done |].
  cbn [Fs.walk]. destruct (Fs.step d at_ c) as [e|at1] eqn:Hstep; [done |].
  rewrite (step_related _ _ _ _ _ Hrel Hstep). apply IH.
Qed.

(** What a path leads to, in terms of the location it resolves to. *)
Lemma find_Some (p : list string) (d : gmap string node) (n : node) :
  Fs.find p d = Some n <->
  exists at_, Fs.walk d [] p = inr at_ /\ Fs.get at_ d = Some n.
Proof.
  unfold Fs.find, Fs.stat. destruct (Fs.walk d [] p) as [e|at_]; split.
  - done.
  - by intros (? & ? & _).
  - destruct (Fs.get at_ d) as [m|] eqn:Hat; [|done]. intros [= <-]. by exists at_.
  - intros (at' & [= <-] & ->). done.
Qed.

(** A path keeps leading to its node when nodes are added. *)
Lemma find_related K (p : list string) (d d' : gmap string node) (n : node) :
  (forall m m', K m m' -> same_kind m m') ->
  related K d d' -> Fs.find p d = Some n ->
  exists n', Fs.find p d' = Some n' /\ K n n'.
Proof.
  intros HK Hrel (at_ & Hwalk & Hat)%find_Some.
  destruct (Hrel _ _ Hat) as (n' & Hat' & Hk).
  exists n'. split; [|done]. apply find_Some. exists at_. split; [|done].
  eapply walk_related; [|done].
  intros loc m Hm. destruct (Hrel _ _ Hm) as (m' & Hm' & Hk').
  exists m'. split; [done |]. by apply HK.
Qed.

Lemma related_files_kept (d d' : gmap string node) :
  related kept d d' -> files_kept d d'.
Proof.
  intros Hrel p x Hp.
  destruct (find_related kept p d d' _ kept_same_kind Hrel Hp) as (n' & Hn' & Hk).
  by apply kept_file in Hk as ->.
Qed.



(* ===================================================================== *)
(** ** Making directories *)
(* ===================================================================== *)

(** Whether it succeeds or raises, [mkdir] keeps every node. *)
Lemma mkdirs_from_related (d : gmap string node) (at_ : list string)
    (made : bool) (k : nat) (p : list string) :
  related kept d (mkdir_fs (Fs.mkdirs_from d at_ made k p)).
Proof.
  revert d at_ made k. induction p as [|c p IH]; intros d at_ made k.
  { apply related_refl, kept_refl. }
  cbn [Fs.mkdirs_from]. destruct (String.eqb c ".."); [apply IH |].
  destruct (Fs.get (at_ ++ [c]) d) as [[x|e]|] eqn:Hc.
  - destruct made; apply related_refl, kept_refl.
  - apply IH.
  - destruct (Fs.set (at_ ++ [c]) (Dir ∅) d) as [d1|] eqn:Hset.
    + eapply related_trans; [apply kept_trans | | apply IH].
      eapply set_related; [apply kept_refl | done | exact Hset |].
      by rewrite Hc.
    + apply related_refl, kept_refl.
Qed.

(** A path that leads to a directory is made without any change. *)
Lemma mkdirs_from_noop (d : gmap string node) (at_ : list string)
    (made : bool) (k : nat) (p : list string) at' e :
  Fs.walk d at_ p = inr at' -> Fs.get at' d = Some (Dir e) ->
  Fs.mkdirs_from d at_ made k p = Fs.MkdirOk d.
Proof.
  revert at_ k. induction p as [|c p IH]; intros at_ k; [done |].
  cbn [Fs.walk Fs.mkdirs_from].
  destruct (Fs.step d at_ c) as [err|at1] eqn:Hstep; [done |].
  intros Hwalk Hdir.
  assert (Hat1 : exists e1, Fs.get at1 d = Some (Dir e1)).
  { destruct p as [|c' p'].
    - injection Hwalk as <-. by eexists.
    - cbn [Fs.walk] in Hwalk.
      destruct (Fs.step d at1 c') as [err|at2] eqn:Hstep2; [done |].
      by apply step_inr in Hstep2 as [? _]. }
  unfold Fs.step in Hstep.
  destruct (Fs.get at_ d) as [[x|e0]|]; try done.
  destruct (String.eqb c "..").
  - injection Hstep as <-. by eapply IH.
  - destruct (Fs.get (at_ ++ [c]) d) as [m|] eqn:Hc; [|done].
    injection Hstep as <-. destruct Hat1 as [e1 He1].
    rewrite He1 in Hc. injection Hc as <-. by eapply IH.
Qed.

Lemma mkdirs_is_dir (p : list string) (d : gmap string node) :
  Fs.is_dir p d = true -> Fs.mkdirs p d = Some d.
Proof.
  unfold Fs.is_dir, Fs.mkdirs, Fs.mkdirs_run.
  destruct (Fs.find p d) as [[x|e]|] eqn:Hfind; try done. intros _.
  apply find_Some in Hfind as (at_ & Hwalk & Hat).
  by rewrite (mkdirs_from_noop d [] false 0 p at_ e).
Qed.

(** A path that exists has its parent directories already: making them
    changes nothing. *)
Lemma mkdirs_below_existing (p : list string) (c : string)
    (d : gmap string node) :
  Fs.exists_ (p ++ [c]) d = true -> Fs.mkdirs p d = Some d.
Proof.
  unfold Fs.exists_. destruct (Fs.find (p ++ [c]) d) as [n|] eqn:Hfind; [|done].
  intros _. apply find_Some in Hfind as (at_ & Hwalk & _).
  apply walk_snoc_dir in Hwalk as (at1 & e & Hwalk & Hat1).
  unfold Fs.mkdirs, Fs.mkdirs_run.
  by rewrite (mkdirs_from_noop d [] false 0 p at1 e).
Qed.

Lemma mkdirs_parent_located (env : Env) (p : Path) (d : gmap string node) :
  cwd_ok env d -> Fs.exists_ (locate env p) d = true ->
  Fs.mkdirs (locate env (PyPath.parent p)) d = Some d.
Proof.
  intros Hcwd Hex. unfold locate, PyPath.parent in *. cbn [absolute parts].
  destruct (decide (parts p = [])) as [Hnil|Hne].
  - rewrite Hnil. cbn [List.removelast].
    destruct (absolute p); [done |]. rewrite app_nil_r. by apply mkdirs_is_dir.
  - rewrite (app_removelast_last ""%string Hne) in Hex.
    destruct (absolute p); [by eapply mkdirs_below_existing |].
    rewrite app_assoc in Hex. by eapply mkdirs_below_existing.
Qed.

(** Below a directory that was just made, every plain path can be made. *)
Lemma mkdirs_from_fresh (d : gmap string node) (at_ : list string) (k : nat)
    (p : list string) :
  plain p -> Fs.get at_ d = Some (Dir ∅) ->
  exists d', Fs.mkdirs_from d at_ true k p = Fs.MkdirOk d'.
Proof.
  revert d at_ k. induction p as [|c p IH]; intros d at_ k Hp Hat.
  { by eexists. }
  cbn [Fs.mkdirs_from].
  destruct (String.eqb_spec c "..") as [->|Hc]; [by destruct Hp; left |].
  assert (Hnone : Fs.get (at_ ++ [c]) d = None).
  { rewrite get_app, Hat. cbn [Fs.get]. by rewrite lookup_empty. }
  rewrite Hnone.
  destruct (set_in_dir at_ c (Dir ∅) d _ Hat) as [d1 Hset]. rewrite Hset.
  apply IH; [|by eapply set_get]. intros Hin. apply Hp. by right.
Qed.

(** A [mkdir] of a plain path that raises has changed nothing. *)
Lemma mkdirs_from_plain_raised (d : gmap string node) (at_ : list string)
    (k : nat) (p : list string) e upto d' :
  plain p -> Fs.mkdirs_from d at_ false k p = Fs.MkdirRaised e upto d' -> d' = d.
Proof.
  revert at_ k. induction p as [|c p IH]; intros at_ k Hp; [done |].
  cbn [Fs.mkdirs_from].
  destruct (String.eqb_spec c "..") as [->|Hc]; [by destruct Hp; left |].
  assert (Hp' : plain p) by (intros Hin; apply Hp; by right).
  destruct (Fs.get (at_ ++ [c]) d) as [[x|e1]|] eqn:Hat.
  - by intros [= _ _ <-].
  - by apply IH.
  - destruct (Fs.set (at_ ++ [c]) (Dir ∅) d) as [d1|] eqn:Hset.
    + destruct (mkdirs_from_fresh d1 (at_ ++ [c]) (S k) p Hp') as [d2 ->];
        [by eapply set_get | done].
    + by intros [= _ _ <-].
Qed.

Lemma mkdirs_plain_raised (p : list string) (d : gmap string node) e upto d' :
  plain p -> Fs.mkdirs_run p d = Fs.MkdirRaised e upto d' -> d' = d.
Proof. apply mkdirs_from_plain_raised. Qed.



(* ===================================================================== *)
(** ** Putting a file *)
(* ===================================================================== *)

(** A node is set in a directory only. *)
Lemma set_parent_dir (l : list string) (c : string) (n : node)
    (d d' : gmap string node) :
  Fs.set (l ++ [c]) n d = Some d' -> exists e, Fs.get l d = Some (Dir e).
Proof.
  revert d d'. induction l as [|c' l IH]; intros d d'; [by eexists |].
  cbn [app]. rewrite set_cons by (by destruct l). cbn [Fs.get].
  destruct (d !! c') as [[x|dc]|]; try done.
  destruct (Fs.set (l ++ [c]) n dc) as [dc'|] eqn:Hset; [|done].
  intros _. by eapply IH.
Qed.

(** Every way through [Fs.put]. *)
Lemma put_Some (p : list string) (data : list Byte.byte)
    (d d' : gmap string node) :
  Fs.put p data d = Some d' ->
  exists at_ e,
    p = List.removelast p ++ [List.last p ""%string] /\
    List.last p ""%string <> ".."%string /\
    Fs.walk d [] (List.removelast p) = inr at_ /\
    Fs.get at_ d = Some (Dir e) /\
    Fs.set (at_ ++ [List.last p ""%string]) (File data) d = Some d' /\
    match Fs.get (at_ ++ [List.last p ""%string]) d with
    | Some (Dir _) => False
    | _ => True
    end.
Proof.
  unfold Fs.put. destruct p as [|c0 p0]; [done |].
  set (p := c0 :: p0). assert (Hne : p <> []) by done. clearbody p.
  destruct (Fs.walk d [] (List.removelast p)) as [err|at_] eqn:Hwalk; [done |].
  destruct (String.eqb_spec (List.last p "") "..") as [|Hc]; [done |].
  destruct (Fs.get (at_ ++ [List.last p ""%string]) d) as [[x|e1]|] eqn:Hat;
    [|done|].
  all: intros Hset; destruct (set_parent_dir _ _ _ _ _ Hset) as [e He];
    exists at_, e; rewrite Hat; repeat split; try done;
    by apply app_removelast_last.
Qed.



(** Putting a file where nothing was keeps every node. *)
Lemma put_fresh_related (p : list string) (data : list Byte.byte)
    (d d' : gmap string node) :
  Fs.put p data d = Some d' -> Fs.exists_ p d = false -> related kept d d'.
Proof.
  intros (at_ & e & Hp & Hc & Hwalk & Hdir & Hset & _)%put_Some Hex.
  eapply set_related; [apply kept_refl | done | exact Hset |].
  destruct (Fs.get (at_ ++ [List.last p ""%string]) d) as [m|] eqn:Hat; [|done].
  exfalso. unfold Fs.exists_ in Hex.
  assert (Fs.find p d = Some m) as Hfind; [|by rewrite Hfind in Hex].
  apply find_Some. exists (at_ ++ [List.last p ""%string]). split; [|done].
  rewrite Hp at 1. rewrite walk_app, Hwalk. cbn [Fs.walk]. unfold Fs.step.
  rewrite Hdir. destruct (String.eqb_spec (List.last p "") "..") as [|_]; [done |].
  by rewrite Hat.
Qed.



Lemma mkdirs_Some (p : list string) (d d' : gmap string node) :
  Fs.mkdirs p d = Some d' <-> Fs.mkdirs_run p d = Fs.MkdirOk d'.
Proof.
  unfold Fs.mkdirs. destruct (Fs.mkdirs_run p d); split; congruence.
Qed.

(** Making directories leaves every file as it was. *)
Lemma mkdirs_keeps_files (p : list string) (d : gmap string node) :
  files_kept d (mkdir_fs (Fs.mkdirs_run p d)).
Proof. apply related_files_kept, mkdirs_from_related. Qed.

(** Putting a file where nothing was leaves every other file as it was. *)
Lemma put_keeps_files (p : list string) (data : list Byte.byte)
    (d d' : gmap string node) :
  Fs.put p data d = Some d' -> Fs.exists_ p d = false -> files_kept d d'.
Proof. intros Hput Hex. by eapply related_files_kept, put_fresh_related. Qed.

(** The errors of a resolution and of a [mkdir]. *)
Lemma walk_errno (d : gmap string node) (at_ p : list string) e :
  Fs.walk d at_ p = inl e -> e = Fs.ENOENT \/ e = Fs.ENOTDIR.
Proof.
  revert at_. induction p as [|c p IH]; intros at_; [done |].
  cbn [Fs.walk]. destruct (Fs.step d at_ c) as [e1|at1] eqn:Hstep; [|apply IH].
  intros [= <-]. unfold Fs.step in Hstep.
  destruct (Fs.get at_ d) as [[x|e0]|]; [injection Hstep as <-; by right | |
                                          injection Hstep as <-; by left].
  destruct (String.eqb c ".."); [done |].
  destruct (Fs.get (at_ ++ [c]) d); [done |]. injection Hstep as <-. by left.
Qed.

Lemma stat_errno (p : list string) (d : gmap string node) e :
  Fs.stat p d = inl e -> e = Fs.ENOENT \/ e = Fs.ENOTDIR.
Proof.
  unfold Fs.stat. destruct (Fs.walk d [] p) as [e1|at_] eqn:Hwalk.
  - intros [= <-]. by eapply walk_errno.
  - destruct (Fs.get at_ d); [done |]. intros [= <-]. by left.
Qed.

Lemma mkdirs_from_errno (d : gmap string node) (at_ : list string)
    (made : bool) (k : nat) (p : list string) e upto d' :
  Fs.mkdirs_from d at_ made k p = Fs.MkdirRaised e upto d' ->
  e = Fs.EEXIST \/ e = Fs.ENOTDIR.
Proof.
  revert d at_ made k. induction p as [|c p IH]; intros d at_ made k; [done |].
  cbn [Fs.mkdirs_from]. destruct (String.eqb c ".."); [apply IH |].
  destruct (Fs.get (at_ ++ [c]) d) as [[x|e1]|].
  - destruct made; [intros [= <- _ _]; by left |].
    destruct p; intros [= <- _ _]; [by left | by right].
  - apply IH.
  - destruct (Fs.set (at_ ++ [c]) (Dir ∅) d) as [d1|]; [apply IH |].
    intros [= <- _ _]. by right.
Qed.

(** What a node is set to is the only new node. *)
Lemma set_dir_no_new_file (loc : list string) (d d' : gmap string node)
    (q : list string) x :
  Fs.set loc (Dir ∅) d = Some d' -> Fs.get loc d = None ->
  Fs.get q d' = Some (File x) -> Fs.get q d = Some (File x).
Proof.
  revert d d' q. induction loc as [|c rest IH]; intros d d' q; [done |].
  destruct (decide (rest = [])) as [->|Hne].
  - intros [= <-]. rewrite get_singleton. intros Hc. destruct q as [|c' q]; [done |].
    destruct (decide (c = c')) as [<-|Hcc].
    + cbn [Fs.get]. rewrite lookup_insert_eq. destruct q; [done |].
      cbn [Fs.get]. by rewrite lookup_empty.
    + cbn [Fs.get]. by rewrite lookup_insert_ne.
  - rewrite set_cons by done. cbn [Fs.get].
    destruct (d !! c) as [[y|dc]|] eqn:Hc; try done.
    destruct (Fs.set rest (Dir ∅) dc) as [dc'|] eqn:Hset; [|done].
    intros [= <-] Hat. destruct q as [|c' q]; [done |].
    destruct (decide (c = c')) as [<-|Hcc].
    + cbn [Fs.get]. rewrite Hc, lookup_insert_eq. by apply IH.
    + cbn [Fs.get]. by rewrite lookup_insert_ne.
Qed.

(** A [mkdir] makes no file: every file it leaves was there. *)
Lemma mkdirs_from_no_new_file (d : gmap string node) (at_ : list string)
    (made : bool) (k : nat) (p : list string) (q : list string) x :
  Fs.get q (mkdir_fs (Fs.mkdirs_from d at_ made k p)) = Some (File x) ->
  Fs.get q d = Some (File x).
Proof.
  revert d at_ made k. induction p as [|c p IH]; intros d at_ made k; [done |].
  cbn [Fs.mkdirs_from]. destruct (String.eqb c ".."); [apply IH |].
  destruct (Fs.get (at_ ++ [c]) d) as [[y|e1]|] eqn:Hat.
  - by destruct made.
  - apply IH.
  - destruct (Fs.set (at_ ++ [c]) (Dir ∅) d) as [d1|] eqn:Hset; [|done].
    intros Hq. apply IH in Hq. by eapply set_dir_no_new_file.
Qed.

(* ===================================================================== *)
(** ** Running the monad *)
(* ===================================================================== *)

Lemma bind_run {A B} (m : M A) (f : A -> M B) (w : World) :
  (m ≫= f) w = match m w with
                | (Ok a, w') => f a w'
                | (Raise e, w') => (Raise e, w')
                end.
Proof. reflexivity. Qed.


(** Unfolds the primitives of the monad and normalises the traces. *)
Ltac run_monad :=
  unfold mbind, M_bind, mret, M_ret, emit, get_fs, set_fs, get_tmp, set_tmp,
    raise in *;
  simpl in *.

Ltac norm_trace := rewrite <- ?app_assoc; simpl.

(** Closes [Forall (fun ev => ~ is_pikepdf ev) evs] on an explicit list. *)
Ltac no_pikepdf :=
  repeat first [ apply List.Forall_nil
               | apply List.Forall_cons; [simpl; tauto |] ].

Arguments human_bytes : simpl never.
Arguments percent_saved : simpl never.
Arguments PyPath.to_str : simpl never.
Arguments PyPath.name : simpl never.
Arguments PyPath.stem : simpl never.
Arguments gs_cmd : simpl never.
Arguments dict_get : simpl never.
Arguments truthy : simpl never.
Arguments str_or : simpl never.

Section Strategies.

Context (env : Env).

(** The primary compressor never raises and never touches the file
    system; from an empty workspace, its verdict and its candidate are
    those of [outcome]; it performs no pikepdf operation. *)
Lemma run_ghostscript_compress_world (src_ tmp_out : Path) (q : string)
    (w : World) :
  w_tmp w = None ->
  exists (ok : bool) (msg : string) cand evs,
    outcome (run_ghostscript_compress env src_ tmp_out q) (w_fs w)
      = (Ok (ok, msg), cand) /\
    run_ghostscript_compress env src_ tmp_out q w
      = (Ok (ok, msg), touch w cand evs) /\
    Forall (fun ev => ~ is_pikepdf ev) evs.
Proof.
  intros Htmp. unfold outcome, run_ghostscript_compress, touch, blank.
  destruct w as [d t n tr]. simpl in Htmp. subst t. run_monad.
  destruct (truthy (env_which_gs env)) as [gs|]; simpl.
  2:{ eexists _, _, _, [_]. split; [done |]. split; [done |]. no_pikepdf. }
  destruct (truthy (dict_get q QUALITY_MAP)) as [settings|]; simpl.
  2:{ eexists _, _, _, [_]. split; [done |]. split; [done |]. no_pikepdf. }
  destruct (env_gs env _ d) as [rc out err written|e]; simpl.
  - destruct (negb (rc =? 0)); simpl; norm_trace;
      eexists _, _, _, [_; _]; (split; [done |]); (split; [done |]); no_pikepdf.
  - norm_trace. eexists _, _, _, [_; _].
    split; [done |]. split; [done |]. no_pikepdf.
Qed.

(** The fallback optimizer never raises and never touches the file
    system; its verdict is that of [outcome], and it replaces the
    candidate only when it succeeds. *)
Lemma run_pikepdf_optimize_world (src_ tmp_out : Path) (w : World) :
  exists (ok : bool) (msg : string) cand evs,
    outcome (run_pikepdf_optimize env src_ tmp_out) (w_fs w)
      = (Ok (ok, msg), cand) /\
    run_pikepdf_optimize env src_ tmp_out w
      = (Ok (ok, msg), touch w (if ok then cand else w_tmp w) evs).
Proof.
  unfold outcome, run_pikepdf_optimize, touch, blank.
  destruct w as [d t n tr]. run_monad.
  destruct (env_pikepdf env) as [pk|]; simpl.
  2:{ eexists _, _, _, []. rewrite app_nil_r. by repeat split. }
  destruct (pk _ d) as [data|e]; simpl;
    eexists _, _, _, [_]; by repeat split.
Qed.

End Strategies.

(* ===================================================================== *)
(** ** The commit step *)
(* ===================================================================== *)

Section Commit.

Context (env : Env).

(** The error path of an existing destination, step by step. *)
Lemma safe_write_output_exists (tmp_out final_out : Path) (w : World) :
  cwd_ok env (w_fs w) ->
  Fs.exists_ (locate env final_out) (w_fs w) = true ->
  safe_write_output env tmp_out final_out false w
    = (Ok (false, "Output exists (use --overwrite): " +:+ PyPath.to_str final_out),
       touch w (w_tmp w) [IoMkdir (PyPath.parent final_out); IoExists final_out]).
Proof.
  intros Hcwd Hex. unfold safe_write_output, mkdir_parents, path_exists, touch.
  destruct w as [d t n tr]. run_monad.
  rewrite (proj1 (mkdirs_Some _ _ _) (mkdirs_parent_located env final_out d Hcwd Hex)).
  simpl. rewrite Hex. simpl. by norm_trace.
Qed.

(** Whatever the commit step does, it performs no pikepdf operation. *)
Lemma safe_write_output_trace (tmp_out final_out : Path) (ov : bool)
    (w : World) r w' :
  safe_write_output env tmp_out final_out ov w = (r, w') ->
  exists evs, w_trace w' = w_trace w ++ evs /\
              Forall (fun ev => ~ is_pikepdf ev) evs.
Proof.
  unfold safe_write_output, mkdir_parents, path_exists, shutil_move.
  destruct w as [d t n tr]. run_monad.
  destruct (Fs.mkdirs_run _ d) as [d1|e upto d1]; simpl.
  2:{ intros [= <- <-]. simpl.
      exists [IoMkdir (PyPath.parent final_out)]. split; [done |]. no_pikepdf. }
  destruct (Fs.exists_ (locate env final_out) d1 && negb ov); simpl.
  { intros [= <- <-]. simpl. norm_trace. eexists [_; _]. split; [done |]. no_pikepdf. }
  destruct (Fs.is_dir (locate env final_out) d1 && _); simpl.
  { intros [= <- <-]. simpl. norm_trace. eexists [_; _; _]. split; [done |]. no_pikepdf. }
  destruct t as [data|]; simpl.
  2:{ intros [= <- <-]. simpl. norm_trace. eexists [_; _; _]. split; [done |]. no_pikepdf. }
  destruct (env_move env _ _) as [|e [part|]]; simpl.
  - destruct (Fs.put _ data d1) as [d2|]; simpl;
      intros [= <- <-]; simpl; norm_trace; eexists [_; _; _];
      (split; [done |]); no_pikepdf.
  - destruct (Fs.put _ part d1) as [d2|]; simpl;
      intros [= <- <-]; simpl; norm_trace; eexists [_; _; _];
      (split; [done |]); no_pikepdf.
  - intros [= <- <-]. simpl. norm_trace. eexists [_; _; _]. split; [done |].
    no_pikepdf.
Qed.

Context (src_ dst_ tmp_out : Path) (ov : bool) (before : Z)
        (method_ msg : string).

(** The three ways through lines 216-272: no candidate; a candidate that
    is not smaller; a smaller candidate handed to [safe_write_output]. *)
Lemma commit_candidate_cases (w : World) r w' :
  commit_candidate env src_ dst_ tmp_out ov before method_ msg w = (r, w') ->
  (w_tmp w = None /\ r = Ok (result_no_output src_ dst_ before) /\
   w' = touch w None [IoExists tmp_out])
  \/ (exists data res,
        w_tmp w = Some data /\ before <= Z.of_nat (length data) /\
        r = Ok res /\ method res = method_ /\ skipped res = true /\
        saved_bytes res = 0 /\ before_bytes res = before /\
        after_bytes res = Z.of_nat (length data) /\
        w' = touch w (Some data) [IoExists tmp_out; IoStat tmp_out])
  \/ (exists data r1,
        w_tmp w = Some data /\ Z.of_nat (length data) < before /\
        safe_write_output env tmp_out dst_ ov
          (touch w (Some data) [IoExists tmp_out; IoStat tmp_out]) = (r1, w') /\
        match r1 with
        | Ok (ok_save, save_msg) =>
            exists res, r = Ok res /\ method res = method_ /\
              before_bytes res = before /\
              after_bytes res = Z.of_nat (length data) /\
              saved_bytes res = before - Z.of_nat (length data) /\
              skipped res = negb ok_save /\
              message res = (if ok_save then msg else save_msg)
        | Raise e => r = Raise e
        end).
Proof.
  unfold commit_candidate, touch. destruct w as [d t n tr]. run_monad.
  destruct t as [data|]; simpl.
  2:{ intros [= <- <-]. left. by repeat split. }
  destruct (Z.leb_spec before (Z.of_nat (length data))) as [Hle|Hlt]; simpl.
  { intros [= <- <-]. right; left. eexists data, _.
    repeat split; try done. simpl. by norm_trace. }
  norm_trace. intros Hrun. right; right. exists data.
  destruct (safe_write_output env tmp_out dst_ ov _) as [[[ok_save save_msg]|e] w1] eqn:Hsave.
  - exists (Ok (ok_save, save_msg)).
    destruct ok_save; simpl in Hrun; injection Hrun as <- <-;
      (split; [done |]); (split; [done |]); (split; [done |]);
      eexists; repeat split; done.
  - exists (Raise e). injection Hrun as <- <-. by repeat split.
Qed.

End Commit.

(* ===================================================================== *)
(** ** The orchestrator, case by case *)
(* ===================================================================== *)

Arguments run_ghostscript_compress : simpl never.
Arguments run_pikepdf_optimize : simpl never.
Arguments safe_write_output : simpl never.
Arguments commit_candidate : simpl never.
Arguments tmp_path : simpl never.

Section Cases.

Context (env : Env) (src_ dst_ : Path) (q : string) (ov : bool).

(** The result of lines 204-214. *)
Lemma compress_in_cases (before : Z) (td : Path) (w : World) r w' :
  w_tmp w = None ->
  compress_in env src_ dst_ q ov before td w = (r, w') ->
  exists (ok : bool) (msg : string) cand evs,
    outcome (run_ghostscript_compress env src_ (tmp_path td src_) q) (w_fs w)
      = (Ok (ok, msg), cand) /\
    Forall (fun ev => ~ is_pikepdf ev) evs /\
    if ok then
      commit_candidate env src_ dst_ (tmp_path td src_) ov before
        ("ghostscript(" +:+ q +:+ ")") msg (touch w cand evs) = (r, w')
    else
      exists (ok2 : bool) (msg2 : string) cand2 evs2,
        outcome (run_pikepdf_optimize env src_ (tmp_path td src_)) (w_fs w)
          = (Ok (ok2, msg2), cand2) /\
        if ok2 then
          commit_candidate env src_ dst_ (tmp_path td src_) ov before
            "pikepdf(optimize)" msg2 (touch w cand2 evs2) = (r, w')
        else
          r = Ok {| src := src_; dst := dst_; method := "failed";
                    before_bytes := before; after_bytes := before;
                    saved_bytes := 0; saved_pct := 0%float; skipped := true;
                    message := "Compression failed. GS: " +:+ msg
                                 +:+ " | Fallback: " +:+ msg2 |} /\
          w' = touch w cand evs2.
Proof.
  intros Htmp. unfold compress_in. cbv zeta. rewrite bind_run.
  destruct (run_ghostscript_compress_world env src_ (tmp_path td src_) q w Htmp)
    as (ok & msg & cand & evs & Hout & Hrun & Hquiet).
  rewrite Hrun. intros Hrest.
  exists ok, msg, cand, evs. split; [done |]. split; [done |].
  destruct ok; [done |].
  rewrite bind_run in Hrest. unfold emit at 1 in Hrest.
  rewrite bind_run in Hrest.
  match type of Hrest with
  | context [run_pikepdf_optimize env src_ (tmp_path td src_) ?w1] =>
      destruct (run_pikepdf_optimize_world env src_ (tmp_path td src_) w1)
        as (ok2 & msg2 & cand2 & evs2 & Hout2 & Hrun2); rewrite Hrun2 in Hrest
  end.
  unfold touch in *; simpl in *.
  exists ok2, msg2, cand2,
    (evs ++ [IoLog WARNING ("Ghostscript unavailable/failed for "
                              +:+ PyPath.name src_ +:+ ": " +:+ msg)] ++ evs2).
  split; [exact Hout2 |].
  rewrite !app_assoc. destruct ok2; simpl in Hrest.
  - exact Hrest.
  - by injection Hrest as <- <-.
Qed.

(** [compress_one]: the size is read first; a dry run stops there; any
    other run is the body of the [with] block between the making and the
    removal of the temporary directory. *)
Lemma compress_one_cases (dry : bool) (w : World) r w' :
  compress_one env src_ dst_ q ov dry w = (r, w') ->
  match Fs.find (locate env src_) (w_fs w) with
  | None =>
      (exists e, Fs.stat (locate env src_) (w_fs w) = inl e /\
                 r = Raise (os_error e (PyPath.to_str src_))) /\
      w' = touch w (w_tmp w) [IoStat src_]
  | Some n =>
      if dry then
        r = Ok {| src := src_; dst := dst_; method := "dry-run";
                  before_bytes := st_size env n; after_bytes := st_size env n;
                  saved_bytes := 0; saved_pct := 0%float; skipped := true;
                  message := "Dry run: no file written." |} /\
        w' = touch w (w_tmp w) [IoStat src_]
      else
        let td := env_mkdtemp env (w_ntmp w) in
        exists w2,
          compress_in env src_ dst_ q ov (st_size env n) td
            {| w_fs := w_fs w; w_tmp := None; w_ntmp := S (w_ntmp w);
               w_trace := w_trace w ++ [IoStat src_; IoMkdtemp td] |}
            = (r, w2) /\
          w' = {| w_fs := w_fs w2; w_tmp := None; w_ntmp := w_ntmp w2;
                  w_trace := w_trace w2 ++ [IoCleanup td] |}
  end.
Proof.
  unfold compress_one, stat_size, with_tempdir, touch, Fs.find.
  destruct w as [d t n tr]. run_monad.
  destruct (Fs.stat (locate env src_) d) as [e|nd]; simpl.
  { intros [= <- <-]. split; [by exists e | done]. }
  destruct dry; simpl.
  { by intros [= <- <-]. }
  norm_trace.
  destruct (compress_in env src_ dst_ q ov (st_size env nd) _ _) as [r2 w2] eqn:Hin.
  intros [= <- <-]. by exists w2.
Qed.

End Cases.

(* ===================================================================== *)
(** ** The acceptance policy *)
(* ===================================================================== *)

Section Policy.

Context (env : Env) (src_ dst_ : Path) (q : string) (ov : bool).

(** What lines 216-272 return, for any candidate. *)
Lemma commit_candidate_policy (tmp_out : Path) (before : Z)
    (method_ msg : string) (w : World) res w' :
  commit_candidate env src_ dst_ tmp_out ov before method_ msg w = (Ok res, w') ->
  before_bytes res = before /\
  (skipped res = false -> after_bytes res < before_bytes res) /\
  (before_bytes res <= after_bytes res ->
     skipped res = true /\ saved_bytes res = 0) /\
  (forall data, w_tmp w = Some data ->
     method res = method_ /\ after_bytes res = Z.of_nat (length data)) /\
  (w_tmp w = None -> res = result_no_output src_ dst_ before).
Proof.
  intros Hrun. apply commit_candidate_cases in Hrun
    as [(Htmp & [= ->] & _)
       |[(data & res' & Htmp & Hle & [= ->] & Hm & Hs & Hsv & Hb & Ha & _)
        |(data & r1 & Htmp & Hlt & _ & Hres)]].
  - rewrite Htmp. simpl. repeat split; try done; lia.
  - rewrite Htmp, Hm, Hs, Hsv, Hb, Ha.
    repeat split; try done; try lia; by simplify_eq.
  - destruct r1 as [[ok_save save_msg]|e]; [|done].
    destruct Hres as (res' & [= ->] & Hm & Hb & Ha & Hsv & Hs & _).
    rewrite Htmp, Hm, Hs, Hsv, Hb, Ha.
    repeat split; try done; try lia; by simplify_eq.
Qed.

End Policy.

(** C1. For every file that [compress_one] processes, a result that is not
    skipped has [after_bytes < before_bytes]; a result with
    [after_bytes >= before_bytes] is skipped with [saved_bytes = 0]; and
    when the candidate that a strategy produced (Ghostscript's, or
    pikepdf's after Ghostscript failed) is not smaller than the source,
    the result is skipped, keeps the name of that strategy as its method,
    has [saved_bytes = 0] and reports the candidate's size. *)
Theorem compress_one_size_policy (env : Env) (src_ dst_ : Path) (q : string)
    (ov dry : bool) (w : World) (res : CompressResult) (w' : World) :
  compress_one env src_ dst_ q ov dry w = (Ok res, w') ->
  (skipped res = false -> after_bytes res < before_bytes res) /\
  (before_bytes res <= after_bytes res ->
     skipped res = true /\ saved_bytes res = 0) /\
  (dry = false ->
   forall msg data,
     outcome (run_ghostscript_compress env src_
                (tmp_path (env_mkdtemp env (w_ntmp w)) src_) q) (w_fs w)
       = (Ok (true, msg), Some data) ->
     before_bytes res <= Z.of_nat (length data) ->
     method res = "ghostscript(" +:+ q +:+ ")" /\ skipped res = true /\
     saved_bytes res = 0 /\ after_bytes res = Z.of_nat (length data)) /\
  (dry = false ->
   forall msg cand msg2 data,
     outcome (run_ghostscript_compress env src_
                (tmp_path (env_mkdtemp env (w_ntmp w)) src_) q) (w_fs w)
       = (Ok (false, msg), cand) ->
     outcome (run_pikepdf_optimize env src_
                (tmp_path (env_mkdtemp env (w_ntmp w)) src_)) (w_fs w)
       = (Ok (true, msg2), Some data) ->
     before_bytes res <= Z.of_nat (length data) ->
     method res = "pikepdf(optimize)" /\ skipped res = true /\
     saved_bytes res = 0 /\ after_bytes res = Z.of_nat (length data)).
Proof.
  intros Hrun. apply compress_one_cases in Hrun.
  destruct (Fs.find (locate env src_) (w_fs w)) as [n|];
    [|by destruct Hrun as [(e & _ & [=]) _]].
  destruct dry.
  { destruct Hrun as [[= ->] _]. simpl. repeat split; try done; lia. }
  destruct Hrun as (w2 & Hin & _).
  apply compress_in_cases in Hin as (ok & msg & cand & evs & Hout & _ & Hrest);
    [|done].
  simpl in Hout. rewrite Hout.
  destruct ok.
  - apply commit_candidate_policy in Hrest as (Hb & Hns & Hge & Hcand & _).
    split; [exact Hns |]. split; [exact Hge |]. split.
    + intros _ msg' data Heq Hle. injection Heq as <- ->.
      destruct (Hcand data eq_refl) as [Hm Ha].
      destruct Hge as [Hs Hsv]; [lia | done].
    + intros _ msg' cand' msg2 data Heq. discriminate Heq.
  - destruct Hrest as (ok2 & msg2 & cand2 & evs2 & Hout2 & Hrest).
    simpl in Hout2. rewrite Hout2. destruct ok2.
    + apply commit_candidate_policy in Hrest as (Hb & Hns & Hge & Hcand & _).
      split; [exact Hns |]. split; [exact Hge |]. split.
      * intros _ msg' data Heq. discriminate Heq.
      * intros _ msg' cand' msg2' data _ Heq Hle. injection Heq as <- ->.
        destruct (Hcand data eq_refl) as [Hm Ha].
        destruct Hge as [Hs Hsv]; [lia | done].
    + destruct Hrest as [[= ->] _]. simpl.
      split; [done |]. split; [done |]. split.
      * intros _ msg' data Heq. discriminate Heq.
      * intros _ msg' cand' msg2' data _ Heq. discriminate Heq.
Qed.

(** C4. For every file where the primary compressor and the fallback
    optimizer both fail, [compress_one] returns a result with the method
    "failed", skipped, [after_bytes = before_bytes] (the size of the
    source), [saved_bytes = 0], and a message that contains the reason of
    the primary and the reason of the fallback; the file system is left as
    it was. *)
Theorem both_strategies_fail (env : Env) (src_ dst_ : Path) (q : string)
    (ov : bool) (w : World) (n : node) (msg msg2 : string)
    (cand cand2 : option (list Byte.byte)) :
  Fs.find (locate env src_) (w_fs w) = Some n ->
  outcome (run_ghostscript_compress env src_
             (tmp_path (env_mkdtemp env (w_ntmp w)) src_) q) (w_fs w)
    = (Ok (false, msg), cand) ->
  outcome (run_pikepdf_optimize env src_
             (tmp_path (env_mkdtemp env (w_ntmp w)) src_)) (w_fs w)
    = (Ok (false, msg2), cand2) ->
  exists res w',
    compress_one env src_ dst_ q ov false w = (Ok res, w') /\
    method res = "failed"%string /\ skipped res = true /\
    before_bytes res = st_size env n /\
    after_bytes res = before_bytes res /\ saved_bytes res = 0 /\
    message res = "Compression failed. GS: " +:+ msg +:+ " | Fallback: " +:+ msg2 /\
    PyStr.contains (message res) msg /\ PyStr.contains (message res) msg2 /\
    w_fs w' = w_fs w.
Proof.
  intros Hfind Hgs Hpk.
  destruct (compress_one env src_ dst_ q ov false w) as [r w'] eqn:Hrun.
  apply compress_one_cases in Hrun. rewrite Hfind in Hrun.
  destruct Hrun as (w2 & Hin & ->).
  apply compress_in_cases in Hin as (ok & msg' & cand' & evs & Hout & _ & Hrest);
    [|done].
  simpl in Hout. rewrite Hgs in Hout. injection Hout as <- <- <-.
  destruct Hrest as (ok2 & msg2' & cand2' & evs2 & Hout2 & Hrest).
  simpl in Hout2. rewrite Hpk in Hout2. injection Hout2 as <- <- <-.
  destruct Hrest as [-> ->]. eexists _, _. split; [reflexivity |]. simpl.
  repeat split; try done.
  - apply contains_app_r, contains_app_l, contains_refl.
  - do 3 apply contains_app_r. apply contains_refl.
Qed.

(** C5, as the code has it.  A dry run changes no file, makes no temporary
    directory and runs no strategy: the one operation it performs is the
    [stat] that reads the size of the source.  When the [stat] succeeds,
    the result has the method "dry-run", is skipped and has
    [after_bytes = before_bytes], the size of the source.  When it fails
    no result is returned: it raises FileNotFoundError when a component of
    the path is missing, and NotADirectoryError when a component that is
    not the last is a regular file. *)
Theorem dry_run_only_stats (env : Env) (src_ dst_ : Path) (q : string)
    (ov : bool) (w : World) (r : Res CompressResult) (w' : World) :
  compress_one env src_ dst_ q ov true w = (r, w') ->
  w_fs w' = w_fs w /\ w_tmp w' = w_tmp w /\ w_ntmp w' = w_ntmp w /\
  w_trace w' = w_trace w ++ [IoStat src_] /\
  match Fs.stat (locate env src_) (w_fs w) with
  | inr n =>
      r = Ok {| src := src_; dst := dst_; method := "dry-run";
                before_bytes := st_size env n; after_bytes := st_size env n;
                saved_bytes := 0; saved_pct := 0%float; skipped := true;
                message := "Dry run: no file written." |}
  | inl e =>
      e = Fs.ENOENT /\ r = Raise (FileNotFoundError (PyPath.to_str src_)) \/
      e = Fs.ENOTDIR /\ r = Raise (NotADirectoryError (PyPath.to_str src_))
  end.
Proof.
  intros Hrun. apply compress_one_cases in Hrun. unfold Fs.find in Hrun.
  destruct (Fs.stat (locate env src_) (w_fs w)) as [e|n] eqn:Hstat.
  - destruct Hrun as [(e' & [= <-] & ->) ->]. simpl. repeat split; try done.
    by destruct (stat_errno _ _ _ Hstat) as [-> | ->]; [left | right].
  - by destruct Hrun as [-> ->].
Qed.

(** The results of lines 216-272, field by field. *)
Lemma commit_candidate_results (env : Env) (src_ dst_ tmp_out : Path) (ov : bool)
    (before : Z) (method_ msg : string) (w : World) r w' :
  commit_candidate env src_ dst_ tmp_out ov before method_ msg w = (r, w') ->
  match w_tmp w with
  | None => r = Ok (result_no_output src_ dst_ before) /\ w_fs w' = w_fs w
  | Some data =>
      if before <=? Z.of_nat (length data) then
        r = Ok (mkResult src_ dst_ method_ before (Z.of_nat (length data)) 0
                  0%float true
                  ("Skipped: output not smaller ("
                     +:+ human_bytes (Z.of_nat (length data)) +:+ " >= "
                     +:+ human_bytes before +:+ "). " +:+ msg)) /\
        w_fs w' = w_fs w
      else
        exists r1,
          safe_write_output env tmp_out dst_ ov
            (touch w (Some data) [IoExists tmp_out; IoStat tmp_out]) = (r1, w') /\
          r = match r1 with
              | Ok (true, _) =>
                  Ok (mkResult src_ dst_ method_ before (Z.of_nat (length data))
                        (before - Z.of_nat (length data))
                        (percent_saved before (Z.of_nat (length data))) false msg)
              | Ok (false, save_msg) =>
                  Ok (mkResult src_ dst_ method_ before (Z.of_nat (length data))
                        (before - Z.of_nat (length data))
                        (percent_saved before (Z.of_nat (length data))) true save_msg)
              | Raise e => Raise e
              end
  end.
Proof.
  unfold commit_candidate, touch. destruct w as [d t n tr]. run_monad.
  destruct t as [data|]; simpl.
  2:{ by intros [= <- <-]. }
  destruct (before <=? Z.of_nat (length data)); simpl.
  { by intros [= <- <-]. }
  norm_trace. intros Hrun.
  destruct (safe_write_output env tmp_out dst_ ov _) as [[[ok_save save_msg]|e] w1].
  - exists (Ok (ok_save, save_msg)).
    by destruct ok_save; simpl in Hrun; injection Hrun as <- <-.
  - exists (Raise e). by injection Hrun as <- <-.
Qed.

(* ===================================================================== *)
(** ** A destination that exists, without [--overwrite] *)
(* ===================================================================== *)

Section Existing.

Context (env : Env).

Lemma commit_candidate_existing (src_ dst_ tmp_out : Path) (before : Z)
    (method_ msg : string) (w : World) r w' :
  cwd_ok env (w_fs w) ->
  Fs.exists_ (locate env dst_) (w_fs w) = true ->
  commit_candidate env src_ dst_ tmp_out false before method_ msg w = (r, w') ->
  w_fs w' = w_fs w /\
  exists res, r = Ok res /\ before_bytes res = before /\
    (after_bytes res < before_bytes res ->
       skipped res = true /\
       saved_bytes res = before_bytes res - after_bytes res /\
       message res = "Output exists (use --overwrite): " +:+ PyPath.to_str dst_).
Proof.
  intros Hcwd Hex Hrun. apply commit_candidate_cases in Hrun
    as [(Htmp & -> & ->)
       |[(data & res' & Htmp & Hle & -> & Hm & Hs & Hsv & Hb & Ha & ->)
        |(data & r1 & Htmp & Hlt & Hsave & Hres)]].
  - split; [done |]. eexists. split; [done |]. simpl. split; [done | lia].
  - split; [done |]. exists res'. split; [done |]. split; [done | lia].
  - rewrite safe_write_output_exists in Hsave by done.
    injection Hsave as <- <-. split; [done |].
    destruct Hres as (res' & -> & Hm & Hb & Ha & Hsv & Hs & Hmsg).
    exists res'. split; [done |]. split; [done |]. intros _.
    rewrite Hs, Hsv, Hb, Ha, Hmsg. done.
Qed.

(** The orchestrator leaves the file system as it was, and a smaller
    candidate ends as "Output exists". *)
Lemma compress_one_existing (src_ dst_ : Path) (q : string) (dry : bool)
    (w : World) r w' :
  cwd_ok env (w_fs w) ->
  Fs.exists_ (locate env dst_) (w_fs w) = true ->
  compress_one env src_ dst_ q false dry w = (r, w') ->
  w_fs w' = w_fs w /\
  forall res, r = Ok res -> after_bytes res < before_bytes res ->
    skipped res = true /\
    saved_bytes res = before_bytes res - after_bytes res /\
    message res = "Output exists (use --overwrite): " +:+ PyPath.to_str dst_.
Proof.
  intros Hcwd Hex Hrun. apply compress_one_cases in Hrun.
  destruct (Fs.find (locate env src_) (w_fs w)) as [n|].
  2:{ by destruct Hrun as [(e & _ & ->) ->]. }
  destruct dry.
  { destruct Hrun as [-> ->]. split; [done |]. intros res [= <-]. simpl. lia. }
  destruct Hrun as (w2 & Hin & ->). simpl.
  apply compress_in_cases in Hin as (ok & msg & cand & evs & _ & _ & Hrest);
    [|done].
  destruct ok.
  - apply commit_candidate_existing in Hrest as (Hfs & res' & -> & _ & Hres);
      [|done..].
    split; [done |]. by intros res [= <-].
  - destruct Hrest as (ok2 & msg2 & cand2 & evs2 & _ & Hrest). destruct ok2.
    + apply commit_candidate_existing in Hrest as (Hfs & res' & -> & _ & Hres);
        [|done..].
      split; [done |]. by intros res [= <-].
    + destruct Hrest as [-> ->]. split; [done |]. intros res [= <-]. simpl. lia.
Qed.

Lemma print_result_fs (res : CompressResult) (w : World) r w' :
  print_result res w = (r, w') -> w_fs w' = w_fs w.
Proof.
  unfold print_result. run_monad.
  destruct (message res); intros [= <- <-]; done.
Qed.

Lemma batch_step_existing (args : Args) (folder out_dir : Path) (t : Totals)
    (src_ : Path) (w : World) r w' :
  cwd_ok env (w_fs w) -> arg_overwrite args = false ->
  Fs.exists_ (locate env (ensure_output_path src_ (Some folder) out_dir))
             (w_fs w) = true ->
  batch_step env args folder out_dir t src_ w = (r, w') ->
  w_fs w' = w_fs w.
Proof.
  intros Hcwd Hov Hex. unfold batch_step. rewrite Hov. cbv zeta.
  rewrite bind_run.
  destruct (compress_one env src_ _ _ false _ w) as [r1 w1] eqn:Hone.
  apply compress_one_existing in Hone as [Hfs _]; [|done..].
  destruct r1 as [res|e]; [|by intros [= <- <-]].
  rewrite bind_run.
  destruct (print_result res w1) as [r2 w2] eqn:Hprint.
  apply print_result_fs in Hprint.
  destruct r2 as [[]|e]; [|intros [= <- <-]; congruence].
  destruct (negb (skipped res) && negb (arg_dry_run args));
    [|destruct (String.eqb (method res) "failed")];
    intros [= <- <-]; congruence.
Qed.

Lemma batch_loop_existing (args : Args) (folder out_dir : Path)
    (pdfs : list Path) (t : Totals) (w : World) r w' :
  cwd_ok env (w_fs w) -> arg_overwrite args = false ->
  Forall (fun src_ =>
            Fs.exists_ (locate env (ensure_output_path src_ (Some folder) out_dir))
                       (w_fs w) = true) pdfs ->
  batch_loop env args folder out_dir pdfs t w = (r, w') ->
  w_fs w' = w_fs w.
Proof.
  intros Hcwd Hov Hall. revert t w Hcwd Hall.
  induction pdfs as [|src_ rest IH]; intros t w Hcwd Hall; simpl.
  { by intros [= <- <-]. }
  apply Forall_cons_1 in Hall as [Hex Hrest].
  rewrite bind_run.
  destruct (batch_step env args folder out_dir t src_ w) as [r1 w1] eqn:Hstep.
  apply batch_step_existing in Hstep; [|done..].
  destruct r1 as [t'|e]; [|intros [= <- <-]; done].
  intros Hloop. apply IH in Hloop; rewrite ?Hstep; [congruence | done | done].
Qed.

(** The result of a smaller candidate whose destination exists. *)
Lemma commit_candidate_smaller_existing (src_ dst_ tmp_out : Path) (before : Z)
    (method_ msg : string) (w : World) (data : list Byte.byte) :
  cwd_ok env (w_fs w) ->
  Fs.exists_ (locate env dst_) (w_fs w) = true ->
  w_tmp w = Some data -> Z.of_nat (length data) < before ->
  commit_candidate env src_ dst_ tmp_out false before method_ msg w
  = (Ok (output_exists src_ dst_ method_ before (Z.of_nat (length data))),
     touch w (Some data) [IoExists tmp_out; IoStat tmp_out;
                          IoMkdir (PyPath.parent dst_); IoExists dst_]).
Proof.
  intros Hcwd Hex Htmp Hlt.
  destruct (commit_candidate env src_ dst_ tmp_out false before method_ msg w)
    as [r w'] eqn:Hrun.
  apply commit_candidate_results in Hrun. rewrite Htmp in Hrun.
  destruct (Z.leb_spec before (Z.of_nat (length data))) as [Hle|_]; [lia |].
  destruct Hrun as (r1 & Hsave & ->).
  rewrite safe_write_output_exists in Hsave by done.
  injection Hsave as <- <-. unfold touch. cbn. by norm_trace.
Qed.

(** The same, from [compress_one] on: the smaller candidate is the
    primary's, or the fallback's after the primary failed. *)
Lemma compress_one_smaller_existing (src_ dst_ : Path) (q : string)
    (w : World) (n : node) (method_ : string) (data : list Byte.byte) :
  cwd_ok env (w_fs w) ->
  Fs.exists_ (locate env dst_) (w_fs w) = true ->
  Fs.find (locate env src_) (w_fs w) = Some n ->
  ((exists msg,
      outcome (run_ghostscript_compress env src_
                 (tmp_path (env_mkdtemp env (w_ntmp w)) src_) q) (w_fs w)
        = (Ok (true, msg), Some data)) /\
   method_ = "ghostscript(" +:+ q +:+ ")"
   \/
   (exists msg cand msg2,
      outcome (run_ghostscript_compress env src_
                 (tmp_path (env_mkdtemp env (w_ntmp w)) src_) q) (w_fs w)
        = (Ok (false, msg), cand) /\
      outcome (run_pikepdf_optimize env src_
                 (tmp_path (env_mkdtemp env (w_ntmp w)) src_)) (w_fs w)
        = (Ok (true, msg2), Some data)) /\
   method_ = "pikepdf(optimize)"%string) ->
  Z.of_nat (length data) < st_size env n ->
  exists w',
    compress_one env src_ dst_ q false false w
    = (Ok (output_exists src_ dst_ method_ (st_size env n) (Z.of_nat (length data))),
       w') /\
    w_fs w' = w_fs w.
Proof.
  intros Hcwd Hex Hfind Hcand Hlt.
  destruct (compress_one env src_ dst_ q false false w) as [r w'] eqn:Hrun.
  apply compress_one_cases in Hrun. rewrite Hfind in Hrun.
  destruct Hrun as (w2 & Hin & ->).
  apply compress_in_cases in Hin as (ok & msg' & cand' & evs & Hout & _ & Hrest);
    [|done].
  cbn [w_fs] in Hout.
  destruct Hcand as [[(msg & Hgs) ->]|[(msg & cand & msg2 & Hgs & Hpk) ->]];
    rewrite Hgs in Hout; injection Hout as <- <- <-.
  - rewrite (commit_candidate_smaller_existing _ _ _ _ _ _ _ data) in Hrest
      by (cbn; done).
    injection Hrest as <- <-. by eexists.
  - destruct Hrest as (ok2 & msg2' & cand2 & evs2 & Hout2 & Hrest).
    cbn [w_fs] in Hout2. rewrite Hpk in Hout2. injection Hout2 as <- <- <-.
    rewrite (commit_candidate_smaller_existing _ _ _ _ _ _ _ data) in Hrest
      by (cbn; done).
    injection Hrest as <- <-. by eexists.
Qed.

End Existing.

(** C6. For every file whose candidate is smaller than the source, when
    the destination exists and overwrite was not requested, [compress_one]
    returns the result of a failed commit: skipped, with the message
    "Output exists (use --overwrite): ...", the method of the strategy
    that made the candidate, [after_bytes] the size of the candidate and
    [saved_bytes = before_bytes - after_bytes]; and the file system is as
    it was.  This holds for the candidate of the primary and for that of
    the fallback.  Whatever the strategies do, a run whose destination
    exists leaves the file system as it was, the destination included; so
    does a batch in which every destination exists. *)
Theorem existing_destination_is_kept :
  (forall (env : Env) (src_ dst_ : Path) (q : string) (w : World) (n : node)
          (msg : string) (data : list Byte.byte),
      cwd_ok env (w_fs w) ->
      Fs.exists_ (locate env dst_) (w_fs w) = true ->
      Fs.find (locate env src_) (w_fs w) = Some n ->
      outcome (run_ghostscript_compress env src_
                 (tmp_path (env_mkdtemp env (w_ntmp w)) src_) q) (w_fs w)
        = (Ok (true, msg), Some data) ->
      Z.of_nat (length data) < st_size env n ->
      exists res w',
        compress_one env src_ dst_ q false false w = (Ok res, w') /\
        skipped res = true /\
        message res = "Output exists (use --overwrite): " +:+ PyPath.to_str dst_ /\
        method res = "ghostscript(" +:+ q +:+ ")" /\
        before_bytes res = st_size env n /\
        after_bytes res = Z.of_nat (length data) /\
        saved_bytes res = before_bytes res - after_bytes res /\
        w_fs w' = w_fs w /\
        Fs.find (locate env dst_) (w_fs w') = Fs.find (locate env dst_) (w_fs w)) /\
  (forall (env : Env) (src_ dst_ : Path) (q : string) (w : World) (n : node)
          (msg msg2 : string) cand (data : list Byte.byte),
      cwd_ok env (w_fs w) ->
      Fs.exists_ (locate env dst_) (w_fs w) = true ->
      Fs.find (locate env src_) (w_fs w) = Some n ->
      outcome (run_ghostscript_compress env src_
                 (tmp_path (env_mkdtemp env (w_ntmp w)) src_) q) (w_fs w)
        = (Ok (false, msg), cand) ->
      outcome (run_pikepdf_optimize env src_
                 (tmp_path (env_mkdtemp env (w_ntmp w)) src_)) (w_fs w)
        = (Ok (true, msg2), Some data) ->
      Z.of_nat (length data) < st_size env n ->
      exists res w',
        compress_one env src_ dst_ q false false w = (Ok res, w') /\
        skipped res = true /\
        message res = "Output exists (use --overwrite): " +:+ PyPath.to_str dst_ /\
        method res = "pikepdf(optimize)"%string /\
        before_bytes res = st_size env n /\
        after_bytes res = Z.of_nat (length data) /\
        saved_bytes res = before_bytes res - after_bytes res /\
        w_fs w' = w_fs w /\
        Fs.find (locate env dst_) (w_fs w') = Fs.find (locate env dst_) (w_fs w)) /\
  (forall (env : Env) (src_ dst_ : Path) (q : string) (dry : bool) (w : World)
          (r : Res CompressResult) (w' : World),
      cwd_ok env (w_fs w) ->
      Fs.exists_ (locate env dst_) (w_fs w) = true ->
      compress_one env src_ dst_ q false dry w = (r, w') ->
      w_fs w' = w_fs w /\
      Fs.find (locate env dst_) (w_fs w') = Fs.find (locate env dst_) (w_fs w) /\
      forall res, r = Ok res -> after_bytes res < before_bytes res ->
        skipped res = true /\
        saved_bytes res = before_bytes res - after_bytes res /\
        message res = "Output exists (use --overwrite): " +:+ PyPath.to_str dst_) /\
  (forall (env : Env) (args : Args) (folder out_dir : Path) (pdfs : list Path)
          (t : Totals) (w : World) (r : Res Totals) (w' : World),
      cwd_ok env (w_fs w) -> arg_overwrite args = false ->
      Forall (fun src_ =>
                Fs.exists_ (locate env (ensure_output_path src_ (Some folder) out_dir))
                           (w_fs w) = true) pdfs ->
      batch_loop env args folder out_dir pdfs t w = (r, w') ->
      w_fs w' = w_fs w).
Proof.
  split; [|split; [|split]].
  - intros env src_ dst_ q w n msg data Hcwd Hex Hfind Hgs Hlt.
    destruct (compress_one_smaller_existing env src_ dst_ q w n
                ("ghostscript(" +:+ q +:+ ")") data Hcwd Hex Hfind) as (w' & Hrun & Hfs);
      [left; split; [by exists msg | done] | done |].
    eexists _, w'. split; [exact Hrun |]. cbn. rewrite Hfs. by repeat split.
  - intros env src_ dst_ q w n msg msg2 cand data Hcwd Hex Hfind Hgs Hpk Hlt.
    destruct (compress_one_smaller_existing env src_ dst_ q w n
                "pikepdf(optimize)" data Hcwd Hex Hfind) as (w' & Hrun & Hfs);
      [right; split; [by exists msg, cand, msg2 | done] | done |].
    eexists _, w'. split; [exact Hrun |]. cbn. rewrite Hfs. by repeat split.
  - intros env src_ dst_ q dry w r w' Hcwd Hex Hrun.
    apply compress_one_existing in Hrun as [Hfs Hres]; [|done..].
    rewrite Hfs. done.
  - intros. by eapply batch_loop_existing.
Qed.

(* ===================================================================== *)
(** ** The path mapper *)
(* ===================================================================== *)

Lemma relative_to_under (source batch_root : Path) (rel : list string) :
  is_under source batch_root rel ->
  PyPath.relative_to source batch_root = Some {| absolute := false; parts := rel |}.
Proof.
  intros [Habs Hparts]. unfold PyPath.relative_to.
  rewrite Habs, Hparts, strip_prefix_app. by destruct (absolute batch_root).
Qed.

Lemma relative_to_not_under (source batch_root : Path) :
  (forall rel, ~ is_under source batch_root rel) ->
  PyPath.relative_to source batch_root = None.
Proof.
  intros Hnot. unfold PyPath.relative_to.
  destruct (Bool.eqb (absolute source) (absolute batch_root)) eqn:Habs; [|done].
  destruct (PyPath.strip_prefix _ _) as [r|] eqn:Hstrip; [|done].
  destruct (Hnot r). split.
  - by apply Bool.eqb_prop.
  - by apply strip_prefix_Some.
Qed.

(** C7. Without a batch root the path mapper returns the output root
    joined with the file name of the source.  With a batch root it returns
    the output root joined with the source relative to the batch root, and
    the output root joined with the file name when the source is not under
    the batch root.  With the root /in, the output root /out and the source
    /in/a/b.pdf it returns /out/a/b.pdf; without a root, /out/b.pdf. *)
Theorem ensure_output_path_maps :
  (forall source output_root,
      ensure_output_path source None output_root
      = PyPath.join_name output_root (PyPath.name source)) /\
  (forall source batch_root output_root rel,
      is_under source batch_root rel ->
      ensure_output_path source (Some batch_root) output_root
      = PyPath.joinpath output_root {| absolute := false; parts := rel |} /\
      ensure_output_path source (Some batch_root) output_root
      = {| absolute := absolute output_root; parts := parts output_root ++ rel |}) /\
  (forall source batch_root output_root,
      (forall rel, ~ is_under source batch_root rel) ->
      ensure_output_path source (Some batch_root) output_root
      = PyPath.join_name output_root (PyPath.name source)) /\
  ensure_output_path (PyPath.of_str "/in/a/b.pdf") (Some (PyPath.of_str "/in"))
                     (PyPath.of_str "/out")
  = PyPath.of_str "/out/a/b.pdf" /\
  ensure_output_path (PyPath.of_str "/in/a/b.pdf") None (PyPath.of_str "/out")
  = PyPath.of_str "/out/b.pdf".
Proof.
  split; [done |]. split; [|split; [|split; reflexivity]].
  - intros source batch_root output_root rel Hunder. unfold ensure_output_path.
    by rewrite (relative_to_under _ _ _ Hunder).
  - intros source batch_root output_root Hnot. unfold ensure_output_path.
    by rewrite (relative_to_not_under _ _ Hnot).
Qed.

(* ===================================================================== *)
(** ** The order of the strategies *)
(* ===================================================================== *)

Section Order.

Context (env : Env) (src_ dst_ : Path) (q : string) (ov : bool).

Lemma commit_candidate_trace (tmp_out : Path) (before : Z)
    (method_ msg : string) (w : World) r w' :
  commit_candidate env src_ dst_ tmp_out ov before method_ msg w = (r, w') ->
  exists evs, w_trace w' = w_trace w ++ evs /\
              Forall (fun ev => ~ is_pikepdf ev) evs.
Proof.
  intros Hrun. apply commit_candidate_cases in Hrun
    as [(_ & _ & ->)|[(data & res' & _ & _ & _ & _ & _ & _ & _ & _ & ->)
                     |(data & r1 & _ & _ & Hsave & _)]].
  - eexists [_]. split; [done |]. no_pikepdf.
  - eexists [_; _]. split; [done |]. no_pikepdf.
  - apply safe_write_output_trace in Hsave as (evs & -> & Hquiet). simpl.
    exists ([IoExists tmp_out; IoStat tmp_out] ++ evs).
    split; [by rewrite <- app_assoc |].
    apply Forall_app. split; [no_pikepdf | done].
Qed.

(** When the primary succeeds, the rest of the run is the commit of its
    candidate: no pikepdf operation, and a result whose method is the
    primary's unless no file was produced. *)
Lemma compress_in_primary_ok (before : Z) (td : Path) (w : World)
    (msg : string) cand r w' :
  w_tmp w = None ->
  outcome (run_ghostscript_compress env src_ (tmp_path td src_) q) (w_fs w)
    = (Ok (true, msg), cand) ->
  compress_in env src_ dst_ q ov before td w = (r, w') ->
  exists evs,
    commit_candidate env src_ dst_ (tmp_path td src_) ov before
      ("ghostscript(" +:+ q +:+ ")") msg (touch w cand evs) = (r, w') /\
    Forall (fun ev => ~ is_pikepdf ev) evs.
Proof.
  intros Htmp Hgs Hin.
  apply compress_in_cases in Hin as (ok & msg' & cand' & evs & Hout & Hq & Hrest);
    [|done].
  rewrite Hgs in Hout. injection Hout as <- <- <-. by exists evs.
Qed.

(** Neither [compress_in] nor [compress_one] looks at pikepdf when the
    primary succeeds. *)
Lemma compress_in_ignores_pikepdf pk (before : Z) (td : Path) (w : World)
    (msg : string) cand :
  w_tmp w = None ->
  outcome (run_ghostscript_compress env src_ (tmp_path td src_) q) (w_fs w)
    = (Ok (true, msg), cand) ->
  compress_in (with_pikepdf pk env) src_ dst_ q ov before td w
  = compress_in env src_ dst_ q ov before td w.
Proof.
  intros Htmp Hgs. unfold compress_in. cbv zeta. rewrite !bind_run.
  change (run_ghostscript_compress (with_pikepdf pk env))
    with (run_ghostscript_compress env).
  destruct (run_ghostscript_compress_world env src_ (tmp_path td src_) q w Htmp)
    as (ok & msg' & cand' & evs & Hout & Hrun & _).
  rewrite Hgs in Hout. injection Hout as <- <- <-.
  rewrite Hrun. reflexivity.
Qed.

End Order.

Section OrderOne.

Context (env : Env) (src_ dst_ : Path) (q : string) (ov : bool).

Lemma compress_one_ignores_pikepdf pk (dry : bool) (w : World)
    (msg : string) cand :
  outcome (run_ghostscript_compress env src_
             (tmp_path (env_mkdtemp env (w_ntmp w)) src_) q) (w_fs w)
    = (Ok (true, msg), cand) ->
  compress_one (with_pikepdf pk env) src_ dst_ q ov dry w
  = compress_one env src_ dst_ q ov dry w.
Proof.
  intros Hgs. unfold compress_one, stat_size, with_tempdir.
  destruct w as [d t n tr]. run_monad.
  change (locate (with_pikepdf pk env)) with (locate env).
  destruct (Fs.stat (locate env src_) d) as [e|nd]; simpl; [done |].
  destruct dry; simpl; [done |].
  change (st_size (with_pikepdf pk env)) with (st_size env).
  by rewrite (compress_in_ignores_pikepdf env src_ dst_ q ov pk _ _ _ msg cand).
Qed.

(** The trace of a run in which the primary succeeds. *)
Lemma compress_one_primary_ok (w : World) (msg : string) cand r w' :
  outcome (run_ghostscript_compress env src_
             (tmp_path (env_mkdtemp env (w_ntmp w)) src_) q) (w_fs w)
    = (Ok (true, msg), cand) ->
  compress_one env src_ dst_ q ov false w = (r, w') ->
  (exists evs, w_trace w' = w_trace w ++ evs /\
               Forall (fun ev => ~ is_pikepdf ev) evs) /\
  (forall res, r = Ok res ->
     match cand with
     | Some _ => method res = "ghostscript(" +:+ q +:+ ")"
     | None => method res = "failed"%string /\
               message res = "Compression produced no output file."%string
     end).
Proof.
  intros Hgs Hrun. apply compress_one_cases in Hrun.
  destruct (Fs.find (locate env src_) (w_fs w)) as [n|].
  2:{ destruct Hrun as [(e & _ & ->) ->]. split; [|done].
      eexists [_]. split; [done |]. no_pikepdf. }
  destruct Hrun as (w2 & Hin & ->).
  apply (compress_in_primary_ok env src_ dst_ q ov _ _ _ msg cand) in Hin
    as (evs & Hcommit & Hquiet); [|done..].
  split.
  - apply commit_candidate_trace in Hcommit as (evs2 & Htr & Hquiet2).
    simpl in *. rewrite Htr.
    exists ([IoStat src_; IoMkdtemp (env_mkdtemp env (w_ntmp w))] ++ evs ++ evs2
              ++ [IoCleanup (env_mkdtemp env (w_ntmp w))]).
    split; [by rewrite <- !app_assoc |].
    repeat (apply Forall_app; split); try done; no_pikepdf.
  - intros res ->.
    apply commit_candidate_policy in Hcommit as (_ & _ & _ & Hsome & Hnone).
    simpl in *. destruct cand as [data|].
    + by destruct (Hsome data eq_refl).
    + by rewrite (Hnone eq_refl).
Qed.

(** A pikepdf operation in the trace of a run: the primary had failed. *)
Lemma pikepdf_after_primary_failure (dry : bool) (w : World) r w' evs :
  compress_one env src_ dst_ q ov dry w = (r, w') ->
  w_trace w' = w_trace w ++ evs ->
  Exists is_pikepdf evs ->
  exists msg cand,
    outcome (run_ghostscript_compress env src_
               (tmp_path (env_mkdtemp env (w_ntmp w)) src_) q) (w_fs w)
      = (Ok (false, msg), cand).
Proof.
  intros Hrun Htr Hpk.
  assert (Hcontra : forall evs',
             w_trace w' = w_trace w ++ evs' ->
             Forall (fun ev => ~ is_pikepdf ev) evs' -> False).
  { intros evs' Htr' Hquiet. rewrite Htr in Htr'.
    apply app_inv_head in Htr' as ->.
    apply Exists_exists in Hpk as (ev & Hin & Hev).
    rewrite Forall_forall in Hquiet. by apply (Hquiet ev). }
  pose proof Hrun as Hcases. apply compress_one_cases in Hcases.
  destruct (Fs.find (locate env src_) (w_fs w)) as [n|].
  2:{ destruct Hcases as [_ ->]. destruct (Hcontra [IoStat src_]); [done |].
      no_pikepdf. }
  destruct dry.
  { destruct Hcases as [_ ->]. destruct (Hcontra [IoStat src_]); [done |].
    no_pikepdf. }
  destruct Hcases as (w2 & Hin & _).
  apply compress_in_cases in Hin as (ok & msg & cand & evs1 & Hout & _ & _);
    [|done].
  destruct ok; [|by exists msg, cand].
  destruct (compress_one_primary_ok _ _ _ _ _ Hout Hrun) as [(evs' & Htr' & Hq) _].
  destruct (Hcontra evs' Htr' Hq).
Qed.

End OrderOne.

(** C8, as the code has it.  The two strategies run in order.  When the
    primary succeeds, the run performs no pikepdf operation and is the same
    whatever pikepdf is or does (the fallback is not invoked), and the
    method of the result is ghostscript(quality) when the primary left a
    candidate file; when it left none, the result is the failure "no
    output file".  A run that performs a pikepdf operation is one in
    which the primary failed. *)
Theorem primary_success_excludes_fallback :
  (forall (env : Env) (src_ dst_ : Path) (q : string) (ov : bool) (w : World)
          (msg : string) cand (r : Res CompressResult) (w' : World),
      outcome (run_ghostscript_compress env src_
                 (tmp_path (env_mkdtemp env (w_ntmp w)) src_) q) (w_fs w)
        = (Ok (true, msg), cand) ->
      compress_one env src_ dst_ q ov false w = (r, w') ->
      (exists evs, w_trace w' = w_trace w ++ evs /\
                   Forall (fun ev => ~ is_pikepdf ev) evs) /\
      (forall pk, compress_one (with_pikepdf pk env) src_ dst_ q ov false w = (r, w')) /\
      (forall res, r = Ok res ->
         match cand with
         | Some _ => method res = "ghostscript(" +:+ q +:+ ")"
         | None => method res = "failed"%string /\
                   message res = "Compression produced no output file."%string
         end)) /\
  (forall (env : Env) (src_ dst_ : Path) (q : string) (ov dry : bool) (w : World)
          (r : Res CompressResult) (w' : World) (evs : list Event),
      compress_one env src_ dst_ q ov dry w = (r, w') ->
      w_trace w' = w_trace w ++ evs ->
      Exists is_pikepdf evs ->
      exists msg cand,
        outcome (run_ghostscript_compress env src_
                   (tmp_path (env_mkdtemp env (w_ntmp w)) src_) q) (w_fs w)
          = (Ok (false, msg), cand)).
Proof.
  split.
  - intros env src_ dst_ q ov w msg cand r w' Hgs Hrun.
    destruct (compress_one_primary_ok env src_ dst_ q ov w msg cand r w' Hgs Hrun)
      as [Htrace Hres].
    split; [done |]. split; [|done].
    intros pk. by rewrite (compress_one_ignores_pikepdf env src_ dst_ q ov pk false w msg cand).
  - intros. by eapply pikepdf_after_primary_failure.
Qed.


(** A [mkdir] that succeeds makes no file and keeps every file. *)
Lemma mkdirs_files (p : list string) (d d1 : gmap string node) :
  Fs.mkdirs p d = Some d1 ->
  files_kept d d1 /\
  forall loc x, Fs.get loc d1 = Some (File x) -> Fs.get loc d = Some (File x).
Proof.
  intros Hmk%mkdirs_Some. split.
  - pose proof (mkdirs_keeps_files p d) as H. by rewrite Hmk in H.
  - intros loc x Hloc.
    apply (mkdirs_from_no_new_file d [] false 0 p loc x).
    unfold Fs.mkdirs_run in Hmk. by rewrite Hmk.
Qed.



(** The destination /out/missing/../a.pdf: /out/missing is not there, so
    the path does not exist when the call is made; the [mkdir] of
    /out/missing/.. makes /out/missing, the check then finds /out/a.pdf,
    and the directory stays. *)
Example mkdir_before_check_with_dotdot :
  let final_out := mkPath true ["out"; "missing"; ".."; "a.pdf"]%string in
  let '(r, w') := safe_write_output Examples.env_three Examples.tmp_a final_out
                    false Examples.world_candidate in
  Fs.exists_ (locate Examples.env_three final_out)
             (w_fs Examples.world_candidate) = false /\
  r = Ok (false, "Output exists (use --overwrite): /out/missing/../a.pdf"%string) /\
  Fs.is_dir ["out"; "missing"]%string (w_fs Examples.world_candidate) = false /\
  Fs.is_dir ["out"; "missing"]%string (w_fs w') = true /\
  Fs.find ["out"; "a.pdf"]%string (w_fs w') = Some (File (Examples.bytes 120)).
Proof. vm_compute. by repeat split. Qed.

(** A [mkdir] that raises after it made directories: of
    /out/m/../../in/a.pdf, /out and /out/m are made before the regular
    file /in/a.pdf is met, and they stay. *)
Example mkdir_raises_after_making :
  let '(r, w') := mkdir_parents Examples.env_three
                    (mkPath true ["out"; "m"; ".."; ".."; "in"; "a.pdf"]%string)
                    (Examples.world_of Examples.fs_three) in
  r = Raise (FileExistsError "/out/m/../../in/a.pdf") /\
  Fs.is_dir ["out"; "m"]%string Examples.fs_three = false /\
  Fs.is_dir ["out"; "m"]%string (w_fs w') = true.
Proof. vm_compute. by repeat split. Qed.

(** Where else the directories that [safe_write_output] makes stay: when
    the destination is new and the move fails, /out/sub is left behind,
    with what the copy wrote of the file. *)
Example mkdir_stays_when_move_fails :
  let env := {| env_cwd := []; env_home := []; env_dir_size := 4096;
                env_which_gs := None; env_mkdtemp := fun _ => Examples.p_out;
                env_gs := fun _ _ => GsRaised ""; env_pikepdf := None;
                env_move := fun _ _ =>
                  MoveRaised "[Errno 28] No space left on device"
                             (Some (Examples.bytes 50)) |} in
  let final_out := mkPath true ["out"; "sub"; "a.pdf"]%string in
  let '(r, w') := safe_write_output env Examples.tmp_a final_out false
                    Examples.world_candidate in
  r = Ok (false, "Failed to save output: [Errno 28] No space left on device"%string) /\
  Fs.is_dir ["out"; "sub"]%string (w_fs Examples.world_candidate) = false /\
  Fs.is_dir ["out"; "sub"]%string (w_fs w') = true /\
  Fs.find ["out"; "sub"; "a.pdf"]%string (w_fs w') = Some (File (Examples.bytes 50)).
Proof. vm_compute. by repeat split. Qed.

(* ===================================================================== *)
(** ** The batch totals and the exit code, on concrete runs *)
(* ===================================================================== *)

(** C2.  The batch of the specification: three files of 300, 400 and 500
    bytes, of which the first two are committed at 200 and 250 bytes.  The
    loop counts two saved files and 450 bytes after, but 1200 bytes
    before, not 700: [total_before] is incremented for every file, and the
    summary reports 750 saved bytes where the three results saved 250. *)
Theorem batch_totals_three_files :
  fst (batch_loop Examples.env_three Examples.args_folder Examples.p_in
         Examples.p_out Examples.three_pdfs (mkTotals 0 0 0 0 0)
         (Examples.world_of Examples.fs_three))
  = Ok {| total_before := 1200; total_after := 450; saved_files := 2;
          skipped_files := 1; failed_files := 0 |} /\
  (let '(r, w') := main Examples.env_three Examples.args_folder
                     (Examples.world_of Examples.fs_three) in
   r = Ok 0 /\
   List.last (w_trace w') (IoPrint "")
   = IoLog INFO "Summary: saved=2, skipped=1, failed=0 | total: 1.17 KB -> 450 B (saved 750 B, 62.50%)").
Proof. vm_compute. by repeat split. Qed.

(** C3.  A dry run of a single file that exists and is a PDF: [main]
    returns the exit code 1, not 0, because a dry-run result is skipped;
    the same dry run in folder mode returns 0. *)
Theorem exit_code_single_file_dry_run :
  fst (main Examples.env_three Examples.args_file_dry
         (Examples.world_of Examples.fs_three)) = Ok 1 /\
  fst (main Examples.env_three
         {| arg_file := None; arg_folder := Some "/in"%string;
            arg_out := "/out"%string; arg_quality := "ebook"%string;
            arg_overwrite := false; arg_recursive := false;
            arg_dry_run := true; arg_verbose := false |}
         (Examples.world_of Examples.fs_three)) = Ok 0.
Proof. vm_compute. by split. Qed.

(** What one turn of the loop does to the totals, for every file:
    [total_before] grows by the size of the source whatever the result;
    [total_after] and [saved_files] grow for a committed file only. *)
Lemma batch_step_totals (env : Env) (args : Args) (folder out_dir : Path)
    (t : Totals) (src_ : Path) (w : World) (t' : Totals) (w' : World) :
  batch_step env args folder out_dir t src_ w = (Ok t', w') ->
  exists res w1,
    compress_one env src_ (ensure_output_path src_ (Some folder) out_dir)
      (arg_quality args) (arg_overwrite args) (arg_dry_run args) w = (Ok res, w1) /\
    total_before t' = total_before t + before_bytes res /\
    (if negb (skipped res) && negb (arg_dry_run args)
     then total_after t' = total_after t + after_bytes res /\
          saved_files t' = saved_files t + 1
     else total_after t' = total_after t /\ saved_files t' = saved_files t).
Proof.
  unfold batch_step. cbv zeta. rewrite bind_run.
  destruct (compress_one env src_ _ _ _ _ w) as [[res|e] w1]; [|done].
  rewrite bind_run. destruct (print_result res w1) as [[[]|e] w2]; [|done].
  intros Hrun. exists res, w1. split; [done |].
  destruct (negb (skipped res) && negb (arg_dry_run args));
    [|destruct (String.eqb (method res) "failed")];
    injection Hrun as <- <-; done.
Qed.


Arguments compress_one : simpl never.
Arguments batch_loop : simpl never.
Arguments PyPath.sorted : simpl never.
Arguments Fs.rglob_node : simpl never.
Arguments Fs.glob : simpl never.
Arguments PyPath.resolve : simpl never.
Arguments PyPath.expanduser : simpl never.
Arguments PyPath.of_str : simpl never.
Arguments PyPath.suffix : simpl never.
Arguments PyStr.lower : simpl never.
Arguments ensure_output_path : simpl never.
Arguments PyStr.of_int : simpl never.
Arguments PyFloat.format_2f : simpl never.



(* ===================================================================== *)
(** ** The theorems at concrete inputs *)
(* ===================================================================== *)

(** The size policy on the first file of the batch: 300 bytes become 200. *)
Lemma compress_one_size_policy_witness :
  Examples.run_a = (Ok Examples.res_a, snd Examples.run_a) /\
  (skipped Examples.res_a = false ->
   after_bytes Examples.res_a < before_bytes Examples.res_a).
Proof.
  assert (H : Examples.run_a = (Ok Examples.res_a, snd Examples.run_a))
    by (vm_compute; reflexivity).
  split; [exact H |].
  exact (proj1 (compress_one_size_policy Examples.env_three Examples.a_pdf
                  Examples.out_a_pdf "ebook" false false
                  (Examples.world_of Examples.fs_three) Examples.res_a
                  (snd Examples.run_a) H)).
Defined.

(** Both strategies fail where neither tool is installed. *)
Lemma both_strategies_fail_witness :
  exists res w',
    compress_one Examples.env_nothing Examples.a_pdf Examples.out_a_pdf "ebook"
      false false (Examples.world_of Examples.fs_three) = (Ok res, w') /\
    method res = "failed"%string /\ skipped res = true /\
    before_bytes res = 300 /\ after_bytes res = before_bytes res /\
    saved_bytes res = 0 /\
    message res = ("Compression failed. GS: Ghostscript (gs) not found."
                     +:+ " | Fallback: pikepdf is not installed (fallback unavailable).") /\
    PyStr.contains (message res) "Ghostscript (gs) not found." /\
    PyStr.contains (message res) "pikepdf is not installed (fallback unavailable)." /\
    w_fs w' = Examples.fs_three.
Proof.
  apply (both_strategies_fail Examples.env_nothing Examples.a_pdf
           Examples.out_a_pdf "ebook" false
           (Examples.world_of Examples.fs_three) (File (Examples.bytes 300))
           "Ghostscript (gs) not found."
           "pikepdf is not installed (fallback unavailable)." None None);
    vm_compute; reflexivity.
Defined.

(** A dry run of the first file of the batch. *)
Lemma dry_run_only_stats_witness :
  w_fs (snd Examples.run_a_dry) = Examples.fs_three /\
  w_trace (snd Examples.run_a_dry) = [IoStat Examples.a_pdf] /\
  fst Examples.run_a_dry
  = Ok {| src := Examples.a_pdf; dst := Examples.out_a_pdf; method := "dry-run";
          before_bytes := 300; after_bytes := 300; saved_bytes := 0;
          saved_pct := 0%float; skipped := true;
          message := "Dry run: no file written." |}.
Proof.
  destruct (dry_run_only_stats Examples.env_three Examples.a_pdf
              Examples.out_a_pdf "ebook" false
              (Examples.world_of Examples.fs_three)
              (fst Examples.run_a_dry) (snd Examples.run_a_dry))
    as (Hfs & _ & _ & Htr & Hres).
  - apply surjective_pairing.
  - split; [exact Hfs |]. split; [exact Htr |]. exact Hres.
Defined.

(** C5, the claim as stated: a dry run does perform I/O (it stats the
    source), and on a source that is missing, or that lies below a regular
    file, it returns no result. *)
Lemma dry_run_performs_io :
  w_trace (snd Examples.run_a_dry) = [IoStat Examples.a_pdf] /\
  w_trace (snd Examples.run_a_dry) <> w_trace (Examples.world_of Examples.fs_three) /\
  fst (compress_one Examples.env_three (mkPath true ["in"; "missing.pdf"]%string)
         Examples.out_a_pdf "ebook" false true
         (Examples.world_of Examples.fs_three))
  = Raise (FileNotFoundError "/in/missing.pdf") /\
  fst (compress_one Examples.env_three
         (mkPath true ["in"; "a.pdf"; "x.pdf"]%string)
         Examples.out_a_pdf "ebook" false true
         (Examples.world_of Examples.fs_three))
  = Raise (NotADirectoryError "/in/a.pdf/x.pdf").
Proof. vm_compute. by repeat split. Qed.

(** A second run over /in/a.pdf, with /out/a.pdf left by the first: the
    candidate of 200 bytes that Ghostscript makes is not committed, nor is
    the candidate of 150 bytes that pikepdf makes where Ghostscript is not
    installed; /out/a.pdf keeps its 120 bytes, and the batch over /in
    changes nothing. *)
Lemma existing_destination_is_kept_witness :
  (exists res w',
     compress_one Examples.env_three Examples.a_pdf Examples.out_a_pdf "ebook"
       false false (Examples.world_of Examples.fs_rerun) = (Ok res, w') /\
     skipped res = true /\
     message res = "Output exists (use --overwrite): /out/a.pdf"%string /\
     method res = "ghostscript(ebook)"%string /\
     before_bytes res = 300 /\ after_bytes res = 200 /\
     saved_bytes res = before_bytes res - after_bytes res /\
     w_fs w' = Examples.fs_rerun /\
     Fs.find ["out"; "a.pdf"]%string (w_fs w')
     = Fs.find ["out"; "a.pdf"]%string Examples.fs_rerun) /\
  (exists res w',
     compress_one Examples.env_pikepdf_only Examples.a_pdf Examples.out_a_pdf
       "ebook" false false (Examples.world_of Examples.fs_rerun) = (Ok res, w') /\
     skipped res = true /\
     message res = "Output exists (use --overwrite): /out/a.pdf"%string /\
     method res = "pikepdf(optimize)"%string /\
     before_bytes res = 300 /\ after_bytes res = 150 /\
     saved_bytes res = before_bytes res - after_bytes res /\
     w_fs w' = Examples.fs_rerun /\
     Fs.find ["out"; "a.pdf"]%string (w_fs w')
     = Fs.find ["out"; "a.pdf"]%string Examples.fs_rerun) /\
  w_fs (snd Examples.run_a_again) = Examples.fs_rerun /\
  w_fs (snd (batch_loop Examples.env_three Examples.args_folder Examples.p_in
               Examples.p_out [Examples.a_pdf] (mkTotals 0 0 0 0 0)
               (Examples.world_of Examples.fs_rerun))) = Examples.fs_rerun.
Proof.
  assert (Hcwd : cwd_ok Examples.env_three Examples.fs_rerun)
    by (vm_compute; reflexivity).
  assert (Hex : Fs.exists_ (locate Examples.env_three Examples.out_a_pdf)
                           Examples.fs_rerun = true)
    by (vm_compute; reflexivity).
  destruct existing_destination_is_kept as (Hgs & Hpk & Hany & Hbatch).
  split; [|split; [|split]].
  - apply (Hgs Examples.env_three Examples.a_pdf Examples.out_a_pdf "ebook"%string
             (Examples.world_of Examples.fs_rerun) (File (Examples.bytes 300))
             "Compressed with Ghostscript."%string (Examples.bytes 200));
      vm_compute; reflexivity.
  - apply (Hpk Examples.env_pikepdf_only Examples.a_pdf Examples.out_a_pdf
             "ebook"%string (Examples.world_of Examples.fs_rerun)
             (File (Examples.bytes 300)) "Ghostscript (gs) not found."%string
             "Optimized with pikepdf (structure/streams)."%string None
             (Examples.bytes 150)); vm_compute; reflexivity.
  - exact (proj1 (Hany Examples.env_three Examples.a_pdf Examples.out_a_pdf
                    "ebook"%string false (Examples.world_of Examples.fs_rerun)
                    (fst Examples.run_a_again) (snd Examples.run_a_again)
                    Hcwd Hex (surjective_pairing _))).
  - apply (Hbatch Examples.env_three Examples.args_folder Examples.p_in
             Examples.p_out [Examples.a_pdf] (mkTotals 0 0 0 0 0)
             (Examples.world_of Examples.fs_rerun)
             (fst (batch_loop Examples.env_three Examples.args_folder
                     Examples.p_in Examples.p_out [Examples.a_pdf]
                     (mkTotals 0 0 0 0 0) (Examples.world_of Examples.fs_rerun)))
             _ Hcwd eq_refl).
    + apply List.Forall_cons; [vm_compute; reflexivity | apply List.Forall_nil].
    + apply surjective_pairing.
Defined.

(** The mapping of /in/a/b.pdf under the root /in. *)
Lemma ensure_output_path_maps_witness :
  is_under (mkPath true ["in"; "a"; "b.pdf"]%string) (mkPath true ["in"]%string)
           ["a"; "b.pdf"]%string /\
  ensure_output_path (mkPath true ["in"; "a"; "b.pdf"]%string)
                     (Some (mkPath true ["in"]%string)) (mkPath true ["out"]%string)
  = mkPath true ["out"; "a"; "b.pdf"]%string.
Proof.
  assert (H : is_under (mkPath true ["in"; "a"; "b.pdf"]%string)
                (mkPath true ["in"]%string) ["a"; "b.pdf"]%string)
    by (split; reflexivity).
  split; [exact H |].
  exact (proj2 (proj1 (proj2 ensure_output_path_maps) _ _
                  (mkPath true ["out"]%string) _ H)).
Defined.

(** Ghostscript succeeds on the first file of the batch. *)
Lemma primary_success_excludes_fallback_witness :
  outcome (run_ghostscript_compress Examples.env_three Examples.a_pdf
             Examples.tmp_a "ebook") Examples.fs_three
    = (Ok (true, "Compressed with Ghostscript."%string), Some (Examples.bytes 200)) /\
  (forall res, fst Examples.run_a = Ok res -> method res = "ghostscript(ebook)"%string).
Proof.
  assert (H : outcome (run_ghostscript_compress Examples.env_three Examples.a_pdf
                         Examples.tmp_a "ebook") Examples.fs_three
              = (Ok (true, "Compressed with Ghostscript."%string),
                 Some (Examples.bytes 200)))
    by (vm_compute; reflexivity).
  split; [exact H |].
  exact (proj2 (proj2 (proj1 primary_success_excludes_fallback Examples.env_three
                         Examples.a_pdf Examples.out_a_pdf "ebook"%string false
                         (Examples.world_of Examples.fs_three) _ _
                         (fst Examples.run_a) (snd Examples.run_a) H
                         (surjective_pairing _)))).
Defined.

(** C8, the claim as stated: Ghostscript exits with 0 and leaves no file;
    the primary has succeeded, and the method of the result is "failed". *)
Lemma primary_succeeds_without_output :
  outcome (run_ghostscript_compress Examples.env_no_output Examples.a_pdf
             Examples.tmp_a "ebook") Examples.fs_three
    = (Ok (true, "Compressed with Ghostscript."%string), None) /\
  match fst (compress_one Examples.env_no_output Examples.a_pdf Examples.out_a_pdf
               "ebook" false false (Examples.world_of Examples.fs_three)) with
  | Ok res => method res = "failed"%string /\
              method res <> "ghostscript(ebook)"%string
  | Raise _ => False
  end.
Proof. vm_compute. by repeat split. Qed.



(* ===================================================================== *)
(** ** The size formatter *)
(* ===================================================================== *)

(** C10. The size formatter prints 0 as "0 B", 1536 as "1.50 KB" and
    1073741824 as "1.00 GB". *)
Theorem human_bytes_examples :
  human_bytes 0 = "0 B"%string /\
  human_bytes 1536 = "1.50 KB"%string /\
  human_bytes 1073741824 = "1.00 GB"%string.
Proof. repeat split; vm_compute; reflexivity. Qed.

(* ===================================================================== *)
(** ** The commit step, every way through it *)
(* ===================================================================== *)

(** Where [shutil.move] puts the candidate: in the destination when that
    is a directory, at the destination otherwise.  The save fails without
    a write, or with what a refused move left of the copy. *)
Lemma safe_write_output_cases (env : Env) (tmp_out final_out : Path)
    (ov : bool) (w : World) r w' :
  safe_write_output env tmp_out final_out ov w = (r, w') ->
  match Fs.mkdirs_run (locate env (PyPath.parent final_out)) (w_fs w) with
  | Fs.MkdirRaised e upto d1 =>
      w_fs w' = d1 /\ w_tmp w' = w_tmp w /\
      r = Raise (os_error e (PyPath.to_str
                               (ancestor env (PyPath.parent final_out) upto)))
  | Fs.MkdirOk d1 =>
      (exists msg, r = Ok (false, msg) /\ msg <> ""%string /\
         w_fs w' = d1 /\ w_tmp w' = w_tmp w /\
         (ov = false -> Fs.exists_ (locate env final_out) d1 = true ->
          msg = "Output exists (use --overwrite): " +:+ PyPath.to_str final_out))
      \/ (exists e part data,
            r = Ok (false, "Failed to save output: " +:+ e) /\
            w_tmp w = Some data /\ w_tmp w' = w_tmp w /\
            env_move env (PyPath.to_str tmp_out) (PyPath.to_str final_out)
              = MoveRaised e (Some part) /\
            (ov = false -> Fs.exists_ (locate env final_out) d1 = false) /\
            Fs.put (if Fs.is_dir (locate env final_out) d1
                    then locate env final_out ++ [PyPath.name tmp_out]
                    else locate env final_out) part d1 = Some (w_fs w') /\
            Fs.exists_ (if Fs.is_dir (locate env final_out) d1
                        then locate env final_out ++ [PyPath.name tmp_out]
                        else locate env final_out) d1
            = negb (Fs.is_dir (locate env final_out) d1)
              && Fs.exists_ (locate env final_out) d1)
      \/ (exists data,
            r = Ok (true, "Saved."%string) /\ w_tmp w = Some data /\
            w_tmp w' = None /\
            (ov = false -> Fs.exists_ (locate env final_out) d1 = false) /\
            Fs.put (if Fs.is_dir (locate env final_out) d1
                    then locate env final_out ++ [PyPath.name tmp_out]
                    else locate env final_out) data d1 = Some (w_fs w') /\
            Fs.exists_ (if Fs.is_dir (locate env final_out) d1
                        then locate env final_out ++ [PyPath.name tmp_out]
                        else locate env final_out) d1
            = negb (Fs.is_dir (locate env final_out) d1)
              && Fs.exists_ (locate env final_out) d1)
  end.
Proof.
  unfold safe_write_output, mkdir_parents, path_exists, shutil_move, touch.
  destruct w as [d t n tr]. run_monad.
  destruct (Fs.mkdirs_run _ d) as [d1|e upto d1]; simpl.
  2:{ by intros [= <- <-]. }
  destruct (Fs.exists_ (locate env final_out) d1) eqn:Hex;
    destruct ov; simpl.
  all: try (intros [= <- <-]; left; eexists; repeat split; done).
  all: destruct (Fs.is_dir (locate env final_out) d1) eqn:Hdir; simpl.
  all: try destruct (Fs.exists_ (locate env final_out ++ _) d1) eqn:Hex2; simpl.
  all: try (intros [= <- <-]; left; eexists; repeat split; done).
  all: destruct t as [data|]; simpl;
    [|intros [= <- <-]; left; eexists; repeat split; done].
  all: destruct (env_move env _ _) as [|e [part|]] eqn:Hmove; simpl.
  all: try (intros [= <- <-]; left; eexists; repeat split; done).
  all: try (destruct (Fs.put _ data d1) as [d2|] eqn:Hput; simpl;
            intros [= <- <-];
            [right; right; exists data | left; eexists];
            repeat split; try done).
  all: try (destruct (Fs.put _ part d1) as [d2|] eqn:Hput; simpl;
            intros [= <- <-];
            [right; left; exists e, part, data | left; eexists];
            repeat split; try done).
  all: unfold Fs.exists_, Fs.is_dir in *; destruct (Fs.find _ d1) as [[?|?]|]; done.
Qed.

(* ===================================================================== *)
(** ** The verdicts of the two strategies *)
(* ===================================================================== *)

Lemma str_app_nonempty (a b : string) : a <> ""%string -> a +:+ b <> ""%string.
Proof. by destruct a. Qed.

Lemma str_or_nonempty (a b : string) : b <> ""%string -> str_or a b <> ""%string.
Proof. unfold str_or. by destruct a. Qed.

(** [QUALITY_MAP] has the four tiers, each mapped to a slash and its name. *)
Lemma quality_map_get (q s : string) :
  truthy (dict_get q QUALITY_MAP) = Some s <->
  In q ["screen"; "ebook"; "printer"; "prepress"]%string /\ s = "/" +:+ q.
Proof.
  cbv [dict_get QUALITY_MAP truthy].
  destruct (String.eqb_spec q "screen") as [->|H1].
  { split; [intros [= <-]; split; [simpl; tauto | reflexivity] | by intros [_ ->]]. }
  destruct (String.eqb_spec q "ebook") as [->|H2].
  { split; [intros [= <-]; split; [simpl; tauto | reflexivity] | by intros [_ ->]]. }
  destruct (String.eqb_spec q "printer") as [->|H3].
  { split; [intros [= <-]; split; [simpl; tauto | reflexivity] | by intros [_ ->]]. }
  destruct (String.eqb_spec q "prepress") as [->|H4].
  { split; [intros [= <-]; split; [simpl; tauto | reflexivity] | by intros [_ ->]]. }
  split; [done |]. intros [Hin _]. simpl in Hin.
  destruct Hin as [<-|[<-|[<-|[<-|[]]]]]; done.
Qed.

(** Every way through [run_ghostscript_compress]. *)
Lemma run_ghostscript_compress_facts (env : Env) (src_ tmp_out : Path)
    (q : string) (w : World) :
  exists (ok : bool) (msg : string) (w' : World),
    run_ghostscript_compress env src_ tmp_out q w = (Ok (ok, msg), w') /\
    w_fs w' = w_fs w /\ msg <> ""%string /\
    (ok = true -> msg = "Compressed with Ghostscript."%string) /\
    (ok = true <->
     exists gs out err written,
       truthy (env_which_gs env) = Some gs /\
       In q ["screen"; "ebook"; "printer"; "prepress"]%string /\
       env_gs env (gs_cmd gs ("/" +:+ q) src_ tmp_out) (w_fs w)
         = GsExit 0 out err written) /\
    (truthy (env_which_gs env) = None \/
     ~ In q ["screen"; "ebook"; "printer"; "prepress"]%string ->
     ok = false /\ w' = touch w (w_tmp w) [IoWhich "gs"]).
Proof.
  unfold run_ghostscript_compress, touch. destruct w as [d t n tr]. run_monad.
  destruct (truthy (env_which_gs env)) as [gs|] eqn:Hgs; simpl.
  2:{ eexists _, _, _. split; [done |]. split; [done |]. split; [done |].
      split; [done |]. split; [|done].
      split; [done |]. by intros (? & ? & ? & ? & ? & _). }
  destruct (truthy (dict_get q QUALITY_MAP)) as [settings|] eqn:Hq; simpl.
  2:{ eexists _, _, _. split; [done |]. split; [done |].
      split; [by apply str_app_nonempty |]. split; [done |]. split; [|done].
      split; [done |]. intros (? & ? & ? & ? & _ & Hin & _).
      assert (truthy (dict_get q QUALITY_MAP) = Some ("/" +:+ q)) as Hs
        by (by apply quality_map_get). congruence. }
  apply quality_map_get in Hq as [Hin ->].
  destruct (env_gs env _ d) as [rc out err written|e] eqn:Hrun; simpl.
  - destruct (Z.eqb_spec rc 0) as [->|Hrc]; simpl.
    + eexists _, _, _. split; [done |]. split; [done |]. split; [done |].
      split; [done |]. split; [|by intros [|]].
      split; [|done]. intros _. by exists gs, out, err, written.
    + eexists _, _, _. split; [done |]. split; [done |].
      split; [by do 2 apply str_or_nonempty |]. split; [done |].
      split; [|by intros [|]]. split; [done |].
      intros (gs' & o & e' & wr & [= <-] & _ & Hrun').
      rewrite Hrun in Hrun'. by injection Hrun' as ->.
  - eexists _, _, _. split; [done |]. split; [done |].
    split; [by apply str_app_nonempty |]. split; [done |].
    split; [|by intros [|]]. split; [done |].
    intros (gs' & o & e' & wr & [= <-] & _ & Hrun').
    by rewrite Hrun in Hrun'.
Qed.

(** Every way through [run_pikepdf_optimize]. *)
Lemma run_pikepdf_optimize_facts (env : Env) (src_ tmp_out : Path) (w : World) :
  exists (ok : bool) (msg : string) (w' : World),
    run_pikepdf_optimize env src_ tmp_out w = (Ok (ok, msg), w') /\
    w_fs w' = w_fs w /\ msg <> ""%string /\
    (ok = true -> msg = "Optimized with pikepdf (structure/streams)."%string /\
                  exists data, w_tmp w' = Some data) /\
    (ok = false -> w_tmp w' = w_tmp w) /\
    (env_pikepdf env = None ->
     ok = false /\ w' = w /\
     msg = "pikepdf is not installed (fallback unavailable)."%string).
Proof.
  unfold run_pikepdf_optimize. destruct w as [d t n tr]. run_monad.
  destruct (env_pikepdf env) as [pk|]; simpl.
  2:{ eexists _, _, _. split; [done |]. by repeat split. }
  destruct (pk _ d) as [data|e]; simpl; eexists _, _, _; (split; [done |]).
  - split; [done |]. split; [done |]. split; [|done].
    intros _. split; [done |]. by exists data.
  - split; [done |]. split; [by apply str_app_nonempty |]. done.
Qed.

(* ===================================================================== *)
(** ** Every way through [compress_one] *)
(* ===================================================================== *)

Lemma outcome_ghostscript (env : Env) (src_ tmp_out : Path) (q : string)
    (d : gmap string node) (ok : bool) (msg : string) cand :
  outcome (run_ghostscript_compress env src_ tmp_out q) d = (Ok (ok, msg), cand) ->
  msg <> ""%string /\ (ok = true -> msg = "Compressed with Ghostscript."%string).
Proof.
  unfold outcome.
  destruct (run_ghostscript_compress_facts env src_ tmp_out q (blank d))
    as (ok' & msg' & w' & -> & _ & Hne & Hok & _).
  by intros [= <- <- _].
Qed.

Lemma outcome_pikepdf (env : Env) (src_ tmp_out : Path)
    (d : gmap string node) (ok : bool) (msg : string) cand :
  outcome (run_pikepdf_optimize env src_ tmp_out) d = (Ok (ok, msg), cand) ->
  msg <> ""%string /\
  (ok = true -> msg = "Optimized with pikepdf (structure/streams)."%string).
Proof.
  unfold outcome.
  destruct (run_pikepdf_optimize_facts env src_ tmp_out (blank d))
    as (ok' & msg' & w' & -> & _ & Hne & Hok & _).
  intros [= <- <- _]. split; [done |]. intros H. by destruct (Hok H).
Qed.

Section Rule.

Context (env : Env) (src_ dst_ : Path) (q : string) (ov dry : bool) (w : World).
Context (P : Res CompressResult -> gmap string node -> Prop).

(** The postcondition [P] holds of the outcome and of the file system that
    [compress_one] leaves, when it holds on each of its nine ways out. *)
Lemma compress_one_rule :
  (forall e, Fs.stat (locate env src_) (w_fs w) = inl e ->
   P (Raise (os_error e (PyPath.to_str src_))) (w_fs w)) ->
  (forall n, Fs.find (locate env src_) (w_fs w) = Some n -> dry = true ->
   P (Ok (mkResult src_ dst_ "dry-run" (st_size env n) (st_size env n) 0 0%float
            true "Dry run: no file written.")) (w_fs w)) ->
  (forall n msg msg2,
     Fs.find (locate env src_) (w_fs w) = Some n -> dry = false ->
     msg <> ""%string -> msg2 <> ""%string ->
     P (Ok (mkResult src_ dst_ "failed" (st_size env n) (st_size env n) 0 0%float
              true ("Compression failed. GS: " +:+ msg +:+ " | Fallback: " +:+ msg2)))
       (w_fs w)) ->
  (forall n, Fs.find (locate env src_) (w_fs w) = Some n -> dry = false ->
   P (Ok (result_no_output src_ dst_ (st_size env n))) (w_fs w)) ->
  (forall n method_ msg (data : list Byte.byte),
     Fs.find (locate env src_) (w_fs w) = Some n -> dry = false ->
     (method_ = "ghostscript(" +:+ q +:+ ")" /\ msg = "Compressed with Ghostscript."%string
      \/ method_ = "pikepdf(optimize)"%string /\
         msg = "Optimized with pikepdf (structure/streams)."%string) ->
     st_size env n <= Z.of_nat (length data) ->
     P (Ok (mkResult src_ dst_ method_ (st_size env n) (Z.of_nat (length data)) 0
              0%float true
              ("Skipped: output not smaller ("
                 +:+ human_bytes (Z.of_nat (length data)) +:+ " >= "
                 +:+ human_bytes (st_size env n) +:+ "). " +:+ msg)))
       (w_fs w)) ->
  (forall n e upto d1 (data : list Byte.byte),
     Fs.find (locate env src_) (w_fs w) = Some n -> dry = false ->
     Z.of_nat (length data) < st_size env n ->
     Fs.mkdirs_run (locate env (PyPath.parent dst_)) (w_fs w)
       = Fs.MkdirRaised e upto d1 ->
     P (Raise (os_error e (PyPath.to_str (ancestor env (PyPath.parent dst_) upto))))
       d1) ->
  (forall n method_ (data : list Byte.byte) d1 save_msg,
     Fs.find (locate env src_) (w_fs w) = Some n -> dry = false ->
     method_ = "ghostscript(" +:+ q +:+ ")" \/ method_ = "pikepdf(optimize)"%string ->
     Z.of_nat (length data) < st_size env n ->
     Fs.mkdirs (locate env (PyPath.parent dst_)) (w_fs w) = Some d1 ->
     save_msg <> ""%string ->
     (ov = false -> Fs.exists_ (locate env dst_) d1 = true ->
      save_msg = "Output exists (use --overwrite): " +:+ PyPath.to_str dst_) ->
     P (Ok (mkResult src_ dst_ method_ (st_size env n) (Z.of_nat (length data))
              (st_size env n - Z.of_nat (length data))
              (percent_saved (st_size env n) (Z.of_nat (length data))) true save_msg))
       d1) ->
  (forall n method_ (data : list Byte.byte) d1 d2 e part,
     Fs.find (locate env src_) (w_fs w) = Some n -> dry = false ->
     method_ = "ghostscript(" +:+ q +:+ ")" \/ method_ = "pikepdf(optimize)"%string ->
     Z.of_nat (length data) < st_size env n ->
     Fs.mkdirs (locate env (PyPath.parent dst_)) (w_fs w) = Some d1 ->
     env_move env (PyPath.to_str (tmp_path (env_mkdtemp env (w_ntmp w)) src_))
                  (PyPath.to_str dst_) = MoveRaised e (Some part) ->
     (ov = false -> Fs.exists_ (locate env dst_) d1 = false) ->
     Fs.put (if Fs.is_dir (locate env dst_) d1
             then locate env dst_
                    ++ [PyPath.name (tmp_path (env_mkdtemp env (w_ntmp w)) src_)]
             else locate env dst_) part d1 = Some d2 ->
     Fs.exists_ (if Fs.is_dir (locate env dst_) d1
             then locate env dst_
                    ++ [PyPath.name (tmp_path (env_mkdtemp env (w_ntmp w)) src_)]
             else locate env dst_) d1
     = negb (Fs.is_dir (locate env dst_) d1) && Fs.exists_ (locate env dst_) d1 ->
     P (Ok (mkResult src_ dst_ method_ (st_size env n) (Z.of_nat (length data))
              (st_size env n - Z.of_nat (length data))
              (percent_saved (st_size env n) (Z.of_nat (length data))) true
              ("Failed to save output: " +:+ e)))
       d2) ->
  (forall n method_ msg (data : list Byte.byte) d1 d2,
     Fs.find (locate env src_) (w_fs w) = Some n -> dry = false ->
     (method_ = "ghostscript(" +:+ q +:+ ")" /\ msg = "Compressed with Ghostscript."%string
      \/ method_ = "pikepdf(optimize)"%string /\
         msg = "Optimized with pikepdf (structure/streams)."%string) ->
     Z.of_nat (length data) < st_size env n ->
     Fs.mkdirs (locate env (PyPath.parent dst_)) (w_fs w) = Some d1 ->
     (ov = false -> Fs.exists_ (locate env dst_) d1 = false) ->
     Fs.put (if Fs.is_dir (locate env dst_) d1
             then locate env dst_
                    ++ [PyPath.name (tmp_path (env_mkdtemp env (w_ntmp w)) src_)]
             else locate env dst_) data d1 = Some d2 ->
     Fs.exists_ (if Fs.is_dir (locate env dst_) d1
             then locate env dst_
                    ++ [PyPath.name (tmp_path (env_mkdtemp env (w_ntmp w)) src_)]
             else locate env dst_) d1
     = negb (Fs.is_dir (locate env dst_) d1) && Fs.exists_ (locate env dst_) d1 ->
     P (Ok (mkResult src_ dst_ method_ (st_size env n) (Z.of_nat (length data))
              (st_size env n - Z.of_nat (length data))
              (percent_saved (st_size env n) (Z.of_nat (length data))) false msg))
       d2) ->
  forall r w', compress_one env src_ dst_ q ov dry w = (r, w') -> P r (w_fs w').
Proof.
  intros Hmissing Hdry Hfailed Hnone Hbig Hraise Hsave Hleft Hcommit r w' Hrun.
  apply compress_one_cases in Hrun.
  destruct (Fs.find (locate env src_) (w_fs w)) as [n|] eqn:Hfind.
  2:{ destruct Hrun as [(e & Hstat & ->) ->]. by apply Hmissing. }
  destruct dry.
  { destruct Hrun as [-> ->]. by apply Hdry. }
  destruct Hrun as (w2 & Hin & ->). cbn [w_fs].
  assert (Hcommitted : forall method_ msg cand evs r w3,
    (method_ = "ghostscript(" +:+ q +:+ ")" /\ msg = "Compressed with Ghostscript."%string
     \/ method_ = "pikepdf(optimize)"%string /\
        msg = "Optimized with pikepdf (structure/streams)."%string) ->
    commit_candidate env src_ dst_ (tmp_path (env_mkdtemp env (w_ntmp w)) src_) ov
      (st_size env n) method_ msg
      (touch {| w_fs := w_fs w; w_tmp := None; w_ntmp := S (w_ntmp w);
                w_trace := w_trace w
                           ++ [IoStat src_; IoMkdtemp (env_mkdtemp env (w_ntmp w))] |}
             cand evs) = (r, w3) ->
    P r (w_fs w3)).
  { intros method_ msg cand evs r0 w3 Hm Hc.
    apply commit_candidate_results in Hc. cbn [touch w_tmp w_fs] in Hc.
    destruct cand as [data|].
    2:{ destruct Hc as [-> ->]. by apply Hnone. }
    destruct (Z.leb_spec (st_size env n) (Z.of_nat (length data))) as [Hle|Hlt].
    { destruct Hc as [-> ->]. by eapply Hbig. }
    destruct Hc as (r1 & Hsw & ->).
    apply safe_write_output_cases in Hsw. cbn [touch w_tmp w_fs] in Hsw.
    assert (Hm' : method_ = "ghostscript(" +:+ q +:+ ")"
                  \/ method_ = "pikepdf(optimize)"%string)
      by (by destruct Hm as [[-> _]|[-> _]]; [left | right]).
    destruct (Fs.mkdirs_run _ (w_fs w)) as [d1|e upto d1] eqn:Hmk.
    2:{ destruct Hsw as (<- & _ & ->). by eapply Hraise. }
    apply mkdirs_Some in Hmk.
    destruct Hsw as [(smsg & -> & Hne & <- & _ & Hex)
                    |[(e & part & data' & -> & [= <-] & _ & Hmove & Hov & Hput & Hreal)
                     |(data' & -> & [= <-] & _ & Hov & Hput & Hreal)]].
    - by eapply Hsave.
    - by eapply Hleft.
    - by eapply Hcommit. }
  apply compress_in_cases in Hin as (ok & msg & cand & evs & Hout & _ & Hrest);
    [|done].
  cbn [w_fs] in Hout. apply outcome_ghostscript in Hout as [Hne Hok].
  destruct ok.
  { eapply Hcommitted; [|exact Hrest]. left. by split; [|apply Hok]. }
  destruct Hrest as (ok2 & msg2 & cand2 & evs2 & Hout2 & Hrest).
  cbn [w_fs] in Hout2. apply outcome_pikepdf in Hout2 as [Hne2 Hok2].
  destruct ok2.
  { eapply Hcommitted; [|exact Hrest]. right. by split; [|apply Hok2]. }
  destruct Hrest as [-> ->]. by apply Hfailed.
Qed.

End Rule.

(* ===================================================================== *)
(** ** What [compress_one] returns, raises and writes *)
(* ===================================================================== *)

(** X3. Every result of [compress_one] names the source and destination
    it was given, has a message that is not empty, has one of the four
    methods dry-run, failed, ghostscript(quality) and pikepdf(optimize)
    (never the initial "none"), has
    [saved_bytes = max(0, before_bytes - after_bytes)], and has a
    [saved_pct] of zero unless the candidate is smaller. *)
Theorem compress_one_result_invariants (env : Env) (src_ dst_ : Path)
    (q : string) (ov dry : bool) (w : World) (res : CompressResult) (w' : World) :
  compress_one env src_ dst_ q ov dry w = (Ok res, w') ->
  src res = src_ /\ dst res = dst_ /\ message res <> ""%string /\
  In (method res) ["dry-run"; "failed"; "ghostscript(" +:+ q +:+ ")";
                   "pikepdf(optimize)"]%string /\
  (dry = true -> method res = "dry-run"%string) /\
  saved_bytes res = Z.max 0 (before_bytes res - after_bytes res) /\
  saved_pct res = (if before_bytes res <=? after_bytes res then 0%float
                   else percent_saved (before_bytes res) (after_bytes res)).
Proof.
  intros Hrun.
  apply (compress_one_rule env src_ dst_ q ov dry w
           (fun r _ => forall res0, r = Ok res0 ->
              src res0 = src_ /\ dst res0 = dst_ /\ message res0 <> ""%string /\
              In (method res0) ["dry-run"; "failed"; "ghostscript(" +:+ q +:+ ")";
                                "pikepdf(optimize)"]%string /\
              (dry = true -> method res0 = "dry-run"%string) /\
              saved_bytes res0 = Z.max 0 (before_bytes res0 - after_bytes res0) /\
              saved_pct res0 = (if before_bytes res0 <=? after_bytes res0 then 0%float
                                else percent_saved (before_bytes res0)
                                                   (after_bytes res0))))
    with (r := Ok res) (w' := w'); [..|exact Hrun|reflexivity].
  - done.
  - intros n _ _ res0 [= <-]. cbn. rewrite Z.leb_refl.
    repeat split; try done; [tauto | lia].
  - intros n msg msg2 _ -> _ _ res0 [= <-]. cbn. rewrite Z.leb_refl.
    repeat split; try done; [tauto | lia].
  - intros n _ -> res0 [= <-]. cbn. rewrite Z.leb_refl.
    repeat split; try done; [tauto | lia].
  - intros n method_ msg data _ -> Hm Hle res0 [= <-]. cbn.
    destruct (Z.leb_spec (st_size env n) (Z.of_nat (length data))); [|lia].
    repeat split; try done; [destruct Hm as [[-> _]|[-> _]]; tauto | lia].
  - done.
  - intros n method_ data d1 smsg _ -> Hm Hlt _ Hne _ res0 [= <-]. cbn.
    destruct (Z.leb_spec (st_size env n) (Z.of_nat (length data))); [lia |].
    repeat split; try done; [destruct Hm as [->| ->]; tauto | lia].
  - intros n method_ data d1 d2 e part _ -> Hm Hlt _ _ _ _ _ res0 [= <-]. cbn.
    destruct (Z.leb_spec (st_size env n) (Z.of_nat (length data))); [lia |].
    repeat split; try done; [destruct Hm as [->| ->]; tauto | lia].
  - intros n method_ msg data d1 d2 _ -> Hm Hlt _ _ _ _ res0 [= <-]. cbn.
    destruct (Z.leb_spec (st_size env n) (Z.of_nat (length data))); [lia |].
    repeat split; try done;
      [by destruct Hm as [[_ ->]|[_ ->]]
      | destruct Hm as [[-> _]|[-> _]]; tauto | lia].
Qed.

(** X4. [compress_one] lets an exception escape in two situations and in
    no other.  The first [stat] of the source fails, also in a dry run:
    FileNotFoundError when a component of the path is missing,
    NotADirectoryError when a component that is not the last is a regular
    file; nothing was changed.  Or the candidate is smaller and the
    [mkdir] of the destination's parent, which [safe_write_output] calls
    outside its [try], finds a regular file in its way: FileExistsError or
    NotADirectoryError; the file system is the one that the [mkdir] left,
    which is the one before the call when the path of the parent is
    plain.  In both cases every file is as it was.  Whatever the two tools
    and [shutil.move] do never raises. *)
Theorem compress_one_raises_only (env : Env) (src_ dst_ : Path) (q : string)
    (ov dry : bool) (w : World) (e : PyExc) (w' : World) :
  compress_one env src_ dst_ q ov dry w = (Raise e, w') ->
  files_kept (w_fs w) (w_fs w') /\
  ((w_fs w' = w_fs w /\
    (Fs.stat (locate env src_) (w_fs w) = inl Fs.ENOENT /\
     e = FileNotFoundError (PyPath.to_str src_)
     \/
     Fs.stat (locate env src_) (w_fs w) = inl Fs.ENOTDIR /\
     e = NotADirectoryError (PyPath.to_str src_)))
   \/
   (dry = false /\
    exists err upto,
      Fs.mkdirs_run (locate env (PyPath.parent dst_)) (w_fs w)
        = Fs.MkdirRaised err upto (w_fs w') /\
      (err = Fs.EEXIST /\
       e = FileExistsError
             (PyPath.to_str (ancestor env (PyPath.parent dst_) upto))
       \/
       err = Fs.ENOTDIR /\
       e = NotADirectoryError
             (PyPath.to_str (ancestor env (PyPath.parent dst_) upto))) /\
      (plain (locate env (PyPath.parent dst_)) -> w_fs w' = w_fs w))).
Proof.
  intros Hrun.
  apply (compress_one_rule env src_ dst_ q ov dry w
           (fun r fs' => forall e0, r = Raise e0 ->
              files_kept (w_fs w) fs' /\
              ((fs' = w_fs w /\
                (Fs.stat (locate env src_) (w_fs w) = inl Fs.ENOENT /\
                 e0 = FileNotFoundError (PyPath.to_str src_)
                 \/
                 Fs.stat (locate env src_) (w_fs w) = inl Fs.ENOTDIR /\
                 e0 = NotADirectoryError (PyPath.to_str src_)))
               \/
               (dry = false /\
                exists err upto,
                  Fs.mkdirs_run (locate env (PyPath.parent dst_)) (w_fs w)
                    = Fs.MkdirRaised err upto fs' /\
                  (err = Fs.EEXIST /\
                   e0 = FileExistsError
                          (PyPath.to_str (ancestor env (PyPath.parent dst_) upto))
                   \/
                   err = Fs.ENOTDIR /\
                   e0 = NotADirectoryError
                          (PyPath.to_str (ancestor env (PyPath.parent dst_) upto))) /\
                  (plain (locate env (PyPath.parent dst_)) -> fs' = w_fs w)))))
    with (r := Raise e) (w' := w'); [..|exact Hrun|reflexivity]; try done.
  - intros err Hstat e0 [= <-]. split; [by intros p x |]. left. split; [done |].
    by destruct (stat_errno _ _ _ Hstat) as [-> | ->]; [left | right].
  - intros n err upto d1 data _ -> _ Hmk e0 [= <-]. split.
    + pose proof (mkdirs_keeps_files (locate env (PyPath.parent dst_)) (w_fs w)) as H.
      by rewrite Hmk in H.
    + right. split; [done |]. exists err, upto. split; [done |]. split.
      * by destruct (mkdirs_from_errno _ _ _ _ _ _ _ _ Hmk) as [-> | ->];
          [left | right].
      * intros Hplain. by eapply mkdirs_plain_raised.
Qed.

(** X5. A skipped result comes with no committed file.  The file system
    is as before; or, when a smaller candidate could not be saved, as
    before with the parent directories of the destination made; and only
    when [shutil.move] itself raised (the message then starts with
    "Failed to save output: "), with what the refused move left of the
    copy at the place of the destination. *)
Theorem compress_one_skipped_file_system (env : Env) (src_ dst_ : Path)
    (q : string) (ov dry : bool) (w : World) (res : CompressResult) (w' : World) :
  compress_one env src_ dst_ q ov dry w = (Ok res, w') ->
  skipped res = true ->
  w_fs w' = w_fs w \/
  (after_bytes res < before_bytes res /\
   exists d1,
     Fs.mkdirs (locate env (PyPath.parent dst_)) (w_fs w) = Some d1 /\
     (w_fs w' = d1 \/
      exists e part,
        env_move env (PyPath.to_str (tmp_path (env_mkdtemp env (w_ntmp w)) src_))
                     (PyPath.to_str dst_) = MoveRaised e (Some part) /\
        message res = "Failed to save output: " +:+ e /\
        Fs.put (if Fs.is_dir (locate env dst_) d1
                then locate env dst_
                       ++ [PyPath.name (tmp_path (env_mkdtemp env (w_ntmp w)) src_)]
                else locate env dst_) part d1 = Some (w_fs w'))).
Proof.
  intros Hrun.
  apply (compress_one_rule env src_ dst_ q ov dry w
           (fun r fs' => forall res0, r = Ok res0 -> skipped res0 = true ->
              fs' = w_fs w \/
              (after_bytes res0 < before_bytes res0 /\
               exists d1,
                 Fs.mkdirs (locate env (PyPath.parent dst_)) (w_fs w) = Some d1 /\
                 (fs' = d1 \/
                  exists e part,
                    env_move env
                      (PyPath.to_str (tmp_path (env_mkdtemp env (w_ntmp w)) src_))
                      (PyPath.to_str dst_) = MoveRaised e (Some part) /\
                    message res0 = "Failed to save output: " +:+ e /\
                    Fs.put (if Fs.is_dir (locate env dst_) d1
                            then locate env dst_
                                   ++ [PyPath.name
                                         (tmp_path (env_mkdtemp env (w_ntmp w)) src_)]
                            else locate env dst_) part d1 = Some fs'))))
    with (r := Ok res) (w' := w'); [..|exact Hrun|reflexivity]; try done;
    try (by intros; left).
  - intros n method_ data d1 smsg _ _ _ Hlt Hmk _ _ res0 [= <-] _. right.
    split; [by cbn |]. exists d1. split; [done | by left].
  - intros n method_ data d1 d2 e part _ _ _ Hlt Hmk Hmove _ Hput _ res0 [= <-] _.
    right. split; [by cbn |]. exists d1. split; [done |]. right.
    by exists e, part.
  - by intros n method_ msg data d1 d2 _ _ _ _ _ _ _ _ res0 [= <-].
Qed.


(** Without [--overwrite], [compress_one] keeps every file. *)
Lemma compress_one_files_kept (env : Env) (src_ dst_ : Path) (q : string)
    (dry : bool) :
  frame files_kept (compress_one env src_ dst_ q false dry).
Proof.
  intros w r w' Hrun p x.
  apply (compress_one_rule env src_ dst_ q false dry w
           (fun _ fs' => Fs.find p (w_fs w) = Some (File x) ->
                         Fs.find p fs' = Some (File x)))
    with (r := r) (w' := w'); [..|exact Hrun]; try done.
  - intros n e upto d1 data _ _ _ Hmk Hp.
    pose proof (mkdirs_keeps_files (locate env (PyPath.parent dst_)) (w_fs w)) as H.
    rewrite Hmk in H. by apply H.
  - intros n method_ data d1 smsg _ _ _ _ Hmk _ _ Hp.
    by apply (proj1 (mkdirs_files _ _ _ Hmk)).
  - intros n method_ data d1 d2 e part _ _ _ _ Hmk _ Hov Hput Hreal Hp.
    eapply put_keeps_files; [exact Hput | | by apply (proj1 (mkdirs_files _ _ _ Hmk))].
    rewrite Hreal, (Hov eq_refl). by rewrite andb_false_r.
  - intros n method_ msg data d1 d2 _ _ _ _ Hmk Hov Hput Hreal Hp.
    eapply put_keeps_files; [exact Hput | | by apply (proj1 (mkdirs_files _ _ _ Hmk))].
    rewrite Hreal, (Hov eq_refl). by rewrite andb_false_r.
Qed.


(** X7. Without [--overwrite], [compress_one] modifies and removes no file:
    every file that was in the file system is there afterwards, with the
    same bytes. *)
Theorem compress_one_keeps_files (env : Env) (src_ dst_ : Path) (q : string)
    (dry : bool) (w : World) (r : Res CompressResult) (w' : World)
    (p : list string) (x : list Byte.byte) :
  compress_one env src_ dst_ q false dry w = (r, w') ->
  Fs.find p (w_fs w) = Some (File x) ->
  Fs.find p (w_fs w') = Some (File x).
Proof. intros Hrun. by apply (compress_one_files_kept env src_ dst_ q dry w r w'). Qed.

(* ===================================================================== *)
(** ** Frames: what a whole run leaves of the file system *)
(* ===================================================================== *)

#[global] Instance files_kept_preorder : PreOrder files_kept.
Proof.
  split.
  - by intros d p x.
  - intros d1 d2 d3 H12 H23 p x Hp. by apply H23, H12.
Qed.

Section Frames.

Context (R : gmap string node -> gmap string node -> Prop) `{!PreOrder R}.

Lemma frame_ret {A} (a : A) : frame R (mret a).
Proof. by intros w r w' [= <- <-]. Qed.

Lemma frame_raise {A} (e : PyExc) : frame R (@raise A e).
Proof. by intros w r w' [= <- <-]. Qed.

Lemma frame_emit (ev : Event) : frame R (emit ev).
Proof. by intros w r w' [= <- <-]. Qed.

Lemma frame_get_fs : frame R get_fs.
Proof. by intros w r w' [= <- <-]. Qed.

Lemma frame_bind {A B} (m : M A) (f : A -> M B) :
  frame R m -> (forall a, frame R (f a)) -> frame R (m ≫= f).
Proof.
  intros Hm Hf w r w'. rewrite bind_run.
  destruct (m w) as [[a|e] w1] eqn:Hrun.
  - intros Hrest. etrans; [by eapply Hm | by eapply Hf].
  - intros [= <- <-]. by eapply Hm.
Qed.

End Frames.

(** Proves [frame R m] for a computation built from the primitives, given
    the frames of the calls in the context. *)
Ltac frame_tac :=
  repeat first
    [ assumption
    | match goal with
      | |- PreOrder _ => apply _
      | H : forall _, frame _ _ |- _ => apply H
      | H : forall _ _, frame _ _ |- _ => apply H
      | H : forall _ _ _, frame _ _ |- _ => apply H
      | H : forall _ _ _ _, frame _ _ |- _ => apply H
      end
    | apply frame_ret | apply frame_raise | apply frame_emit | apply frame_get_fs
    | apply frame_bind; [| |intros ?]
    | match goal with
      | |- frame _ (match ?x with _ => _ end) => destruct x
      end ].

Section MainFrames.

Context (env : Env) (R : gmap string node -> gmap string node -> Prop)
        `{!PreOrder R} (args : Args).
Context (Hone : forall src_ dst_,
            frame R (compress_one env src_ dst_ (arg_quality args)
                       (arg_overwrite args) (arg_dry_run args))).

Lemma frame_resolved (s : string) : frame R (resolved env s).
Proof. unfold resolved. cbv zeta. frame_tac. Qed.

Lemma frame_path_exists (p : Path) : frame R (path_exists env p).
Proof. unfold path_exists. frame_tac. Qed.

Lemma frame_path_is_dir (p : Path) : frame R (path_is_dir env p).
Proof. unfold path_is_dir. frame_tac. Qed.

Lemma frame_print_result (res : CompressResult) : frame R (print_result res).
Proof. unfold print_result. cbv zeta. frame_tac. Qed.

Lemma frame_find_pdfs (folder : Path) (recursive : bool) :
  frame R (find_pdfs_in_folder env folder recursive).
Proof. unfold find_pdfs_in_folder, glob. cbv zeta. frame_tac. Qed.

Lemma frame_log_summary (t : Totals) : frame R (log_summary t).
Proof. unfold log_summary. frame_tac. Qed.

Lemma frame_batch_step (folder out_dir : Path) (t : Totals) (src_ : Path) :
  frame R (batch_step env args folder out_dir t src_).
Proof.
  pose proof frame_print_result. unfold batch_step. cbv zeta. frame_tac.
Qed.

Lemma frame_batch_loop (folder out_dir : Path) (pdfs : list Path) (t : Totals) :
  frame R (batch_loop env args folder out_dir pdfs t).
Proof.
  revert t. induction pdfs as [|src_ rest IH]; intros t; cbn [batch_loop].
  - by apply frame_ret.
  - apply frame_bind; [done | apply frame_batch_step | done].
Qed.

Lemma frame_main_file (out_dir : Path) (file : string) :
  frame R (main_file env args out_dir file).
Proof.
  pose proof frame_print_result. pose proof frame_resolved.
  pose proof frame_path_exists.
  unfold main_file. cbv zeta. frame_tac.
Qed.

Lemma frame_main_folder (out_dir : Path) (folder_arg : string) :
  frame R (main_folder env args out_dir folder_arg).
Proof.
  pose proof frame_resolved. pose proof frame_path_exists.
  pose proof frame_path_is_dir. pose proof frame_find_pdfs.
  pose proof frame_batch_loop. pose proof frame_log_summary.
  unfold main_folder. cbv zeta. frame_tac.
Qed.

(** After the output directory is made, [main] is framed as its calls of
    [compress_one] are. *)
Lemma frame_main_rest (out_dir : Path) :
  frame R (match truthy (arg_file args) with
           | Some file => main_file env args out_dir file
           | None =>
               match arg_folder args with
               | Some folder_arg => main_folder env args out_dir folder_arg
               | None => raise (TypeError "expected str, bytes or os.PathLike object, not NoneType")
               end
           end).
Proof.
  destruct (truthy (arg_file args)); [apply frame_main_file |].
  destruct (arg_folder args); [apply frame_main_folder | by apply frame_raise].
Qed.

End MainFrames.

(* ===================================================================== *)
(** ** [main]: what it leaves and how it exits *)
(* ===================================================================== *)

Lemma frame_mkdir_parents (env : Env) (p : Path) :
  frame files_kept (mkdir_parents env p).
Proof.
  unfold mkdir_parents. intros w r w'. destruct w as [d t n tr]. run_monad.
  pose proof (mkdirs_keeps_files (locate env p) d) as Hkept.
  destruct (Fs.mkdirs_run _ d) as [d1|e upto d1]; simpl; by intros [= <- <-].
Qed.

(** X8. Without [--overwrite], a whole run of [main], in single-file or in
    folder mode and whatever the tools do, modifies and removes no file:
    every file that was there is there afterwards with the same bytes. *)
Theorem main_keeps_files (env : Env) (args : Args) (w : World) (r : Res Z)
    (w' : World) (p : list string) (x : list Byte.byte) :
  arg_overwrite args = false ->
  main env args w = (r, w') ->
  Fs.find p (w_fs w) = Some (File x) ->
  Fs.find p (w_fs w') = Some (File x).
Proof.
  intros Hov Hrun.
  assert (Hframe : frame files_kept (main env args)).
  { unfold main. apply frame_bind; [apply _ | apply frame_resolved; apply _ |].
    intros out_dir. apply frame_bind; [apply _ | apply frame_mkdir_parents |].
    intros _. apply frame_main_rest; [apply _ |].
    intros src_ dst_. rewrite Hov. apply compress_one_files_kept. }
  by apply (Hframe w r w' Hrun).
Qed.





(* ===================================================================== *)
(** ** The totals of a batch *)
(* ===================================================================== *)

(** The sizes in a result of [compress_one]. *)
Lemma compress_one_sizes (env : Env) (src_ dst_ : Path) (q : string)
    (ov dry : bool) (w : World) (res : CompressResult) (w' : World) :
  0 <= env_dir_size env ->
  compress_one env src_ dst_ q ov dry w = (Ok res, w') ->
  0 <= before_bytes res /\ 0 <= after_bytes res /\
  (skipped res = false -> after_bytes res < before_bytes res) /\
  (dry = true -> skipped res = true /\ String.eqb (method res) "failed" = false).
Proof.
  intros Hdir Hrun.
  assert (Hsz : forall n, 0 <= st_size env n).
  { intros [data|entries]; simpl; lia. }
  apply (compress_one_rule env src_ dst_ q ov dry w
           (fun r _ => forall res0, r = Ok res0 ->
              0 <= before_bytes res0 /\ 0 <= after_bytes res0 /\
              (skipped res0 = false -> after_bytes res0 < before_bytes res0) /\
              (dry = true ->
               skipped res0 = true /\ String.eqb (method res0) "failed" = false)))
    with (r := Ok res) (w' := w'); [..|exact Hrun|reflexivity]; try done.
  all: intros; simplify_eq; cbn; repeat split; try done; try lia; try apply Hsz.
Qed.

Section Totals.

Context (env : Env) (args : Args) (folder out_dir : Path).
Context (Hdir : 0 <= env_dir_size env).

Lemma batch_step_counts (t : Totals) (src_ : Path) (w : World) (t' : Totals)
    (w' : World) :
  batch_step env args folder out_dir t src_ w = (Ok t', w') ->
  saved_files t' + skipped_files t' + failed_files t'
    = saved_files t + skipped_files t + failed_files t + 1 /\
  saved_files t <= saved_files t' /\
  total_after t <= total_after t' /\
  (total_after t' - total_after t) + (saved_files t' - saved_files t)
    <= total_before t' - total_before t /\
  (arg_dry_run args = true ->
   saved_files t' = saved_files t /\ failed_files t' = failed_files t /\
   total_after t' = total_after t).
Proof.
  unfold batch_step. cbv zeta. rewrite bind_run.
  destruct (compress_one env src_ _ _ _ _ w) as [[res|e] w1] eqn:Hone; [|done].
  apply compress_one_sizes in Hone as (Hb & Ha & Hns & Hd); [|done].
  rewrite bind_run. destruct (print_result res w1) as [[[]|e] w2]; [|done].
  destruct (skipped res) eqn:Hs; destruct (arg_dry_run args) eqn:Hdry; cbn [negb andb].
  all: try (destruct (Hd eq_refl) as [? Hm]; try done; rewrite Hm).
  all: try specialize (Hns eq_refl).
  all: try destruct (String.eqb (method res) "failed").
  all: intros [= <- <-]; cbn; repeat split; try done; lia.
Qed.

Lemma batch_loop_counts (pdfs : list Path) (t : Totals) (w : World)
    (t' : Totals) (w' : World) :
  batch_loop env args folder out_dir pdfs t w = (Ok t', w') ->
  saved_files t' + skipped_files t' + failed_files t'
    = saved_files t + skipped_files t + failed_files t + Z.of_nat (length pdfs) /\
  saved_files t <= saved_files t' /\
  total_after t <= total_after t' /\
  (total_after t' - total_after t) + (saved_files t' - saved_files t)
    <= total_before t' - total_before t /\
  (arg_dry_run args = true ->
   saved_files t' = saved_files t /\ failed_files t' = failed_files t /\
   total_after t' = total_after t).
Proof.
  revert t w. induction pdfs as [|src_ rest IH]; intros t w.
  { intros [= <- <-]. cbn. repeat split; lia. }
  change (batch_loop env args folder out_dir (src_ :: rest) t w)
    with ((batch_step env args folder out_dir t src_
             ≫= fun t1 => batch_loop env args folder out_dir rest t1) w).
  rewrite bind_run.
  destruct (batch_step env args folder out_dir t src_ w) as [[t1|e] w1] eqn:Hstep;
    [|done].
  apply batch_step_counts in Hstep as (H1 & H2 & H3 & H4 & H5).
  intros Hrest. apply IH in Hrest as (G1 & G2 & G3 & G4 & G5).
  cbn [length]. split; [lia |]. split; [lia |]. split; [lia |]. split; [lia |].
  intros Hd. destruct (H5 Hd) as (? & ? & ?). destruct (G5 Hd) as (? & ? & ?).
  repeat split; lia.
Qed.

End Totals.

(** X11. The folder loop counts every file exactly once, as saved, skipped
    or failed.  Every saved file is smaller than its source, so the bytes
    after plus the number of saved files never exceed the bytes before: the
    summary never reports negative savings.  A dry run counts every file
    as skipped and adds nothing to the bytes after. *)
Theorem batch_loop_totals (env : Env) (args : Args) (folder out_dir : Path)
    (pdfs : list Path) (w : World) (t' : Totals) (w' : World) :
  0 <= env_dir_size env ->
  batch_loop env args folder out_dir pdfs (mkTotals 0 0 0 0 0) w = (Ok t', w') ->
  saved_files t' + skipped_files t' + failed_files t' = Z.of_nat (length pdfs) /\
  0 <= saved_files t' /\ 0 <= total_after t' /\
  total_after t' + saved_files t' <= total_before t' /\
  0 <= summary_saved_bytes t' /\
  (arg_dry_run args = true ->
   skipped_files t' = Z.of_nat (length pdfs) /\ total_after t' = 0).
Proof.
  intros Hdir Hrun.
  apply batch_loop_counts in Hrun as (H1 & H2 & H3 & H4 & H5); [|done].
  cbn in *. unfold summary_saved_bytes.
  split; [lia |]. split; [lia |]. split; [lia |]. split; [lia |].
  split; [destruct (0 <? total_after t'); lia |].
  intros Hd. destruct (H5 Hd) as (? & ? & ?). split; lia.
Qed.

(* ===================================================================== *)
(** ** The enumeration of a folder *)
(* ===================================================================== *)

(** What [Fs.glob] finds: each entry whose name ends with the extension,
    once. *)
Lemma fs_glob_spec (ext : string) (d : gmap string node) :
  NoDup (Fs.glob ext d) /\
  forall p, p ∈ Fs.glob ext d <->
            exists nm, p = [nm] /\ is_Some (d !! nm) /\ PyStr.endswith nm ext = true.
Proof.
  unfold Fs.glob.
  apply (map_fold_weak_ind
           (fun acc (m : gmap string node) =>
              NoDup acc /\
              forall p, p ∈ acc <->
                exists nm, p = [nm] /\ is_Some (m !! nm) /\
                           PyStr.endswith nm ext = true)).
  - split; [constructor |]. intros p. split; [by intros ?%elem_of_nil |].
    intros (nm & _ & [x Hx] & _). by rewrite lookup_empty in Hx.
  - intros nm x m acc Hnone [Hnd IH].
    destruct (PyStr.endswith nm ext) eqn:Hend.
    + split.
      * apply NoDup_app. split; [done |]. split; [|apply NoDup_singleton].
        intros p Hp ->%list_elem_of_singleton.
        apply IH in Hp as (nm' & [= <-] & [y Hy] & _). congruence.
      * intros p. rewrite elem_of_app, list_elem_of_singleton, IH. split.
        -- intros [(nm' & -> & [y Hy] & He)| ->].
           ++ exists nm'. split; [done |]. split; [|done].
              destruct (decide (nm = nm')) as [<-|Hne]; [congruence |].
              rewrite lookup_insert_ne by done. by exists y.
           ++ exists nm. split; [done |]. split; [|done].
              rewrite lookup_insert_eq. by eexists.
        -- intros (nm' & -> & [y Hy] & He).
           destruct (decide (nm = nm')) as [<-|Hne]; [by right |].
           left. exists nm'. split; [done |]. split; [|done].
           rewrite lookup_insert_ne in Hy by done. by exists y.
    + split; [done |]. intros p. rewrite IH. split.
      * intros (nm' & -> & [y Hy] & He). exists nm'. split; [done |]. split; [|done].
        destruct (decide (nm = nm')) as [<-|Hne]; [congruence |].
        rewrite lookup_insert_ne by done. by exists y.
      * intros (nm' & -> & [y Hy] & He). exists nm'. split; [done |]. split; [|done].
        destruct (decide (nm = nm')) as [<-|Hne]; [congruence |].
        rewrite lookup_insert_ne in Hy by done. by exists y.
Qed.

Lemma endswith_pdf_or_PDF (nm : string) :
  PyStr.endswith nm ".pdf" = true -> PyStr.endswith nm ".PDF" = true -> False.
Proof.
  unfold PyStr.endswith. cbn [String.length].
  intros [_ H1%String.eqb_eq]%andb_true_iff [_ H2%String.eqb_eq]%andb_true_iff.
  congruence.
Qed.

(** X12. Without [--recursive], the enumeration of a folder never raises
    and changes nothing.  It returns, each once, the entries of the folder
    whose name ends with .pdf or with .PDF, joined to the folder, and no
    other (the match is by letter case: .Pdf is not enumerated).  A folder
    that is not a directory gives the empty list. *)
Theorem find_pdfs_in_folder_flat (env : Env) (folder : Path) (w : World) :
  exists l w',
    find_pdfs_in_folder env folder false w = (Ok l, w') /\
    w_fs w' = w_fs w /\
    match Fs.find (locate env folder) (w_fs w) with
    | Some (Dir entries) =>
        NoDup l /\
        forall p, In p l <->
          exists nm, is_Some (entries !! nm) /\
            (PyStr.endswith nm ".pdf" = true \/ PyStr.endswith nm ".PDF" = true) /\
            p = PyPath.joinpath folder {| absolute := false; parts := [nm] |}
    | _ => l = []
    end.
Proof.
  unfold find_pdfs_in_folder, glob. destruct w as [d t n tr]. run_monad.
  eexists _, _. split; [reflexivity |]. split; [done |]. cbn [w_fs].
  destruct (Fs.find (locate env folder) d) as [[data|entries]|]; [done | | done].
  destruct (fs_glob_spec ".pdf" entries) as [Hnd1 H1].
  destruct (fs_glob_spec ".PDF" entries) as [Hnd2 H2].
  assert (Hinj : Inj (=) (=)
            (fun rel => PyPath.joinpath folder {| absolute := false; parts := rel |})).
  { intros r1 r2. unfold PyPath.joinpath. cbn. intros [= H]. by simplify_list_eq. }
  split.
  - apply NoDup_app. split; [by apply NoDup_fmap_2 |].
    split; [|by apply NoDup_fmap_2].
    intros p (r1 & -> & Hr1)%list_elem_of_fmap (r2 & Heq & Hr2)%list_elem_of_fmap.
    apply Hinj in Heq as <-.
    apply H1 in Hr1 as (nm & -> & _ & He1). apply H2 in Hr2 as (nm' & [= <-] & _ & He2).
    by eapply endswith_pdf_or_PDF.
  - intros p. rewrite <- list_elem_of_In, elem_of_app, !list_elem_of_fmap. split.
    + intros [(r & -> & Hr)|(r & -> & Hr)].
      * apply H1 in Hr as (nm & -> & Hs & He). exists nm. auto.
      * apply H2 in Hr as (nm & -> & Hs & He). exists nm. auto.
    + intros (nm & Hs & [He|He] & ->).
      * left. exists [nm]. split; [done |]. apply H1. by exists nm.
      * right. exists [nm]. split; [done |]. apply H2. by exists nm.
Qed.

(* ===================================================================== *)
(** ** More about the path mapper *)
(* ===================================================================== *)

(** X13. Whatever the source and the batch root, the destination is the
    output directory followed by a relative part, and that part is made of
    the last components of the source: its name, or what follows the batch
    root.  When the source is plain (as every path that [main] passes is,
    being resolved) the relative part is plain too: the destination does
    not leave [out_dir] through a [..].  The relative part is empty, and
    the destination [out_dir] itself, only when the source has no name or
    is the batch root. *)
Theorem ensure_output_path_under_out_dir (source : Path)
    (input_root : option Path) (out_dir : Path) :
  exists rel,
    ensure_output_path source input_root out_dir
    = {| absolute := absolute out_dir; parts := parts out_dir ++ rel |} /\
    PyPath.relative_to (ensure_output_path source input_root out_dir) out_dir
    = Some {| absolute := false; parts := rel |} /\
    (exists pre, parts source = pre ++ rel) /\
    (plain (parts source) -> plain rel) /\
    (rel = [] ->
     PyPath.name source = ""%string \/
     exists root, input_root = Some root /\ is_under source root []).
Proof.
  assert (H : forall rel,
             PyPath.relative_to
               {| absolute := absolute out_dir; parts := parts out_dir ++ rel |}
               out_dir = Some {| absolute := false; parts := rel |}).
  { intros rel. unfold PyPath.relative_to. cbn.
    rewrite strip_prefix_app. by destruct (absolute out_dir). }
  assert (Hplain : forall pre rel, parts source = pre ++ rel ->
                     plain (parts source) -> plain rel).
  { intros pre rel Heq Hp Hin. apply Hp. rewrite Heq. apply in_or_app. by right. }
  assert (Hname : exists rel,
             PyPath.join_name out_dir (PyPath.name source)
             = {| absolute := absolute out_dir; parts := parts out_dir ++ rel |} /\
             (exists pre, parts source = pre ++ rel) /\
             (rel = [] -> PyPath.name source = ""%string)).
  { unfold PyPath.join_name, PyPath.joinpath, PyPath.name. cbn.
    destruct (String.eqb_spec (List.last (parts source) "") "") as [Hn|Hn].
    - exists []. split; [done |]. split; [|done].
      exists (parts source). by rewrite app_nil_r.
    - exists [List.last (parts source) ""%string]. split; [done |]. split; [|done].
      exists (List.removelast (parts source)). apply app_removelast_last.
      intros Hnil. by rewrite Hnil in Hn. }
  unfold ensure_output_path.
  destruct input_root as [root|].
  - destruct (PyPath.relative_to source root) as [[a r]|] eqn:Hrel.
    + unfold PyPath.relative_to in Hrel.
      destruct (Bool.eqb _ _) eqn:Habs; [|done].
      destruct (PyPath.strip_prefix _ _) as [r'|] eqn:Hstrip; [|done].
      injection Hrel as <- <-. apply strip_prefix_Some in Hstrip.
      exists r'. unfold PyPath.joinpath. cbn. split; [done |]. split; [apply H |].
      split; [by exists (parts root) |]. split; [by eapply Hplain |].
      intros ->. right. exists root. split; [done |]. split; [|done].
      by apply Bool.eqb_prop.
    + destruct Hname as (rel & -> & Hpre & Hnil). exists rel.
      split; [done |]. split; [apply H |]. split; [done |].
      destruct Hpre as [pre Hpre]. split; [by eapply Hplain |].
      intros Hrel0. left. by apply Hnil.
  - destruct Hname as (rel & -> & Hpre & Hnil). exists rel.
    split; [done |]. split; [apply H |]. split; [done |].
    destruct Hpre as [pre Hpre]. split; [by eapply Hplain |].
    intros Hrel0. left. by apply Hnil.
Qed.

(** X14. In a batch, the sources under the batch root keep their relative
    path under the output directory, and two different sources never get
    the same destination. *)
Theorem ensure_output_path_injective (s1 s2 root out_dir : Path)
    (r1 r2 : list string) :
  is_under s1 root r1 -> is_under s2 root r2 ->
  PyPath.relative_to (ensure_output_path s1 (Some root) out_dir) out_dir
  = PyPath.relative_to s1 root /\
  (ensure_output_path s1 (Some root) out_dir
   = ensure_output_path s2 (Some root) out_dir -> s1 = s2).
Proof.
  intros H1 H2.
  unfold ensure_output_path.
  rewrite (relative_to_under _ _ _ H1), (relative_to_under _ _ _ H2).
  unfold PyPath.joinpath. cbn. split.
  - unfold PyPath.relative_to. cbn. rewrite strip_prefix_app.
    by destruct (absolute out_dir).
  - intros [= Heq]. apply app_inv_head in Heq as ->.
    destruct H1 as [Ha1 Hp1], H2 as [Ha2 Hp2].
    destruct s1, s2. cbn in *. congruence.
Qed.

(* ===================================================================== *)
(** ** More about the size formatter *)
(* ===================================================================== *)

(** X15. Below 1024 the size is printed in bytes, as an integer without
    decimals. *)
Theorem human_bytes_below_1024 (n : Z) :
  0 <= n < 1024 -> human_bytes n = PyStr.of_int n +:+ " B".
Proof.
  intros Hn.
  assert (Hall : forallb (fun k => String.eqb (human_bytes (Z.of_nat k))
                                     (PyStr.of_int (Z.of_nat k) +:+ " B"))
                         (seq 0 1024) = true) by (vm_compute; reflexivity).
  rewrite forallb_forall in Hall.
  specialize (Hall (Z.to_nat n)). rewrite Z2Nat.id in Hall by lia.
  apply String.eqb_eq, Hall, in_seq. lia.
Qed.


(* ===================================================================== *)
(** ** The two strategies, as their callers see them *)
(* ===================================================================== *)



(* ===================================================================== *)
(** ** The further theorems at concrete inputs *)
(* ===================================================================== *)

(** The invariants of the result of the first file of the batch. *)
Lemma compress_one_result_invariants_witness :
  Examples.run_a = (Ok Examples.res_a, snd Examples.run_a) /\
  message Examples.res_a <> ""%string /\
  saved_bytes Examples.res_a
  = Z.max 0 (before_bytes Examples.res_a - after_bytes Examples.res_a).
Proof.
  assert (H : Examples.run_a = (Ok Examples.res_a, snd Examples.run_a))
    by (vm_compute; reflexivity).
  split; [exact H |].
  destruct (compress_one_result_invariants Examples.env_three Examples.a_pdf
              Examples.out_a_pdf "ebook" false false
              (Examples.world_of Examples.fs_three) Examples.res_a
              (snd Examples.run_a) H) as (_ & _ & Hmsg & _ & _ & Hsaved & _).
  split; [exact Hmsg | exact Hsaved].
Defined.

(** A source below the regular file /in/a.pdf: the [stat] raises
    NotADirectoryError; a source that is missing: FileNotFoundError; a
    destination whose parent is the regular file /in/a.pdf: the [mkdir]
    raises FileExistsError. *)
Lemma compress_one_raises_only_witness :
  MoreExamples.run_below_file
  = (Raise (NotADirectoryError "/in/a.pdf/x.pdf"), snd MoreExamples.run_below_file) /\
  files_kept Examples.fs_three (w_fs (snd MoreExamples.run_below_file)) /\
  MoreExamples.run_missing
  = (Raise (FileNotFoundError "/in/missing.pdf"), snd MoreExamples.run_missing) /\
  files_kept Examples.fs_three (w_fs (snd MoreExamples.run_missing)) /\
  MoreExamples.run_a_under
  = (Raise (FileExistsError "/in/a.pdf"), snd MoreExamples.run_a_under) /\
  files_kept Examples.fs_three (w_fs (snd MoreExamples.run_a_under)).
Proof.
  assert (H1 : MoreExamples.run_below_file
               = (Raise (NotADirectoryError "/in/a.pdf/x.pdf"),
                  snd MoreExamples.run_below_file))
    by (vm_compute; reflexivity).
  assert (H2 : MoreExamples.run_missing
               = (Raise (FileNotFoundError "/in/missing.pdf"),
                  snd MoreExamples.run_missing))
    by (vm_compute; reflexivity).
  assert (H3 : MoreExamples.run_a_under
               = (Raise (FileExistsError "/in/a.pdf"),
                  snd MoreExamples.run_a_under))
    by (vm_compute; reflexivity).
  split; [exact H1 |]. split.
  { exact (proj1 (compress_one_raises_only Examples.env_three
                    MoreExamples.below_file Examples.out_a_pdf "ebook" false true
                    (Examples.world_of Examples.fs_three) _ _ H1)). }
  split; [exact H2 |]. split.
  { exact (proj1 (compress_one_raises_only Examples.env_three
                    MoreExamples.missing_pdf Examples.out_a_pdf "ebook" false false
                    (Examples.world_of Examples.fs_three) _ _ H2)). }
  split; [exact H3 |].
  exact (proj1 (compress_one_raises_only Examples.env_three
                  Examples.a_pdf MoreExamples.under_a_pdf "ebook" false false
                  (Examples.world_of Examples.fs_three) _ _ H3)).
Defined.

(** The move of the first file of the batch is refused on a full device:
    the result is skipped, /out was made, and 50 bytes of the copy are at
    /out/a.pdf. *)
Lemma compress_one_skipped_file_system_witness :
  MoreExamples.run_a_full = (Ok MoreExamples.res_a_full, snd MoreExamples.run_a_full) /\
  Fs.find ["out"; "a.pdf"]%string (w_fs (snd MoreExamples.run_a_full))
  = Some (File (Examples.bytes 50)) /\
  (w_fs (snd MoreExamples.run_a_full) = Examples.fs_three \/
   (after_bytes MoreExamples.res_a_full < before_bytes MoreExamples.res_a_full /\
    exists d1,
      Fs.mkdirs ["out"]%string Examples.fs_three = Some d1 /\
      (w_fs (snd MoreExamples.run_a_full) = d1 \/
       exists e part,
         MoveRaised "[Errno 28] No space left on device" (Some (Examples.bytes 50))
         = MoveRaised e (Some part) /\
         message MoreExamples.res_a_full = "Failed to save output: " +:+ e /\
         Fs.put (if Fs.is_dir ["out"; "a.pdf"]%string d1
                 then ["out"; "a.pdf"; "a.compressed.pdf"]%string
                 else ["out"; "a.pdf"]%string) part d1
         = Some (w_fs (snd MoreExamples.run_a_full))))).
Proof.
  assert (H : MoreExamples.run_a_full
              = (Ok MoreExamples.res_a_full, snd MoreExamples.run_a_full))
    by (vm_compute; reflexivity).
  split; [exact H |]. split; [vm_compute; reflexivity |].
  exact (compress_one_skipped_file_system MoreExamples.env_full_device
           Examples.a_pdf Examples.out_a_pdf "ebook" false false
           (Examples.world_of Examples.fs_three) MoreExamples.res_a_full
           (snd MoreExamples.run_a_full) H eq_refl).
Defined.


(** The source of the first file is still there after it was compressed. *)
Lemma compress_one_keeps_files_witness :
  Fs.find ["in"; "a.pdf"]%string Examples.fs_three
  = Some (File (Examples.bytes 300)) /\
  Fs.find ["in"; "a.pdf"]%string (w_fs (snd Examples.run_a))
  = Some (File (Examples.bytes 300)).
Proof.
  assert (H : Fs.find ["in"; "a.pdf"]%string Examples.fs_three
              = Some (File (Examples.bytes 300))) by (vm_compute; reflexivity).
  split; [exact H |].
  exact (compress_one_keeps_files Examples.env_three Examples.a_pdf
           Examples.out_a_pdf "ebook" false
           (Examples.world_of Examples.fs_three) (fst Examples.run_a)
           (snd Examples.run_a) _ _ (surjective_pairing _) H).
Defined.

(** The three sources are still there after the batch. *)
Lemma main_keeps_files_witness :
  Fs.find ["in"; "c.pdf"]%string Examples.fs_three
  = Some (File (Examples.bytes 500)) /\
  Fs.find ["in"; "c.pdf"]%string (w_fs (snd MoreExamples.run_main_folder))
  = Some (File (Examples.bytes 500)).
Proof.
  assert (H : Fs.find ["in"; "c.pdf"]%string Examples.fs_three
              = Some (File (Examples.bytes 500))) by (vm_compute; reflexivity).
  split; [exact H |].
  exact (main_keeps_files Examples.env_three Examples.args_folder
           (Examples.world_of Examples.fs_three) (fst MoreExamples.run_main_folder)
           (snd MoreExamples.run_main_folder) _ _ eq_refl (surjective_pairing _) H).
Defined.



(** The totals of the batch of three files. *)
Lemma batch_loop_totals_witness :
  MoreExamples.run_loop = (Ok MoreExamples.totals_three, snd MoreExamples.run_loop) /\
  saved_files MoreExamples.totals_three + skipped_files MoreExamples.totals_three
    + failed_files MoreExamples.totals_three = 3.
Proof.
  assert (H : MoreExamples.run_loop
              = (Ok MoreExamples.totals_three, snd MoreExamples.run_loop))
    by (vm_compute; reflexivity).
  split; [exact H |].
  exact (proj1 (batch_loop_totals Examples.env_three Examples.args_folder
                  Examples.p_in Examples.p_out Examples.three_pdfs
                  (Examples.world_of Examples.fs_three) MoreExamples.totals_three
                  (snd MoreExamples.run_loop) ltac:(vm_compute; discriminate) H)).
Defined.

(** Two files of one folder get two destinations. *)
Lemma ensure_output_path_injective_witness :
  is_under Examples.a_pdf Examples.p_in ["a.pdf"]%string /\
  is_under MoreExamples.b_pdf Examples.p_in ["b.pdf"]%string /\
  (ensure_output_path Examples.a_pdf (Some Examples.p_in) Examples.p_out
   = ensure_output_path MoreExamples.b_pdf (Some Examples.p_in) Examples.p_out ->
   Examples.a_pdf = MoreExamples.b_pdf).
Proof.
  assert (Ha : is_under Examples.a_pdf Examples.p_in ["a.pdf"]%string)
    by (split; reflexivity).
  assert (Hb : is_under MoreExamples.b_pdf Examples.p_in ["b.pdf"]%string)
    by (split; reflexivity).
  split; [exact Ha |]. split; [exact Hb |].
  exact (proj2 (ensure_output_path_injective Examples.a_pdf MoreExamples.b_pdf
                  Examples.p_in Examples.p_out _ _ Ha Hb)).
Defined.

(** The last size that is printed in bytes. *)
Lemma human_bytes_below_1024_witness : human_bytes 1023 = "1023 B"%string.
Proof. apply (human_bytes_below_1024 1023). lia. Defined.

(** The destination of a plain source stays under /out. *)
Lemma ensure_output_path_under_out_dir_witness :
  plain (parts Examples.a_pdf) /\
  exists rel,
    ensure_output_path Examples.a_pdf (Some Examples.p_in) Examples.p_out
    = {| absolute := true; parts := ["out"]%string ++ rel |} /\
    plain rel.
Proof.
  assert (Hp : plain (parts Examples.a_pdf)).
  { intros [H|[H|[]]]; discriminate H. }
  split; [exact Hp |].
  destruct (ensure_output_path_under_out_dir Examples.a_pdf (Some Examples.p_in)
              Examples.p_out) as (rel & Heq & _ & _ & Hplain & _).
  exists rel. split; [exact Heq | exact (Hplain Hp)].
Defined.

